(** * Scaffold-mutation scripts of the Central Sequence Service

    A shallow embedding of the Python maintenance scripts
    ([clean_vapor_project.py], [setup_openapiserve.py],
    [setup_openapimiddleware.py], [fix_nested_resources.py],
    [fix_resources.py], [fix_resource_conflicts.py],
    [rollback_redoc_setup.py], [validate_redoc_setup.py],
    [setup_redoc_vapor.py], [create_openapi_solution.py]) and the
    properties their specification states about them, followed by
    further properties of the same code.

    Text is modelled as Python sees it in text mode: a file is a string
    whose line terminator is the newline character, [readlines] cuts it
    after every newline and [writelines] concatenates.  The file system is
    a finite map from paths (lists of components below the working
    directory) to nodes; a script is a computation over the file system
    and the standard output that may raise a Python exception. *)

From Stdlib Require Import Ascii String.
From stdpp Require Import gmap strings list.

(** ** Text *)

Module Text.

(** The newline and the double quote of the Python string literals. *)
Definition nl_char : ascii := "010"%char.
Definition nl : string := String nl_char "".
Definition dq : string := String "034"%char "".

(** Python's [pattern in line] on [str]: substring containment. *)
Fixpoint contains (needle hay : string) : bool :=
  String.prefix needle hay ||
  match hay with
  | "" => false
  | String _ rest => contains needle rest
  end.

(** [f.readlines()]: the lines of a text, each with its terminator; only
    the last line may lack one. *)
Fixpoint readlines (s : string) : list string :=
  match s with
  | "" => []
  | String c rest =>
      if Ascii.eqb c nl_char then String c "" :: readlines rest
      else match readlines rest with
           | [] => [String c ""]
           | l :: ls => String c l :: ls
           end
  end.

(** [f.writelines(lines)]: the concatenation, nothing added. *)
Definition writelines (lines : list string) : string :=
  foldr String.append "" lines.

(** The specification's notion of a line matching a pattern. *)
Definition Substring (p s : string) : Prop :=
  ∃ a b, s = a +:+ p +:+ b.

(** A line break that is not the last character of the string. *)
Fixpoint embedded_break (s : string) : bool :=
  match s with
  | "" => false
  | String c rest =>
      (Ascii.eqb c nl_char && negb (String.eqb rest "")) || embedded_break rest
  end.

End Text.

(** ** Operations on the lines of a document

    The in-memory part of each read/modify/write step: a function from
    the list returned by [readlines] to the list given to [writelines]. *)

Module Doc.
Import Text.

(** *** clean_vapor_project.py, rollback_redoc_setup.py: line filters *)

(** [any(pattern in line for pattern in patterns_to_remove)] *)
Definition any_pattern_in (patterns_to_remove : list string) (line : string) : bool :=
  existsb (λ pattern, contains pattern line) patterns_to_remove.

(** [cleaned_lines] of [clean_file]. *)
Definition cleaned_lines (lines patterns_to_remove : list string) : list string :=
  List.filter (λ line, negb (any_pattern_in patterns_to_remove line)) lines.

(** [cleaned_content] of the routes.swift step of [rollback_redoc_setup]. *)
Definition rollback_routes_cleaned (content : list string) : list string :=
  List.filter
    (λ line, negb (contains "openapi.yml" line) && negb (contains "docs" line))
    content.

(** [cleaned_content] of the configure.swift step of [rollback_redoc_setup]. *)
Definition rollback_configure_cleaned (content : list string) : list string :=
  List.filter (λ line, negb (contains ".leaf" line)) content.

(** The specification's reading of a line that is kept: it contains none
    of the patterns. *)
Definition matches_none (P : list string) (line : string) : Prop :=
  ∀ p, p ∈ P → ¬ Substring p line.

(** *** setup_openapiserve.py, setup_openapimiddleware.py: append_to_file *)

(** The [for i, line in enumerate(lines)] search: the index at which the
    loop breaks, [None] when it runs to its [else]. *)
Fixpoint first_index (marker : string) (lines : list string) : option nat :=
  match lines with
  | [] => None
  | line :: rest =>
      if contains marker line then Some 0
      else S <$> first_index marker rest
  end.

(** [lines.insert(i, x)] for [i <= len(lines)]. *)
Definition list_insert_at (i : nat) (x : string) (lines : list string) : list string :=
  take i lines ++ x :: drop i lines.

(** Python truth value of the [marker] argument: [None] and the empty
    string are false. *)
Definition truthy (marker : option string) : option string :=
  match marker with
  | Some "" => None
  | m => m
  end.

(** The body of [append_to_file] between [readlines] and [writelines]. *)
Definition append_lines (lines : list string) (content : string)
    (marker : option string) : list string :=
  match truthy marker with
  | Some m =>
      match first_index m lines with
      | Some i => list_insert_at (i + 1) (content +:+ nl) lines
      | None => lines ++ [content +:+ nl]
      end
  | None => lines ++ [content +:+ nl]
  end.

(** *** fix_nested_resources.py, fix_resources.py, fix_resource_conflicts.py:
    the Package.swift loops *)

Definition process_views : string :=
  "                .process(" +:+ dq +:+ "Sources/App/Resources/Views" +:+ dq +:+ ")," +:+ nl.
Definition process_openapi : string :=
  "                .process(" +:+ dq +:+ "Sources/App/Resources/openapi.yml" +:+ dq +:+ ")," +:+ nl.

Definition EXCLUDE_FILES : list string :=
  [ ".build/checkouts/leaf-kit/Sources/LeafKit/Docs.docc";
    ".build/checkouts/swift-algorithms/Sources/Algorithms/Documentation.docc" ].

(** [f'        "{exclude}",\n'] *)
Definition exclude_line (exclude : string) : string :=
  "        " +:+ dq +:+ exclude +:+ dq +:+ "," +:+ nl.

(** The three scripts share the shape of the resources loop and differ in
    the test of the lines they skip; [resources_updated] is the flag of
    the loop. *)
Fixpoint resources_loop (skip : string → bool) (package_content : list string)
    (resources_updated : bool) : list string :=
  match package_content with
  | [] => []
  | line :: rest =>
      if skip line then resources_loop skip rest resources_updated
      else if contains "resources: [" line && negb resources_updated then
        line :: process_views :: process_openapi :: resources_loop skip rest true
      else line :: resources_loop skip rest resources_updated
  end.

Module nested.
(** fix_nested_resources.py, step 3 *)
Definition skip (line : string) : bool :=
    contains (".process(" +:+ dq +:+ "Sources/App/Sources/App/Resources") line.
Definition update_resources (package_content : list string) : list string :=
    resources_loop skip package_content false.
End nested.

Module flat.
(** fix_resources.py, step 3 *)
Definition skip (line : string) : bool :=
    contains (".process(" +:+ dq +:+ "Resources") line &&
    (contains "Resources/Views" line || contains "Resources/openapi.yml" line).
Definition update_resources (package_content : list string) : list string :=
    resources_loop skip package_content false.
End flat.

Module conflicts.
(** fix_resource_conflicts.py, step 3 *)
Definition skip (line : string) : bool :=
    contains (".process(" +:+ dq +:+ "Sources/App/Resources") line.
Definition update_resources (package_content : list string) : list string :=
    resources_loop skip package_content false.
End conflicts.

(** Step 4, the same text in the three scripts; [exclusions_updated] is
    the flag of the loop. *)
Fixpoint exclusions_loop (package_content : list string)
    (exclusions_updated : bool) : list string :=
  match package_content with
  | [] => []
  | line :: rest =>
      if contains "exclude: [" line && negb exclusions_updated then
        line :: (exclude_line <$> EXCLUDE_FILES) ++ exclusions_loop rest true
      else line :: exclusions_loop rest exclusions_updated
  end.

Definition add_exclusions (package_content : list string) : list string :=
  exclusions_loop package_content false.

End Doc.

(** ** The file system and the standard output

    A path is the list of its components below the working directory of
    the script, which always exists and is a directory.  Symbolic links,
    permissions and devices are not modelled. *)

Module Os.
Import Text.

Inductive node : Type :=
| File (content : string)
| Dir.

Inductive exn : Type :=
| FileNotFoundError (p : list string)
| FileExistsError (p : list string)
| NotADirectoryError (p : list string)
| IsADirectoryError (p : list string)
| OSError (p : list string)
| ShutilError (p : list string).

Record world : Type := World {
  tree : gmap (list string) node;
  stdout : list string
}.

Inductive outcome (A : Type) : Type :=
| Returned (a : A)
| Raised (e : exn)
| OutOfFuel.
Arguments Returned {A} a.
Arguments Raised {A} e.
Arguments OutOfFuel {A}.

(** A script: it reads and changes the world, and ends normally, with an
    uncaught exception, or is cut short by the step bound of a traversal.
    The world at that point is kept in each case. *)
Definition M (A : Type) : Type := world → outcome A * world.

#[global] Instance M_ret : MRet M := λ A a w, (Returned a, w).
#[global] Instance M_bind : MBind M := λ A B f m w,
  match m w with
  | (Returned a, w') => f a w'
  | (Raised e, w') => (Raised e, w')
  | (OutOfFuel, w') => (OutOfFuel, w')
  end.

Definition raise {A : Type} (e : exn) : M A := λ w, (Raised e, w).
Definition out_of_fuel {A : Type} : M A := λ w, (OutOfFuel, w).
Definition get_tree : M (gmap (list string) node) := λ w, (Returned (tree w), w).
Definition put_tree (t : gmap (list string) node) : M unit :=
  λ w, (Returned (), World t (stdout w)).

(** [print(s)] *)
Definition print (s : string) : M unit :=
  λ w, (Returned (), World (tree w) (stdout w ++ [s])).

(** [for x in xs: body(x)] *)
Fixpoint for_each {A : Type} (xs : list A) (body : A → M unit) : M unit :=
  match xs with
  | [] => mret ()
  | x :: rest => body x ;; for_each rest body
  end.

(** [try: m  except FileExistsError: pass] *)
Definition except_FileExistsError_pass (m : M unit) : M unit := λ w,
  match m w with
  | (Raised (FileExistsError _), w') => (Returned (), w')
  | r => r
  end.

(** [try: m  except OSError: handler]; every exception of this model but
    [shutil.Error] is an [OSError]. *)
Definition except_OSError (m : M unit) (handler : exn → M unit) : M unit := λ w,
  match m w with
  | (Raised (ShutilError p), w') => (Raised (ShutilError p), w')
  | (Raised e, w') => handler e w'
  | r => r
  end.

(** *** Paths *)

Definition dirname (p : list string) : list string := take (length p - 1) p.
Definition basename (p : list string) : string := default "" (last p).

(** [path.endswith("/")] *)
Fixpoint ends_with_sep (path : string) : bool :=
  match path with
  | "" => false
  | String c "" => Ascii.eqb c "/"%char
  | String _ rest => ends_with_sep rest
  end.

(** [os.path.join(path, b)] for a component [b] that is not absolute. *)
Definition path_join (path b : string) : string :=
  if String.eqb path "" || ends_with_sep path then path +:+ b
  else path +:+ "/" +:+ b.

(** The string of a path built by [os.path.join] from the directory [root]. *)
Definition render (root : string) (p : list string) : string :=
  foldl path_join root p.

Definition node_at (t : gmap (list string) node) (p : list string) : option node :=
  match p with
  | [] => Some Dir
  | _ => t !! p
  end.

(** [os.path.exists], [os.path.isdir], [os.path.isfile] *)
Definition path_exists (t : gmap (list string) node) (p : list string) : bool :=
  match node_at t p with Some _ => true | None => false end.
Definition isdir (t : gmap (list string) node) (p : list string) : bool :=
  match node_at t p with Some Dir => true | _ => false end.
Definition isfile (t : gmap (list string) node) (p : list string) : bool :=
  match node_at t p with Some (File _) => true | _ => false end.

(** The name [n] when [k] is the entry [d/n]. *)
Definition child_of (d k : list string) : option string :=
  match drop (length d) k with
  | [n] => if bool_decide (take (length d) k = d) then Some n else None
  | _ => None
  end.

(** [os.listdir(d)] of a directory, in some order. *)
Definition entries (t : gmap (list string) node) (d : list string) : list string :=
  omap (λ kv, child_of d kv.1) (map_to_list t).

(** *** Files *)

(** [open(p, "r")] followed by [read()] *)
Definition read_text (p : list string) : M string :=
  t ← get_tree;
  match node_at t p with
  | Some (File content) => mret content
  | Some Dir => raise (IsADirectoryError p)
  | None => raise (FileNotFoundError p)
  end.

(** The look-up of the directory [d], component by component from
    [above], stops at a regular file: the error of [open] is then ENOTDIR,
    not ENOENT. *)
Fixpoint file_on_the_way (t : gmap (list string) node) (above d : list string)
    : bool :=
  match d with
  | [] => false
  | x :: rest =>
      match t !! (above ++ [x]) with
      | Some Dir => file_on_the_way t (above ++ [x]) rest
      | Some (File _) => true
      | None => false
      end
  end.

(** [open(p, "w")] followed by [write(content)]: the file is created or
    replaced; its directory must exist.  Without it [open] raises
    [NotADirectoryError] when a regular file is on the way to the
    directory, and [FileNotFoundError] otherwise. *)
Definition write_text (p : list string) (content : string) : M unit :=
  t ← get_tree;
  match node_at t p with
  | Some Dir => raise (IsADirectoryError p)
  | _ =>
      match node_at t (dirname p) with
      | Some Dir => put_tree (<[p := File content]> t)
      | Some (File _) => raise (NotADirectoryError p)
      | None =>
          if file_on_the_way t [] (dirname p) then raise (NotADirectoryError p)
          else raise (FileNotFoundError p)
      end
  end.

(** [os.remove(p)] *)
Definition remove (p : list string) : M unit :=
  t ← get_tree;
  match node_at t p with
  | Some (File _) => put_tree (delete p t)
  | Some Dir => raise (IsADirectoryError p)
  | None => raise (FileNotFoundError p)
  end.

(** *** Directories *)

(** [os.listdir(d)] *)
Definition listdir (d : list string) : M (list string) :=
  t ← get_tree;
  match node_at t d with
  | Some Dir => mret (entries t d)
  | Some (File _) => raise (NotADirectoryError d)
  | None => raise (FileNotFoundError d)
  end.

(** [os.mkdir(p)] *)
Definition mkdir (p : list string) : M unit :=
  t ← get_tree;
  match node_at t p with
  | Some _ => raise (FileExistsError p)
  | None =>
      match node_at t (dirname p) with
      | Some Dir => put_tree (<[p := Dir]> t)
      | Some (File _) => raise (NotADirectoryError p)
      | None => raise (FileNotFoundError p)
      end
  end.

(** [os.makedirs(name, exist_ok=True)], by recursion on the reversed
    path: [tail :: rhead] is [head/tail]. *)
Fixpoint makedirs_rev (rname : list string) : M unit :=
  match rname with
  | [] => mret ()
  | tail :: rhead =>
      t ← get_tree;
      (if path_exists t (rev rhead) then mret ()
       else except_FileExistsError_pass (makedirs_rev rhead)) ;;
      except_OSError (mkdir (rev rname))
        (λ e, t' ← get_tree;
              if isdir t' (rev rname) then mret () else raise e)
  end.

Definition makedirs (name : list string) : M unit := makedirs_rev (rev name).

(** The entries at or below [p]. *)
Definition below (p : list string) (kv : list string * node) : Prop :=
  p `prefix_of` kv.1.

#[global] Instance below_dec (p : list string) (kv : list string * node) :
  Decision (below p kv).
Proof. unfold below. apply _. Defined.

(** [shutil.rmtree(p)] *)
Definition rmtree (p : list string) : M unit :=
  t ← get_tree;
  match node_at t p with
  | Some Dir => put_tree (filter (λ kv, ¬ below p kv) t)
  | Some (File _) => raise (NotADirectoryError p)
  | None => raise (FileNotFoundError p)
  end.

(** The subtree at [src] relocated to [dst]. *)
Definition relocate (src dst : list string) (t : gmap (list string) node)
    : gmap (list string) node :=
  list_to_map
    ((λ kv, (if bool_decide (below src kv) then dst ++ drop (length src) kv.1
             else kv.1, kv.2)) <$> map_to_list t).

(** [os.rename(src, dst)] on a POSIX system: a file replaces a file; a
    directory moves with what is below it to a free name. *)
Definition rename (src dst : list string) : M unit :=
  t ← get_tree;
  match node_at t src with
  | None => raise (FileNotFoundError src)
  | Some (File content) =>
      match node_at t dst with
      | Some Dir => raise (IsADirectoryError dst)
      | _ =>
          match node_at t (dirname dst) with
          | Some Dir => put_tree (<[dst := File content]> (delete src t))
          | Some (File _) => raise (NotADirectoryError dst)
          | None => raise (FileNotFoundError dst)
          end
      end
  | Some Dir =>
      match node_at t dst with
      | Some (File _) => raise (NotADirectoryError dst)
      | Some Dir => raise (OSError dst)
      | None =>
          if bool_decide (src `prefix_of` dst) then raise (OSError dst)
          else match node_at t (dirname dst) with
               | Some Dir => put_tree (relocate src dst t)
               | Some (File _) => raise (NotADirectoryError dst)
               | None => raise (FileNotFoundError dst)
               end
      end
  end.

(** [shutil.move(src, dst)]: into [dst] when it is a directory, refusing
    a name taken there; otherwise [os.rename].  When the rename fails the
    library falls back to copying, which fails on the same paths; the
    exception of the rename stands for it. *)
Definition move (src dst : list string) : M unit :=
  t ← get_tree;
  if isdir t dst then
    let real_dst := dst ++ [basename src] in
    if path_exists t real_dst then raise (ShutilError real_dst)
    else rename src real_dst
  else rename src dst.

(** [os.walk(top)], top-down: the stack of directories still to scan.
    A directory is scanned when it is reached, the loop body runs on its
    listing, and its subdirectories are scanned next; a path that is not
    a directory when reached is passed over.  [fuel] bounds the number of
    directories reached. *)
Fixpoint walk (fuel : nat) (stack : list (list string))
    (body : list string → list string → list string → M unit) : M unit :=
  match stack with
  | [] => mret ()
  | top :: stack' =>
      match fuel with
      | 0 => out_of_fuel
      | S fuel' =>
          t ← get_tree;
          if isdir t top then
            let names := entries t top in
            let dirs := List.filter (λ n, isdir t (top ++ [n])) names in
            let nondirs := List.filter (λ n, negb (isdir t (top ++ [n]))) names in
            body top dirs nondirs ;;
            walk fuel' (((λ n, top ++ [n]) <$> dirs) ++ stack') body
          else walk fuel' stack' body
      end
  end.

(** A run from a given tree with an empty output. *)
Definition run {A : Type} (m : M A) (t : gmap (list string) node)
    : outcome A * world :=
  m (World t []).

End Os.

(** ** The scripts *)

Module Scripts.
Import Text Os.

(** The paths the fix scripts name. *)

Module nested.
(** fix_nested_resources.py *)
Definition CORRECT_RESOURCES_DIR : list string := ["Sources"; "App"; "Resources"].
Definition CORRECT_VIEWS_DIR : list string := CORRECT_RESOURCES_DIR ++ ["Views"].
Definition INCORRECT_RESOURCES_DIR : list string :=
    CORRECT_RESOURCES_DIR ++ ["Sources"; "App"; "Resources"].
End nested.

Module conflicts.
(** fix_resource_conflicts.py *)
Definition APP_DIR : list string := ["Sources"; "App"].
Definition RESOURCES_DIR : list string := APP_DIR ++ ["Resources"].
Definition VIEWS_DIR : list string := RESOURCES_DIR ++ ["Views"].
Definition NESTED_RESOURCES_DIR : list string :=
    APP_DIR ++ ["Sources"; "App"; "Resources"].
End conflicts.

Module flat.
(** fix_resources.py *)
Definition RESOURCES_SRC : list string := ["Resources"].
Definition APP_RESOURCES_DIR : list string := ["Sources"; "App"; "Resources"].
Definition OPENAPI_SRC : list string := RESOURCES_SRC ++ ["openapi.yml"].
Definition OPENAPI_DEST : list string := APP_RESOURCES_DIR ++ ["openapi.yml"].
End flat.

Section scripts.

(** [os.getcwd()], the project root every script starts from. *)
Variable ROOT_DIR : string.

Definition show (p : list string) : string := render ROOT_DIR p.

(** *** clean_vapor_project.py *)

Definition clean_file (file_path : list string) (patterns_to_remove : list string)
    : M unit :=
  t ← get_tree;
  if negb (path_exists t file_path) then
    print ("File not found: " +:+ show file_path)
  else
    text ← read_text file_path;
    let lines := readlines text in
    let cleaned_lines := Doc.cleaned_lines lines patterns_to_remove in
    write_text file_path (writelines cleaned_lines) ;;
    print ("Cleaned file: " +:+ show file_path).

(** The loop over [controllers_dir] and [migrations_dir]. *)
Definition remove_todo_files (dir : list string) : M unit :=
  t ← get_tree;
  if path_exists t dir then
    names ← listdir dir;
    for_each names (λ file_name,
      if contains "Todo" file_name then
        let file_path := dir ++ [file_name] in
        remove file_path ;;
        print ("Removed file: " +:+ show file_path)
      else mret ())
  else mret ().

Definition routes_file : list string := ["Sources"; "App"; "routes.swift"].
Definition configure_file : list string := ["Sources"; "App"; "configure.swift"].
Definition controllers_dir : list string := ["Sources"; "App"; "Controllers"].
Definition migrations_dir : list string := ["Sources"; "App"; "Migrations"].

Definition clean_vapor_project : M unit :=
  print "Cleaning routes.swift..." ;;
  clean_file routes_file ["TodoController"; "register(collection:"] ;;
  print "Cleaning configure.swift..." ;;
  clean_file configure_file ["CreateTodo"; "app.migrations.add"] ;;
  print "Removing default controller files..." ;;
  remove_todo_files controllers_dir ;;
  print "Removing default migration files..." ;;
  remove_todo_files migrations_dir ;;
  print "Cleanup completed. Please ensure the project compiles by running:" ;;
  print "swift build".

(** *** setup_openapiserve.py, setup_openapimiddleware.py *)

Definition append_to_file (file_path : list string) (content : string)
    (marker : option string) : M unit :=
  t ← get_tree;
  if negb (path_exists t file_path) then
    write_text file_path content
  else
    text ← read_text file_path;
    let lines := readlines text in
    write_text file_path (writelines (Doc.append_lines lines content marker)).

(** [os.makedirs(os.path.dirname(file_path), exist_ok=True)]: the empty
    directory name of a bare file name is refused by [os.makedirs]. *)
Definition makedirs_dirname (file_path : list string) : M unit :=
  match dirname file_path with
  | [] => raise (FileNotFoundError [])
  | d => makedirs d
  end.

Definition create_file (file_path : list string) (content : string) : M unit :=
  t ← get_tree;
  if negb (path_exists t file_path) then
    makedirs_dirname file_path ;;
    write_text file_path content
  else mret ().

Definition write_file (path : list string) (content : string) : M unit :=
  makedirs_dirname path ;;
  write_text path content.

(** *** rollback_redoc_setup.py

    The paths are those of validate_redoc_setup.py as well. *)

Definition openapi_dir : list string := ["Resources"; "OpenAPI"].
Definition views_dir : list string := ["Resources"; "Views"].
Definition redoc_assets_dir : list string := ["Public"; "redoc"].
Definition openapi_file : list string := openapi_dir ++ ["openapi.yml"].
Definition redoc_leaf_file : list string := views_dir ++ ["redoc.leaf"].
Definition redoc_css_file : list string := redoc_assets_dir ++ ["redoc.standalone.css"].
Definition redoc_js_file : list string := redoc_assets_dir ++ ["redoc.standalone.js"].

(** The branch for a directory; [rollback_actions] is the list the
    function appends to. *)
Definition rollback_dir (dir : list string) (rollback_actions : list string)
    : M (list string) :=
  t ← get_tree;
  if path_exists t dir then
    rmtree dir ;;
    mret (rollback_actions ++ ["Removed directory: " +:+ show dir])
  else
    mret (rollback_actions
            ++ ["Directory not found (already removed): " +:+ show dir]).

Definition rollback_leaf_file (rollback_actions : list string) : M (list string) :=
  t ← get_tree;
  if path_exists t redoc_leaf_file then
    remove redoc_leaf_file ;;
    mret (rollback_actions ++ ["Removed file: " +:+ show redoc_leaf_file])
  else
    mret (rollback_actions
            ++ ["File not found (already removed): " +:+ show redoc_leaf_file]).

(** The branch for routes.swift and for configure.swift. *)
Definition rollback_clean (file : list string) (clean : list string → list string)
    (cleaned_msg clean_msg : string) (rollback_actions : list string)
    : M (list string) :=
  t ← get_tree;
  if path_exists t file then
    text ← read_text file;
    let content := readlines text in
    let cleaned_content := clean content in
    if negb (length cleaned_content =? length content) then
      write_text file (writelines cleaned_content) ;;
      mret (rollback_actions ++ [cleaned_msg])
    else mret (rollback_actions ++ [clean_msg])
  else mret rollback_actions.

Definition rollback_redoc_setup : M unit :=
  rollback_actions ← rollback_dir openapi_dir [];
  rollback_actions ← rollback_leaf_file rollback_actions;
  rollback_actions ← rollback_dir redoc_assets_dir rollback_actions;
  rollback_actions ← rollback_clean routes_file Doc.rollback_routes_cleaned
    "Cleaned routes.swift of references to OpenAPI or ReDoc routes"
    "No OpenAPI or ReDoc references found in routes.swift" rollback_actions;
  rollback_actions ← rollback_clean configure_file Doc.rollback_configure_cleaned
    "Cleaned configure.swift of Leaf configuration"
    "No Leaf configuration found in configure.swift" rollback_actions;
  print (nl +:+ "Rollback Actions Performed:") ;;
  for_each rollback_actions (λ action, print ("- " +:+ action)) ;;
  print (nl +:+ "Rollback complete. Your project has been restored to its previous state.").

(** *** The Package.swift steps of the three fix scripts *)

Definition PACKAGE_FILE : list string := ["Package.swift"].

(** Step 3 *)
Definition update_package_resources (update : list string → list string) : M unit :=
  t ← get_tree;
  if path_exists t PACKAGE_FILE then
    text ← read_text PACKAGE_FILE;
    let package_content := readlines text in
    write_text PACKAGE_FILE (writelines (update package_content)) ;;
    print ("Updated " +:+ show PACKAGE_FILE +:+ " with correct resource paths.")
  else print ("Error: " +:+ show PACKAGE_FILE +:+ " does not exist.").

(** Step 4 *)
Definition add_package_exclusions : M unit :=
  t ← get_tree;
  if path_exists t PACKAGE_FILE then
    text ← read_text PACKAGE_FILE;
    let package_content := readlines text in
    write_text PACKAGE_FILE (writelines (Doc.add_exclusions package_content)) ;;
    print ("Added exclusions to " +:+ show PACKAGE_FILE +:+ ".")
  else print ("Error: " +:+ show PACKAGE_FILE +:+ " does not exist.").

(** *** Moving the misplaced resources *)

(** The body of [for root, dirs, files in os.walk(src)] in
    fix_nested_resources.py and fix_resource_conflicts.py;
    [relative_path] is [os.path.relpath(root, src)]. *)
Definition move_files (src dst : list string)
    (root : list string) (dirs files : list string) : M unit :=
  for_each files (λ file,
    let src_file := root ++ [file] in
    let relative_path := drop (length src) root in
    let dest_dir := dst ++ relative_path in
    makedirs dest_dir ;;
    move src_file (dest_dir ++ [file])).

(** fix_nested_resources.py, step 2 *)
Definition nested_move_resources (fuel : nat) : M unit :=
  t ← get_tree;
  if path_exists t nested.INCORRECT_RESOURCES_DIR then
    walk fuel [nested.INCORRECT_RESOURCES_DIR]
      (move_files nested.INCORRECT_RESOURCES_DIR nested.CORRECT_RESOURCES_DIR) ;;
    print ("Moved resources from " +:+ show nested.INCORRECT_RESOURCES_DIR +:+
           " to " +:+ show nested.CORRECT_RESOURCES_DIR +:+ ".") ;;
    rmtree (nested.CORRECT_RESOURCES_DIR ++ ["Sources"])
  else
    print ("No nested resources found at " +:+
           show nested.INCORRECT_RESOURCES_DIR +:+ ".").

(** fix_resource_conflicts.py, step 2 *)
Definition conflicts_move_resources (fuel : nat) : M unit :=
  t ← get_tree;
  if path_exists t conflicts.NESTED_RESOURCES_DIR then
    walk fuel [conflicts.NESTED_RESOURCES_DIR]
      (move_files conflicts.NESTED_RESOURCES_DIR conflicts.RESOURCES_DIR) ;;
    print ("Moved resources from " +:+ show conflicts.NESTED_RESOURCES_DIR +:+
           " to " +:+ show conflicts.RESOURCES_DIR +:+ ".") ;;
    rmtree (conflicts.APP_DIR ++ ["Sources"])
  else
    print ("No nested resources found in " +:+
           show conflicts.NESTED_RESOURCES_DIR +:+ ".").


Definition flat_move_openapi : M unit :=
  t ← get_tree;
  if path_exists t flat.OPENAPI_SRC then
    move flat.OPENAPI_SRC flat.OPENAPI_DEST ;;
    print ("Moved openapi.yml to " +:+ show flat.OPENAPI_DEST)
  else print ("Warning: " +:+ show flat.OPENAPI_SRC +:+ " does not exist.").

(** The scripts up to the end of step 2: step 1 makes the destination. *)
Definition fix_nested_resources_steps12 (fuel : nat) : M unit :=
  makedirs nested.CORRECT_VIEWS_DIR ;;
  nested_move_resources fuel.

Definition fix_resource_conflicts_steps12 (fuel : nat) : M unit :=
  makedirs conflicts.VIEWS_DIR ;;
  conflicts_move_resources fuel.


(** Steps 3 and 4 of fix_nested_resources.py. *)
Definition fix_nested_resources_steps34 : M unit :=
  update_package_resources Doc.nested.update_resources ;;
  add_package_exclusions.

Definition fix_resource_conflicts_steps34 : M unit :=
  update_package_resources Doc.conflicts.update_resources ;;
  add_package_exclusions.

(** *** validate_redoc_setup.py *)

Definition openapi_route : string := "app.get(" +:+ dq +:+ "openapi.yml" +:+ dq +:+ ")".
Definition docs_route : string := "app.get(" +:+ dq +:+ "docs" +:+ dq +:+ ")".
Definition leaf_config : string := "app.views.use(.leaf)".

(** [if not os.path.isdir(d): results.append(...)] *)
Definition check_dir (d : list string) (results : list string) : M (list string) :=
  t ← get_tree;
  if negb (isdir t d) then mret (results ++ ["Missing directory: " +:+ show d])
  else mret results.

(** [if not os.path.isfile(f): results.append(...)] *)
Definition check_file (f : list string) (results : list string) : M (list string) :=
  t ← get_tree;
  if negb (isfile t f) then mret (results ++ ["Missing file: " +:+ show f])
  else mret results.

(** [if marker not in content: results.append(...)] *)
Definition check_marker (marker content msg : string) (results : list string)
    : list string :=
  if negb (contains marker content) then results ++ [msg] else results.

(** The block under [# Check routes.swift]. *)
Definition check_routes (results : list string) : M (list string) :=
  t ← get_tree;
  if negb (isfile t routes_file) then
    mret (results ++ ["Missing file: " +:+ show routes_file])
  else
    content ← read_text routes_file;
    let results := check_marker openapi_route content
      ("Route for '/openapi.yml' not found in: " +:+ show routes_file) results in
    mret (check_marker docs_route content
      ("Route for '/docs' not found in: " +:+ show routes_file) results).

(** The block under [# Check configure.swift]. *)
Definition check_configure (results : list string) : M (list string) :=
  t ← get_tree;
  if negb (isfile t configure_file) then
    mret (results ++ ["Missing file: " +:+ show configure_file])
  else
    content ← read_text configure_file;
    mret (check_marker leaf_config content
      ("Leaf configuration not found in: " +:+ show configure_file) results).

(** The discrepancies [results] collected by [validate_redoc_setup],
    before they are printed. *)
Definition validate_results : M (list string) :=
  results ← check_dir openapi_dir [];
  results ← check_dir views_dir results;
  results ← check_dir redoc_assets_dir results;
  results ← check_file openapi_file results;
  results ← check_file redoc_leaf_file results;
  results ← check_file redoc_css_file results;
  results ← check_file redoc_js_file results;
  results ← check_routes results;
  check_configure results.

(** The function returns nothing: its report is what it prints. *)
Definition validate_redoc_setup : M unit :=
  results ← validate_results;
  match results with
  | [] =>
      print "Validation Passed: All required files, directories, and configurations are present."
  | _ =>
      print "Validation Failed:" ;;
      for_each results (λ result, print ("- " +:+ result))
  end.

End scripts.

(** *** setup_redoc_vapor.py *)

Module redoc.

Definition openapi_content : string :=
  "# OpenAPI Specification Placeholder" +:+ nl +:+
  "# Replace this file with your actual OpenAPI specification in YAML format." +:+ nl +:+
  "# This file describes the API for your Central Sequence Service." +:+ nl.

Definition redoc_files : list (string * string) :=
  [("redoc.standalone.css",
    "https://cdn.jsdelivr.net/npm/redoc/bundles/redoc.standalone.css");
   ("redoc.standalone.js",
    "https://cdn.jsdelivr.net/npm/redoc/bundles/redoc.standalone.js")].

Definition redoc_leaf_content : string :=
  "<!DOCTYPE html>" +:+ nl +:+
  "<html>" +:+ nl +:+
  "<head>" +:+ nl +:+
  "    <title>API Documentation</title>" +:+ nl +:+
  "    <link rel=" +:+ dq +:+ "stylesheet" +:+ dq +:+ " href=" +:+ dq +:+ "/redoc/redoc.standalone.css" +:+ dq +:+ ">" +:+ nl +:+
  "</head>" +:+ nl +:+
  "<body>" +:+ nl +:+
  "    <redoc spec-url=" +:+ dq +:+ "/openapi.yml" +:+ dq +:+ "></redoc>" +:+ nl +:+
  "    <script src=" +:+ dq +:+ "/redoc/redoc.standalone.js" +:+ dq +:+ "></script>" +:+ nl +:+
  "</body>" +:+ nl +:+
  "</html>" +:+ nl.

End redoc.

Section setup_redoc_vapor.

Variable ROOT_DIR : string.

(** [requests.get(url)], as the status code and the content of the
    response. *)
Variable requests_get : string → M (nat * string).

(** [if not os.path.exists(f) or open(f).read() != content:] the file is
    written and [created] printed; [else:] [current] is printed. *)
Definition ensure_content (f : list string) (content created current : string)
    : M unit :=
  t ← get_tree;
  stale ← (if negb (path_exists t f) then mret true
           else text ← read_text f; mret (bool_decide (text ≠ content)));
  if (stale : bool) then
    write_text f content ;;
    print (created +:+ show ROOT_DIR f)
  else print (current +:+ show ROOT_DIR f).

(** The body of the loop over [redoc_files]. *)
Definition download (file_name url : string) : M unit :=
  let file_path := redoc_assets_dir ++ [file_name] in
  t ← get_tree;
  if negb (path_exists t file_path) then
    print ("Downloading " +:+ file_name +:+ "...") ;;
    response ← requests_get url;
    if (response.1 =? 200)%nat then
      write_text file_path response.2 ;;
      print ("Downloaded and saved " +:+ file_name +:+ " at: "
             +:+ show ROOT_DIR file_path)
    else print ("Failed to download " +:+ file_name +:+ " from " +:+ url)
  else print (file_name +:+ " already exists at: " +:+ show ROOT_DIR file_path).

Definition setup_vapor_redoc : M unit :=
  makedirs views_dir ;;
  makedirs openapi_dir ;;
  makedirs redoc_assets_dir ;;
  ensure_content openapi_file redoc.openapi_content
    "Created or updated OpenAPI spec placeholder at: "
    "OpenAPI spec placeholder already exists and is up-to-date: " ;;
  for_each redoc.redoc_files (λ item, download item.1 item.2) ;;
  ensure_content redoc_leaf_file redoc.redoc_leaf_content
    "Created or updated ReDoc Leaf template at: "
    "ReDoc Leaf template already exists and is up-to-date: " ;;
  print (nl +:+ "Setup complete. You can now run your Vapor app and access:") ;;
  print "- OpenAPI spec: http://localhost:8080/openapi.yml" ;;
  print "- ReDoc documentation: http://localhost:8080/docs".

End setup_redoc_vapor.

(** *** create_openapi_solution.py

    The directory of the script is the root here. *)

Definition openapi_placeholder : string :=
  "# OpenAPI Specification Placeholder" +:+ nl +:+
  "# Replace this file with your actual OpenAPI specification in YAML format." +:+ nl +:+
  "# This file describes the API for your Central Sequence Service." +:+ nl.

Definition redoc_template : string :=
  "<!DOCTYPE html>" +:+ nl +:+
  "<html>" +:+ nl +:+
  "<head>" +:+ nl +:+
  "    <title>API Documentation</title>" +:+ nl +:+
  "    <link rel=" +:+ dq +:+ "stylesheet" +:+ dq +:+ " href=" +:+ dq +:+ "https://cdn.jsdelivr.net/npm/redoc/bundles/redoc.standalone.css" +:+ dq +:+ ">" +:+ nl +:+
  "</head>" +:+ nl +:+
  "<body>" +:+ nl +:+
  "    <redoc spec-url=" +:+ dq +:+ "/openapi.yml" +:+ dq +:+ "></redoc>" +:+ nl +:+
  "    <script src=" +:+ dq +:+ "https://cdn.jsdelivr.net/npm/redoc/bundles/redoc.standalone.js" +:+ dq +:+ "></script>" +:+ nl +:+
  "</body>" +:+ nl +:+
  "</html>" +:+ nl.

Definition routes_content : string :=
  nl +:+
  "import Vapor" +:+ nl +:+
  nl +:+
  "func routes(_ app: Application) throws {" +:+ nl +:+
  "    // Serve the OpenAPI spec" +:+ nl +:+
  "    app.get(" +:+ dq +:+ "openapi.yml" +:+ dq +:+ ") { req -> Response in" +:+ nl +:+
  "        let filePath = app.directory.resourcesDirectory + " +:+ dq +:+ "OpenAPI/openapi.yml" +:+ dq +:+ nl +:+
  "        return req.fileio.streamFile(at: filePath)" +:+ nl +:+
  "    }" +:+ nl +:+
  nl +:+
  "    // Serve the ReDoc documentation page" +:+ nl +:+
  "    app.get(" +:+ dq +:+ "docs" +:+ dq +:+ ") { req -> View in" +:+ nl +:+
  "        return req.view.render(" +:+ dq +:+ "redoc" +:+ dq +:+ ")" +:+ nl +:+
  "    }" +:+ nl +:+
  "}" +:+ nl.

Section solution_script.

Variable ROOT_DIR : string.

Definition create_openapi_solution : M unit :=
  makedirs openapi_dir ;;
  makedirs views_dir ;;
  write_text openapi_file openapi_placeholder ;;
  write_text redoc_leaf_file redoc_template ;;
  write_text routes_file routes_content ;;
  print ("OpenAPI spec placeholder created at: " +:+ show ROOT_DIR openapi_file) ;;
  print ("ReDoc Leaf template created at: " +:+ show ROOT_DIR redoc_leaf_file) ;;
  print ("Routes updated at: " +:+ show ROOT_DIR routes_file).

End solution_script.

(** *** The [main] of setup_openapiserve.py *)

Module serve.

Definition package_file : list string := ["Package.swift"].
Definition resources_dir : list string := ["Sources"; "Resources"].
Definition redoc_file : list string := views_dir ++ ["redoc.leaf"].
Definition openapi_file : list string := resources_dir ++ ["openapi.yml"].

Definition package_dependency : string :=
  ".package(url: " +:+ dq +:+ "https://github.com/Contexter/OpenAPIServe.git" +:+ dq +:+ ", from: " +:+ dq +:+ "1.0.0" +:+ dq +:+ "),".

Definition target_dependency : string :=
  ".product(name: " +:+ dq +:+ "OpenAPIServe" +:+ dq +:+ ", package: " +:+ dq +:+ "OpenAPIServe" +:+ dq +:+ ")".

Definition openapi_content : string :=
  nl +:+
  "openapi: 3.0.0" +:+ nl +:+
  "info:" +:+ nl +:+
  "  title: Central Sequence Service API" +:+ nl +:+
  "  version: 1.0.0" +:+ nl +:+
  "paths: {}" +:+ nl.

Definition middleware_content : string :=
  nl +:+
  "    // Middleware configuration for OpenAPIServe" +:+ nl +:+
  "    let openapiFilePath = app.directory.resourcesDirectory + " +:+ dq +:+ "openapi.yml" +:+ dq +:+ nl +:+
  "    app.middleware.use(OpenAPIMiddleware(filePath: openapiFilePath))" +:+ nl.

Definition route_content : string :=
  nl +:+
  "app.get(" +:+ dq +:+ "docs" +:+ dq +:+ ") { req -> EventLoopFuture<View> in" +:+ nl +:+
  "    let context = [" +:+ dq +:+ "specURL" +:+ dq +:+ ": " +:+ dq +:+ "/openapi.yml" +:+ dq +:+ "]" +:+ nl +:+
  "    return req.view.render(" +:+ dq +:+ "redoc" +:+ dq +:+ ", context)" +:+ nl +:+
  "}" +:+ nl.

Definition redoc_content : string :=
  nl +:+
  "<!DOCTYPE html>" +:+ nl +:+
  "<html>" +:+ nl +:+
  "<head>" +:+ nl +:+
  "    <title>API Documentation</title>" +:+ nl +:+
  "    <link rel=" +:+ dq +:+ "stylesheet" +:+ dq +:+ " href=" +:+ dq +:+ "https://fonts.googleapis.com/css?family=Roboto:300,400,700|Material+Icons" +:+ dq +:+ ">" +:+ nl +:+
  "    <style>" +:+ nl +:+
  "        body {" +:+ nl +:+
  "            margin: 0;" +:+ nl +:+
  "            padding: 0;" +:+ nl +:+
  "        }" +:+ nl +:+
  "    </style>" +:+ nl +:+
  "</head>" +:+ nl +:+
  "<body>" +:+ nl +:+
  "    <redoc spec-url=" +:+ dq +:+ "{{ specURL }}" +:+ dq +:+ "></redoc>" +:+ nl +:+
  "    <script src=" +:+ dq +:+ "https://cdn.jsdelivr.net/npm/redoc@next/bundles/redoc.standalone.js" +:+ dq +:+ "></script>" +:+ nl +:+
  "</body>" +:+ nl +:+
  "</html>" +:+ nl.

Definition main : M unit :=
  append_to_file package_file package_dependency (Some "dependencies: [") ;;
  append_to_file package_file target_dependency (Some "dependencies: [") ;;
  create_file openapi_file openapi_content ;;
  append_to_file configure_file middleware_content (Some "public func configure") ;;
  append_to_file routes_file route_content None ;;
  create_file redoc_file redoc_content ;;
  print "OpenAPIServe integration complete. Please build and run your project.".

End serve.

(** *** The [main] of setup_openapimiddleware.py *)

Module middleware.

Definition file_data_provider_path : list string :=
  ["Sources"; "App"; "Providers"; "FileDataProvider.swift"].

Definition file_data_provider_content : string :=
  nl +:+
  "import Vapor" +:+ nl +:+
  nl +:+
  "/// Provides OpenAPI spec data from a file." +:+ nl +:+
  "public struct FileDataProvider: DataProvider {" +:+ nl +:+
  "    private let filePath: String" +:+ nl +:+
  nl +:+
  "    public init(filePath: String) {" +:+ nl +:+
  "        self.filePath = filePath" +:+ nl +:+
  "    }" +:+ nl +:+
  nl +:+
  "    public func getData() -> String {" +:+ nl +:+
  "        guard let data = try? String(contentsOfFile: filePath, encoding: .utf8) else {" +:+ nl +:+
  "            return " +:+ dq +:+ dq +:+ nl +:+
  "        }" +:+ nl +:+
  "        return data" +:+ nl +:+
  "    }" +:+ nl +:+
  "}" +:+ nl.

Definition configure_content : string :=
  nl +:+
  "    // Middleware configuration for OpenAPIServe" +:+ nl +:+
  "    let openapiFilePath = app.directory.resourcesDirectory + " +:+ dq +:+ "openapi.yml" +:+ dq +:+ nl +:+
  "    let dataProvider = FileDataProvider(filePath: openapiFilePath)" +:+ nl +:+
  "    app.middleware.use(OpenAPIMiddleware(dataProvider: dataProvider))" +:+ nl.

Definition main : M unit :=
  write_file file_data_provider_path file_data_provider_content ;;
  print "Created: Sources/App/Providers/FileDataProvider.swift" ;;
  append_to_file configure_file configure_content (Some "public func configure") ;;
  print "Updated: Sources/App/configure.swift" ;;
  print "OpenAPIMiddleware setup complete. Rebuild your project to apply the changes.".

End middleware.

End Scripts.

Import Text Os Scripts.

(** ** Notions of the specification *)

(** The specification's result of inserting [content] after the first
    line that contains [marker], or at the end when there is none. *)
Definition MarkerInserted (marker content : string) (lines result : list string)
    : Prop :=
  (∃ pre line post,
      lines = pre ++ line :: post
      ∧ (∀ l, l ∈ pre → ¬ Substring marker l)
      ∧ Substring marker line
      ∧ result = pre ++ line :: content :: post)
  ∨ ((∀ l, l ∈ lines → ¬ Substring marker l)
      ∧ result = lines ++ [content]).

(** The artifacts [validate_redoc_setup] expects. *)
Definition expected_dirs : list (list string) :=
  [openapi_dir; views_dir; redoc_assets_dir].
Definition expected_files : list (list string) :=
  [openapi_file; redoc_leaf_file; redoc_css_file; redoc_js_file;
   routes_file; configure_file].

Definition has_marker (t : gmap (list string) node) (f : list string)
    (marker : string) : Prop :=
  ∃ content, node_at t f = Some (File content) ∧ Substring marker content.

(** Every expected directory, file, route and configuration entry is
    present. *)
Definition AllPresent (t : gmap (list string) node) : Prop :=
  Forall (λ d, node_at t d = Some Dir) expected_dirs
  ∧ Forall (λ f, ∃ content, node_at t f = Some (File content)) expected_files
  ∧ has_marker t routes_file openapi_route
  ∧ has_marker t routes_file docs_route
  ∧ has_marker t configure_file leaf_config.

(** Every entry of the tree lies in a directory. *)
Definition well_formed (t : gmap (list string) node) : Prop :=
  map_Forall (λ p _, isdir t (dirname p) = true) t.

(** The files of a tree, with their contents. *)
Definition files_of (t : gmap (list string) node) : list (list string * string) :=
  omap (λ kv, match kv.2 with File c => Some (kv.1, c) | Dir => None end)
    (map_to_list t).

(** ** Notions for the walk of the merge *)

(** The side [a] has no file where the side [b] has a directory. *)
Definition no_file_over_dir (a b : list string) (t : gmap (list string) node) : Prop :=
  ∀ r c, t !! (a ++ r) = Some (File c) → t !! (b ++ r) ≠ Some Dir.

(** The same, computed over the entries of the tree. *)
Definition no_file_over_dir_check (a b : list string) (t : gmap (list string) node)
    : bool :=
  forallb
    (λ kv, match kv.2 with
           | File _ =>
               if bool_decide (a `prefix_of` kv.1) then
                 match t !! (b ++ drop (length a) kv.1) with
                 | Some Dir => false
                 | _ => true
                 end
               else true
           | Dir => true
           end)
    (map_to_list t).

(** Directories may have appeared on the way to [target]; nothing else
    differs. *)
Definition dirs_added (target : list string) (u u' : gmap (list string) node) : Prop :=
  ∀ p, u' !! p = u !! p
       ∨ (u !! p = None ∧ u' !! p = Some Dir ∧ p `prefix_of` target).

Section merge_notions.

Variables src dst : list string.

(** The relative paths whose place under the destination is off the
    source: the walk stays within them. *)
Variable G : list string → Prop.

(** A path touched by the move of a file of the region [PF]: the file or
    its place under the destination. *)
Definition Moved (PF : list string → Prop) (u : gmap (list string) node)
    (p : list string) : Prop :=
  ∃ r c, PF r ∧ u !! (src ++ r) = Some (File c) ∧ (p = src ++ r ∨ p = dst ++ r).

(** The effect of moving the files of the region [PF], with directories
    made on the way to the images of [PD]. *)
Definition Merged (PF PD : list string → Prop) (u u' : gmap (list string) node)
    : Prop :=
  well_formed u'
  ∧ (∀ r c, PF r → u !! (src ++ r) = Some (File c) →
       u' !! (src ++ r) = None ∧ u' !! (dst ++ r) = Some (File c))
  ∧ (∀ p, u' !! p = u !! p
          ∨ Moved PF u p
          ∨ (u !! p = None ∧ u' !! p = Some Dir
             ∧ ∃ r, PD r ∧ p `prefix_of` dst ++ r)).

(** What the walk needs of a directory [src ++ rel] it is about to scan:
    it is a directory of depth at most [n] with all its entries in [G],
    no file is in the way of its destination directory, and at and below
    it the source and the destination never have a file where the other
    has a directory. *)
Definition Ready (n : nat) (u : gmap (list string) node) (rel : list string) : Prop :=
  u !! (src ++ rel) = Some Dir
  ∧ (∀ q c, q `prefix_of` dst ++ rel → node_at u q ≠ Some (File c))
  ∧ (∀ k, is_Some (u !! (src ++ rel ++ k)) → length k ≤ n ∧ G (rel ++ k))
  ∧ (∀ r c, rel `prefix_of` r → u !! (dst ++ r) = Some (File c) →
       u !! (src ++ r) ≠ Some Dir)
  ∧ (∀ r c, rel `prefix_of` r → u !! (src ++ r) = Some (File c) →
       u !! (dst ++ r) ≠ Some Dir).

(** At or below one of the directories [R], and in [G]. *)
Definition Under (R : list (list string)) (r : list string) : Prop :=
  (∃ rel, rel ∈ R ∧ rel `prefix_of` r) ∧ G r.

(** No directory of the list is inside another, or listed twice. *)
Definition Incomparable (R : list (list string)) : Prop :=
  ∀ i j a b, R !! i = Some a → R !! j = Some b → a `prefix_of` b → i = j.

(** The walk scans the directories [R] and what is below them, and goes
    on with the rest of its stack. *)
Definition Scans (n : nat) (R : list (list string)) : Prop :=
  ∀ u rest out,
    well_formed u → Incomparable R → (∀ rel, rel ∈ R → Ready n u rel) →
    ∃ k u',
      (∀ fuel, walk (k + fuel) (((λ rel, src ++ rel) <$> R) ++ rest)
                 (move_files src dst) (World u out)
               = walk fuel rest (move_files src dst) (World u' out))
      ∧ Merged (Under R) (Under R) u u'.

End merge_notions.

(** The longest path of a tree. *)
Definition max_length (t : gmap (list string) node) : nat :=
  foldr (λ kv acc, length kv.1 `max` acc) 0 (map_to_list t).


(** Relative paths that do not start with the directory name Sources:
    under the destination of fix_nested_resources.py these are the
    places outside the directory the script removes. *)
Definition outside_sources (r : list string) : Prop :=
  ¬ ["Sources"] `prefix_of` r.


(** ** What the validator computes

    The list [validate_results] builds, as a function of the tree. *)

Section discrepancies.

Variable ROOT_DIR : string.

Definition unless (b : bool) (msg : string) : list string :=
  if b then [] else [msg].

(** What the two source-file blocks and [validate_results] compute from
    the tree. *)
Definition routes_discrepancies (t : gmap (list string) node) : list string :=
  match node_at t routes_file with
  | Some (File content) =>
      unless (contains openapi_route content)
        ("Route for '/openapi.yml' not found in: " +:+ show ROOT_DIR routes_file)
      ++ unless (contains docs_route content)
        ("Route for '/docs' not found in: " +:+ show ROOT_DIR routes_file)
  | _ => ["Missing file: " +:+ show ROOT_DIR routes_file]
  end.

Definition configure_discrepancies (t : gmap (list string) node) : list string :=
  match node_at t configure_file with
  | Some (File content) =>
      unless (contains leaf_config content)
        ("Leaf configuration not found in: " +:+ show ROOT_DIR configure_file)
  | _ => ["Missing file: " +:+ show ROOT_DIR configure_file]
  end.

Definition discrepancies (t : gmap (list string) node) : list string :=
  unless (isdir t openapi_dir) ("Missing directory: " +:+ show ROOT_DIR openapi_dir)
  ++ unless (isdir t views_dir) ("Missing directory: " +:+ show ROOT_DIR views_dir)
  ++ unless (isdir t redoc_assets_dir)
       ("Missing directory: " +:+ show ROOT_DIR redoc_assets_dir)
  ++ unless (isfile t openapi_file) ("Missing file: " +:+ show ROOT_DIR openapi_file)
  ++ unless (isfile t redoc_leaf_file)
       ("Missing file: " +:+ show ROOT_DIR redoc_leaf_file)
  ++ unless (isfile t redoc_css_file)
       ("Missing file: " +:+ show ROOT_DIR redoc_css_file)
  ++ unless (isfile t redoc_js_file) ("Missing file: " +:+ show ROOT_DIR redoc_js_file)
  ++ routes_discrepancies t
  ++ configure_discrepancies t.

End discrepancies.

(** What [validate_redoc_setup] prints for the list [results]. *)
Definition validation_report (results : list string) : list string :=
  match results with
  | [] =>
      ["Validation Passed: All required files, directories, and configurations are present."]
  | _ => "Validation Failed:" :: ((λ result, "- " +:+ result) <$> results)
  end.

(** ** Notions for the further properties *)

#[global] Instance node_eq_dec : EqDecision node.
Proof. solve_decision. Defined.

(** A line that ends with its only newline; a line without newline but
    perhaps at its end; and a list of lines as [readlines] returns them. *)
Fixpoint full_line (l : string) : bool :=
  match l with
  | "" => false
  | String c "" => Ascii.eqb c nl_char
  | String c rest => negb (Ascii.eqb c nl_char) && full_line rest
  end.

Fixpoint last_line (l : string) : bool :=
  match l with
  | "" => false
  | String c "" => true
  | String c rest => negb (Ascii.eqb c nl_char) && last_line rest
  end.

Fixpoint lines_ok (ls : list string) : bool :=
  match ls with
  | [] => true
  | [l] => last_line l
  | l :: rest => full_line l && lines_ok rest
  end.

(** The entries of [dir] that [remove_todo_files] removes. *)
Definition todo_entry (dir p : list string) : bool :=
  match child_of dir p with
  | Some file_name => contains "Todo" file_name
  | None => false
  end.

(** A file after one of the filters of [rollback_redoc_setup]. *)
Definition clean_node (clean : list string → list string) (x : node) : node :=
  match x with
  | File text => File (writelines (clean (readlines text)))
  | Dir => Dir
  end.

(** The actions [rollback_redoc_setup] notes, as a function of the tree
    it starts from. *)
Definition rollback_actions (root : string) (t : gmap (list string) node)
    : list string :=
  [ (if path_exists t openapi_dir then "Removed directory: "
     else "Directory not found (already removed): ") +:+ render root openapi_dir;
    (if path_exists t redoc_leaf_file then "Removed file: "
     else "File not found (already removed): ") +:+ render root redoc_leaf_file;
    (if path_exists t redoc_assets_dir then "Removed directory: "
     else "Directory not found (already removed): ")
    +:+ render root redoc_assets_dir ]
  ++ match t !! routes_file with
     | Some (File text) =>
         [ if forallb (λ line, negb (contains "openapi.yml" line)
                               && negb (contains "docs" line)) (readlines text)
           then "No OpenAPI or ReDoc references found in routes.swift"
           else "Cleaned routes.swift of references to OpenAPI or ReDoc routes" ]
     | _ => []
     end
  ++ match t !! configure_file with
     | Some (File text) =>
         [ if forallb (λ line, negb (contains ".leaf" line)) (readlines text)
           then "No Leaf configuration found in configure.swift"
           else "Cleaned configure.swift of Leaf configuration" ]
     | _ => []
     end.

(** Directories may have appeared on the way to one of [ds]; nothing
    else differs. *)
Definition dirs_made (ds : list (list string)) (t u : gmap (list string) node)
    : Prop :=
  ∀ p, u !! p = t !! p
       ∨ (t !! p = None ∧ u !! p = Some Dir ∧ ∃ d, d ∈ ds ∧ p `prefix_of` d).

(** The last three lines [setup_vapor_redoc] prints. *)
Definition setup_complete : list string :=
  [nl +:+ "Setup complete. You can now run your Vapor app and access:";
   "- OpenAPI spec: http://localhost:8080/openapi.yml";
   "- ReDoc documentation: http://localhost:8080/docs"].

(** The text [append_to_file] leaves in a file, from what was at its
    path. *)
Definition appended (old : option node) (content : string) (marker : option string)
    : string :=
  match old with
  | Some (File text) => writelines (Doc.append_lines (readlines text) content marker)
  | _ => content
  end.

(** ** Sample inputs *)

(** A manifest with both list blocks. *)
Definition package0 : list string :=
  [ "let package = Package(" +:+ nl;
    "    exclude: [" +:+ nl;
    "    ]," +:+ nl;
    "    resources: [" +:+ nl;
    "    ]" +:+ nl;
    ")" +:+ nl ].

(** A manifest without list blocks, alone in its tree; and one whose
    exclude block is empty. *)
Definition plain_package_text : string := "let package = Package()" +:+ nl.

Definition plain_package_tree : gmap (list string) node :=
  {[ PACKAGE_FILE := File plain_package_text ]}.

Definition empty_exclude_tree : gmap (list string) node :=
  {[ PACKAGE_FILE := File ("    exclude: [" +:+ nl +:+ "    ]" +:+ nl) ]}.

(** A tree on which the validation passes. *)
Definition valid_tree : gmap (list string) node :=
  list_to_map
    [ (["Resources"], Dir); (openapi_dir, Dir); (views_dir, Dir);
      (["Public"], Dir); (redoc_assets_dir, Dir);
      (["Sources"], Dir); (["Sources"; "App"], Dir);
      (openapi_file, File "openapi: 3.0.0");
      (redoc_leaf_file, File "<redoc></redoc>");
      (redoc_css_file, File "body {}");
      (redoc_js_file, File "redoc()");
      (routes_file, File (openapi_route +:+ nl +:+ docs_route +:+ nl));
      (configure_file, File (leaf_config +:+ nl)) ].

(** A project in which the nested copy of a.txt collides with the one in
    place. *)
Definition collision_tree : gmap (list string) node :=
  list_to_map
    [ (["Sources"], Dir); (["Sources"; "App"], Dir);
      (nested.CORRECT_RESOURCES_DIR, Dir);
      (nested.CORRECT_RESOURCES_DIR ++ ["a.txt"], File "old");
      (nested.CORRECT_RESOURCES_DIR ++ ["Sources"], Dir);
      (nested.CORRECT_RESOURCES_DIR ++ ["Sources"; "App"], Dir);
      (nested.INCORRECT_RESOURCES_DIR, Dir);
      (nested.INCORRECT_RESOURCES_DIR ++ ["a.txt"], File "new") ].

(** The same collision where fix_resource_conflicts.py looks for the
    nested resources. *)
Definition collision_app_tree : gmap (list string) node :=
  list_to_map
    [ (["Sources"], Dir); (conflicts.APP_DIR, Dir);
      (conflicts.RESOURCES_DIR, Dir);
      (conflicts.RESOURCES_DIR ++ ["a.txt"], File "old");
      (conflicts.APP_DIR ++ ["Sources"], Dir);
      (conflicts.APP_DIR ++ ["Sources"; "App"], Dir);
      (conflicts.NESTED_RESOURCES_DIR, Dir);
      (conflicts.NESTED_RESOURCES_DIR ++ ["a.txt"], File "new") ].

(** Projects whose nested resources hold one file, named Views. *)
Definition views_file_tree : gmap (list string) node :=
  list_to_map
    [ (["Sources"], Dir); (["Sources"; "App"], Dir);
      (nested.CORRECT_RESOURCES_DIR, Dir);
      (nested.CORRECT_RESOURCES_DIR ++ ["Sources"], Dir);
      (nested.CORRECT_RESOURCES_DIR ++ ["Sources"; "App"], Dir);
      (nested.INCORRECT_RESOURCES_DIR, Dir);
      (nested.INCORRECT_RESOURCES_DIR ++ ["Views"], File "v") ].

Definition views_file_app_tree : gmap (list string) node :=
  list_to_map
    [ (["Sources"], Dir); (conflicts.APP_DIR, Dir);
      (conflicts.APP_DIR ++ ["Sources"], Dir);
      (conflicts.APP_DIR ++ ["Sources"; "App"], Dir);
      (conflicts.NESTED_RESOURCES_DIR, Dir);
      (conflicts.NESTED_RESOURCES_DIR ++ ["Views"], File "v") ].

(** A project whose misplaced resources are nested once more: the one
    file of the source tree is Sources/App/Resources/Views/index.leaf,
    relative to the source. *)
Definition twice_nested_tree : gmap (list string) node :=
  list_to_map
    [ (["Sources"], Dir); (["Sources"; "App"], Dir);
      (nested.CORRECT_RESOURCES_DIR, Dir);
      (nested.CORRECT_RESOURCES_DIR ++ ["Sources"], Dir);
      (nested.CORRECT_RESOURCES_DIR ++ ["Sources"; "App"], Dir);
      (nested.INCORRECT_RESOURCES_DIR, Dir);
      (nested.INCORRECT_RESOURCES_DIR ++ ["Sources"], Dir);
      (nested.INCORRECT_RESOURCES_DIR ++ ["Sources"; "App"], Dir);
      (nested.INCORRECT_RESOURCES_DIR ++ ["Sources"; "App"; "Resources"], Dir);
      (nested.INCORRECT_RESOURCES_DIR ++ ["Sources"; "App"; "Resources"; "Views"], Dir);
      (nested.INCORRECT_RESOURCES_DIR
         ++ ["Sources"; "App"; "Resources"; "Views"; "index.leaf"], File "leaf") ].

(** The same source tree where fix_resource_conflicts.py looks for it. *)
Definition twice_nested_app_tree : gmap (list string) node :=
  list_to_map
    [ (["Sources"], Dir); (conflicts.APP_DIR, Dir);
      (conflicts.APP_DIR ++ ["Sources"], Dir);
      (conflicts.APP_DIR ++ ["Sources"; "App"], Dir);
      (conflicts.NESTED_RESOURCES_DIR, Dir);
      (conflicts.NESTED_RESOURCES_DIR ++ ["Sources"], Dir);
      (conflicts.NESTED_RESOURCES_DIR ++ ["Sources"; "App"], Dir);
      (conflicts.NESTED_RESOURCES_DIR ++ ["Sources"; "App"; "Resources"], Dir);
      (conflicts.NESTED_RESOURCES_DIR ++ ["Sources"; "App"; "Resources"; "Views"], Dir);
      (conflicts.NESTED_RESOURCES_DIR
         ++ ["Sources"; "App"; "Resources"; "Views"; "index.leaf"], File "leaf") ].

(** A fresh Vapor project with its Todo example. *)
Definition todo_project_tree : gmap (list string) node :=
  list_to_map
    [ (["Sources"], Dir); (["Sources"; "App"], Dir);
      (routes_file,
       File ("import Vapor" +:+ nl
             +:+ "try app.register(collection: TodoController())" +:+ nl));
      (configure_file,
       File ("import Vapor" +:+ nl +:+ "app.migrations.add(CreateTodo())" +:+ nl));
      (controllers_dir, Dir);
      (controllers_dir ++ ["TodoController.swift"], File "todo");
      (controllers_dir ++ ["UserController.swift"], File "user");
      (migrations_dir, Dir);
      (migrations_dir ++ ["CreateTodo.swift"], File "create") ].

(** A project whose Controllers hold a directory named with Todo. *)
Definition todo_directory_tree : gmap (list string) node :=
  list_to_map
    [ (["Sources"], Dir); (["Sources"; "App"], Dir);
      (controllers_dir, Dir);
      (controllers_dir ++ ["Todos"], Dir) ].

(** A manifest with a dependencies block, alone in its tree. *)
Definition manifest_lines : list string :=
  [ "let package = Package(" +:+ nl;
    "    dependencies: [" +:+ nl;
    "    ]" +:+ nl;
    ")" +:+ nl ].

Definition manifest_tree : gmap (list string) node :=
  {[ PACKAGE_FILE := File (writelines manifest_lines) ]}.


(** A project with nothing but Sources/App. *)
Definition app_tree : gmap (list string) node :=
  list_to_map [ (["Sources"], Dir); (["Sources"; "App"], Dir) ].


(** A network that answers every request with status 200. *)
Definition answer_200 (url : string) : M (nat * string) :=
  mret (200, "content of " +:+ url).

(** * Properties *)

(** ** Strings and lines *)

Section text_facts.

Lemma append_cons (c : ascii) (s t : string) :
  String c s +:+ t = String c (s +:+ t).
Proof. reflexivity. Qed.

Lemma append_nil_l (s : string) : "" +:+ s = s.
Proof. reflexivity. Qed.

Lemma append_nil_r (s : string) : s +:+ "" = s.
Proof.
  induction s as [|c s IH]; [done |]. by rewrite append_cons, IH.
Qed.

Lemma append_assoc (a b c : string) : (a +:+ b) +:+ c = a +:+ b +:+ c.
Proof.
  induction a as [|x a IH]; [done |]. by rewrite !append_cons, IH.
Qed.

Lemma prefix_spec (p s : string) :
  String.prefix p s = true ↔ ∃ b, s = p +:+ b.
Proof.
  revert s. induction p as [|x p IH]; intros s; simpl.
  - destruct s; split; eauto.
  - destruct s as [|y s]; simpl.
    + split; [done | intros [b Hb]; discriminate].
    + destruct (Ascii.ascii_dec x y) as [->|Hne].
      * rewrite IH. split; intros [b Hb]; exists b;
          rewrite ?append_cons in *; congruence.
      * split; [done | intros [b Hb]; rewrite append_cons in Hb; congruence].
Qed.

Lemma contains_nil (p : string) : contains p "" = String.prefix p "".
Proof. simpl. apply orb_false_r. Qed.

Lemma contains_cons (p : string) (c : ascii) (s : string) :
  contains p (String c s) = String.prefix p (String c s) || contains p s.
Proof. reflexivity. Qed.

Lemma contains_spec (p s : string) :
  contains p s = true ↔ Substring p s.
Proof.
  induction s as [|c s IH].
  - rewrite contains_nil, prefix_spec. split.
    + intros [b Hb]. by exists "", b.
    + intros [a [b Hab]]. destruct a; [by exists b | done].
  - rewrite contains_cons, orb_true_iff, prefix_spec, IH. split.
    + intros [[b Hb] | [a [b Hab]]].
      * by exists "", b.
      * exists (String c a), b. by rewrite append_cons, Hab.
    + intros [a [b Hab]]. destruct a as [|x a].
      * left. by exists b.
      * right. exists a, b. rewrite append_cons in Hab. congruence.
Qed.

Lemma contains_false (p s : string) :
  contains p s = false ↔ ¬ Substring p s.
Proof.
  rewrite <- contains_spec. by destruct (contains p s).
Qed.

Lemma contains_empty (s : string) : contains "" s = true.
Proof. destruct s; reflexivity. Qed.

Lemma writelines_cons (l : string) (ls : list string) :
  writelines (l :: ls) = l +:+ writelines ls.
Proof. reflexivity. Qed.

Lemma writelines_app (l1 l2 : list string) :
  writelines (l1 ++ l2) = writelines l1 +:+ writelines l2.
Proof.
  induction l1 as [|x l1 IH]; [done |].
  change ((x :: l1) ++ l2) with (x :: (l1 ++ l2)).
  by rewrite !writelines_cons, IH, append_assoc.
Qed.

Lemma writelines_readlines (s : string) : writelines (readlines s) = s.
Proof.
  induction s as [|c s IH]; simpl; [done |].
  destruct (Ascii.eqb c nl_char).
  - by rewrite writelines_cons, IH.
  - destruct (readlines s) as [|l ls].
    + by rewrite <- IH.
    + rewrite writelines_cons in *. by rewrite append_cons, IH.
Qed.

End text_facts.

(** ** PatternFilter *)

Section pattern_filter.

Lemma any_pattern_in_false (P : list string) (line : string) :
  Doc.any_pattern_in P line = false ↔ Doc.matches_none P line.
Proof.
  unfold Doc.any_pattern_in, Doc.matches_none.
  induction P as [|p P IH]; simpl.
  - split; [intros _ q Hq; inversion Hq | done].
  - rewrite orb_false_iff, IH, contains_false. split.
    + intros [Hp HP] q Hq. apply elem_of_cons in Hq as [->|Hq]; auto.
    + intros H. split; [apply H; left | intros q Hq; apply H; by right].
Qed.

#[global] Instance matches_none_dec (P : list string) (line : string) :
  Decision (Doc.matches_none P line).
Proof.
  destruct (Doc.any_pattern_in P line) eqn:E.
  - right. intros H. apply any_pattern_in_false in H. congruence.
  - left. by apply any_pattern_in_false.
Defined.

Lemma cleaned_lines_filter (D P : list string) :
  Doc.cleaned_lines D P = filter (Doc.matches_none P) D.
Proof.
  unfold Doc.cleaned_lines.
  induction D as [|line D IH]; [done |].
  simpl. rewrite filter_cons, IH.
  destruct (decide (Doc.matches_none P line)) as [H|H].
  - apply any_pattern_in_false in H. by rewrite H.
  - destruct (Doc.any_pattern_in P line) eqn:E; [done |].
    by apply any_pattern_in_false in E.
Qed.

Lemma rollback_routes_cleaned_eq (D : list string) :
  Doc.rollback_routes_cleaned D = Doc.cleaned_lines D ["openapi.yml"; "docs"].
Proof.
  unfold Doc.rollback_routes_cleaned, Doc.cleaned_lines, Doc.any_pattern_in.
  apply filter_ext. intros line. simpl.
  by rewrite orb_false_r, negb_orb.
Qed.

(** C6. For every document [D] and patterns [P], the lines kept by
    [clean_file] (and by the routes.swift filter of the rollback, whose
    patterns are fixed) are exactly the lines of [D] that contain none of
    the patterns as a substring, in their order and unchanged; with no
    pattern the document is returned as it is. *)
Theorem pattern_filter_exact (D P : list string) :
  Doc.cleaned_lines D P = filter (Doc.matches_none P) D
  ∧ Doc.cleaned_lines D [] = D
  ∧ Doc.rollback_routes_cleaned D
    = filter (Doc.matches_none ["openapi.yml"; "docs"]) D.
Proof.
  split; [apply cleaned_lines_filter |]. split.
  - unfold Doc.cleaned_lines. induction D as [|l D IH]; [done |].
    simpl. f_equal. exact IH.
  - rewrite rollback_routes_cleaned_eq. apply cleaned_lines_filter.
Qed.

(** The end-to-end scenario of the specification. *)
Example pattern_filter_scenario :
  Doc.cleaned_lines
    [ "import Vapor";
      "app.get(" +:+ dq +:+ "todo" +:+ dq +:+ ")";
      "app.migrations.add(CreateTodo())" ]
    [ "CreateTodo"; "register(collection:" ]
  = [ "import Vapor"; "app.get(" +:+ dq +:+ "todo" +:+ dq +:+ ")" ].
Proof. reflexivity. Qed.

End pattern_filter.

(** ** MarkerInsert *)

Section marker_insert.

Lemma first_index_None (marker : string) (lines : list string) :
  Doc.first_index marker lines = None →
  ∀ l, l ∈ lines → ¬ Substring marker l.
Proof.
  induction lines as [|line rest IH]; simpl; intros H l Hl.
  - inversion Hl.
  - destruct (contains marker line) eqn:E; [done |].
    destruct (Doc.first_index marker rest); [done |].
    apply elem_of_cons in Hl as [->|Hl]; [by apply contains_false | by apply IH].
Qed.

Lemma first_index_Some (marker : string) (lines : list string) (i : nat) :
  Doc.first_index marker lines = Some i →
  ∃ pre line post,
    lines = pre ++ line :: post ∧ length pre = i
    ∧ (∀ l, l ∈ pre → ¬ Substring marker l) ∧ Substring marker line.
Proof.
  revert i. induction lines as [|line rest IH]; simpl; intros i H; [done |].
  destruct (contains marker line) eqn:E.
  - injection H as <-. exists [], line, rest.
    split_and!; [done | done | intros l Hl; inversion Hl | by apply contains_spec].
  - destruct (Doc.first_index marker rest) as [j|]; [|done].
    injection H as <-.
    destruct (IH j eq_refl) as (pre & l0 & post & -> & <- & Hpre & Hl0).
    exists (line :: pre), l0, post. split_and!; [done | done | | done].
    intros l Hl. apply elem_of_cons in Hl as [->|Hl]; [by apply contains_false | auto].
Qed.

Lemma list_insert_at_app (pre : list string) (line x : string) (post : list string) :
  Doc.list_insert_at (length pre + 1) x (pre ++ line :: post)
  = pre ++ line :: x :: post.
Proof.
  unfold Doc.list_insert_at.
  replace (pre ++ line :: post) with ((pre ++ [line]) ++ post)
    by by rewrite <- app_assoc.
  replace (length pre + 1) with (length (pre ++ [line]))
    by by rewrite length_app.
  rewrite take_app_length, drop_app_length. by rewrite <- app_assoc.
Qed.

Lemma append_lines_no_marker (lines : list string) (content : string) :
  Doc.append_lines lines content None = lines ++ [content +:+ nl]
  ∧ Doc.append_lines lines content (Some "") = lines ++ [content +:+ nl].
Proof. done. Qed.

Lemma truthy_nonempty (marker : string) :
  marker ≠ "" → Doc.truthy (Some marker) = Some marker.
Proof. by destruct marker. Qed.

(** C4 (amended). For every document, content and non-empty marker, the
    lines [append_to_file] writes back are the document with the content
    (and its newline) placed immediately after the first line that
    contains the marker, later matching lines being ignored; when no line
    contains the marker the content is appended at the end. *)
Theorem marker_insert_first (lines : list string) (content marker : string) :
  marker ≠ "" →
  MarkerInserted marker (content +:+ nl) lines
    (Doc.append_lines lines content (Some marker)).
Proof.
  intros Hm. unfold Doc.append_lines. rewrite truthy_nonempty by done.
  destruct (Doc.first_index marker lines) as [i|] eqn:E.
  - left. destruct (first_index_Some _ _ _ E) as (pre & line & post & -> & <- & Hpre & Hl).
    exists pre, line, post. split_and!; try done. apply list_insert_at_app.
  - right. split; [by apply first_index_None | done].
Qed.

Lemma marker_insert_first_witness :
  "dependencies: [" ≠ ""
  ∧ MarkerInserted "dependencies: [" ("x" +:+ nl)
      ["a" +:+ nl; "dependencies: [" +:+ nl; "]" +:+ nl]
      (Doc.append_lines ["a" +:+ nl; "dependencies: [" +:+ nl; "]" +:+ nl]
         "x" (Some "dependencies: [")).
Proof. split; [done | apply marker_insert_first; done]. Defined.

(** C4, as stated, fails for the empty marker: every line contains it,
    yet the content goes to the end of the document. *)
Lemma marker_insert_empty_marker :
  Doc.append_lines ["a" +:+ nl; "b" +:+ nl] "c" (Some "")
    = ["a" +:+ nl; "b" +:+ nl; "c" +:+ nl]
  ∧ ¬ MarkerInserted "" ("c" +:+ nl) ["a" +:+ nl; "b" +:+ nl]
        (Doc.append_lines ["a" +:+ nl; "b" +:+ nl] "c" (Some "")).
Proof.
  split; [done |].
  assert (Hall : ∀ l, Substring "" l) by (intros l; by exists "", l).
  intros [(pre & line & post & Hlines & Hpre & _ & Hres) | [Hnone _]].
  - destruct pre as [|x pre].
    + simpl in *. injection Hlines as <- <-. discriminate Hres.
    + apply (Hpre x); [left | apply Hall].
  - apply (Hnone ("a" +:+ nl)); [left | apply Hall].
Qed.

Lemma prefix_nl (c : ascii) (s : string) :
  String.prefix nl (String c s) = Ascii.eqb c nl_char.
Proof.
  change (String.prefix nl (String c s))
    with (if Ascii.ascii_dec nl_char c then String.prefix "" s else false).
  destruct (Ascii.ascii_dec nl_char c) as [<-|Hne].
  - rewrite Ascii.eqb_refl. by destruct s.
  - symmetry. apply Ascii.eqb_neq. congruence.
Qed.

Lemma embedded_break_append_nl (content : string) :
  embedded_break (content +:+ nl) = contains nl content.
Proof.
  induction content as [|c s IH]; [done |].
  rewrite append_cons, contains_cons, prefix_nl.
  change (embedded_break (String c (s +:+ nl)))
    with ((Ascii.eqb c nl_char && negb (String.eqb (s +:+ nl) ""))
          || embedded_break (s +:+ nl)).
  rewrite IH. f_equal.
  assert (String.eqb (s +:+ nl) "" = false) as -> by by destruct s.
  apply andb_true_r.
Qed.

(** C5 (amended). [append_to_file] does not split a multi-line content:
    the content followed by one newline enters the line sequence as a
    single element, somewhere between two parts of the document, and that
    element has an embedded line break exactly when the content contains
    a newline. *)
Theorem marker_insert_one_element (lines : list string) (content : string)
    (marker : option string) :
  (∃ pre post,
      lines = pre ++ post
      ∧ Doc.append_lines lines content marker = pre ++ (content +:+ nl) :: post)
  ∧ embedded_break (content +:+ nl) = contains nl content.
Proof.
  split; [|apply embedded_break_append_nl].
  unfold Doc.append_lines.
  assert (Hend : ∃ pre post, lines = pre ++ post
      ∧ lines ++ [content +:+ nl] = pre ++ (content +:+ nl) :: post).
  { exists lines, []. by rewrite app_nil_r. }
  destruct (Doc.truthy marker) as [m|]; [|done].
  destruct (Doc.first_index m lines) as [i|]; [|done].
  exists (take (i + 1) lines), (drop (i + 1) lines).
  by rewrite take_drop.
Qed.

(** C5, as stated, fails: a two-line content stays one element of the
    output, with its line break inside. *)
Lemma marker_insert_not_split :
  Doc.append_lines ["a" +:+ nl] ("x" +:+ nl +:+ "y") None
    = ["a" +:+ nl; "x" +:+ nl +:+ "y" +:+ nl]
  ∧ existsb embedded_break
      (Doc.append_lines ["a" +:+ nl] ("x" +:+ nl +:+ "y") None) = true.
Proof. done. Qed.

End marker_insert.

(** ** ListBlockEditor *)

Section list_block.

Variable ROOT_DIR : string.

Lemma exclusions_loop_done (doc : list string) :
  Doc.exclusions_loop doc true = doc.
Proof.
  induction doc as [|line doc IH]; [done |].
  simpl. rewrite andb_false_r. by rewrite IH.
Qed.

Lemma exclusions_loop_no_opener (doc : list string) (updated : bool) :
  Forall (λ l, ¬ Substring "exclude: [" l) doc →
  Doc.exclusions_loop doc updated = doc.
Proof.
  induction 1 as [|line doc Hl _ IH]; [done |].
  simpl. apply contains_false in Hl. rewrite Hl. simpl. by rewrite IH.
Qed.

Lemma resources_loop_done (skip : string → bool) (doc : list string) :
  Doc.resources_loop skip doc true = List.filter (λ l, negb (skip l)) doc.
Proof.
  induction doc as [|line doc IH]; [done |].
  simpl. destruct (skip line); simpl; [done |].
  rewrite andb_false_r. by rewrite IH.
Qed.

Lemma resources_loop_no_opener (skip : string → bool) (doc : list string)
    (updated : bool) :
  Forall (λ l, ¬ Substring "resources: [" l) doc →
  Doc.resources_loop skip doc updated = List.filter (λ l, negb (skip l)) doc.
Proof.
  induction 1 as [|line doc Hl _ IH]; [done |].
  simpl. apply contains_false in Hl. rewrite Hl.
  destruct (skip line); simpl; by rewrite IH.
Qed.

(** Each run on a document with an [exclude: \[] line adds the two
    entries again. *)
Lemma add_exclusions_grows (doc : list string) :
  Exists (Substring "exclude: [") doc →
  length (Doc.add_exclusions doc) = length doc + 2
  ∧ Exists (Substring "exclude: [") (Doc.add_exclusions doc).
Proof.
  unfold Doc.add_exclusions.
  induction 1 as [line doc Hl | line doc _ IH].
  - simpl. apply contains_spec in Hl. rewrite Hl. simpl.
    rewrite exclusions_loop_done. split; [lia |].
    apply Exists_cons_hd. by apply contains_spec.
  - simpl. destruct (contains "exclude: [" line) eqn:E; simpl.
    + rewrite exclusions_loop_done. split; [lia |].
      apply Exists_cons_hd. by apply contains_spec.
    + destruct IH as [IH1 IH2]. split; [lia | by apply Exists_cons_tl].
Qed.

(** X28. The exclusions loop of the three fix scripts never reaches a
    fixed point on a document with an [exclude: \[] line: a second run
    changes the document again. *)
Lemma add_exclusions_never_idempotent (doc : list string) :
  Exists (Substring "exclude: [") doc →
  Doc.add_exclusions (Doc.add_exclusions doc) ≠ Doc.add_exclusions doc.
Proof.
  intros H. destruct (add_exclusions_grows doc H) as [H1 H2].
  destruct (add_exclusions_grows _ H2) as [H3 _].
  intros Heq. rewrite Heq in H3. lia.
Qed.

(** The resources loop of fix_resource_conflicts.py drops the entries it
    is about to write, so a second run rewrites the same document. *)
Lemma resources_loop_filter (skip : string → bool) (doc : list string)
    (updated : bool) :
  Doc.resources_loop skip doc updated
  = Doc.resources_loop (λ _, false) (List.filter (λ l, negb (skip l)) doc) updated.
Proof.
  revert updated. induction doc as [|line doc IH]; intros updated; [done |].
  simpl. destruct (skip line); simpl; [done |].
  destruct (contains "resources: [" line && negb updated); by rewrite IH.
Qed.

Lemma filter_resources_loop (skip : string → bool) (doc : list string)
    (updated : bool) :
  skip Doc.process_views = true → skip Doc.process_openapi = true →
  List.filter (λ l, negb (skip l)) (Doc.resources_loop skip doc updated)
  = List.filter (λ l, negb (skip l)) doc.
Proof.
  intros Hv Ho. revert updated.
  induction doc as [|line doc IH]; intros updated; [done |].
  simpl. destruct (skip line) eqn:E; simpl; [done |].
  destruct (contains "resources: [" line && negb updated); simpl;
    rewrite ?E, ?Hv, ?Ho; simpl; by rewrite IH.
Qed.

(** X27. The resources loop of fix_resource_conflicts.py is idempotent:
    a second run over its own result returns that result, for every
    document. *)
Lemma conflicts_update_resources_idempotent (doc : list string) :
  Doc.conflicts.update_resources (Doc.conflicts.update_resources doc)
  = Doc.conflicts.update_resources doc.
Proof.
  unfold Doc.conflicts.update_resources.
  rewrite resources_loop_filter.
  rewrite filter_resources_loop by reflexivity.
  by rewrite <- resources_loop_filter.
Qed.

(** C1. On [package0] a second run of the exclusions loop, and of the
    resources loop of fix_nested_resources.py, changes the document
    again: every entry line is then present twice. *)
Theorem ensure_entries_duplicates :
  Doc.add_exclusions (Doc.add_exclusions package0) ≠ Doc.add_exclusions package0
  ∧ Forall (λ e, count_occ string_dec
               (Doc.add_exclusions (Doc.add_exclusions package0))
               (Doc.exclude_line e) = 2) Doc.EXCLUDE_FILES
  ∧ Doc.nested.update_resources (Doc.nested.update_resources package0)
    ≠ Doc.nested.update_resources package0
  ∧ count_occ string_dec
      (Doc.nested.update_resources (Doc.nested.update_resources package0))
      Doc.process_views = 2
  ∧ count_occ string_dec
      (Doc.nested.update_resources (Doc.nested.update_resources package0))
      Doc.process_openapi = 2.
Proof.
  split_and!.
  - by vm_compute.
  - repeat constructor.
  - by vm_compute.
  - reflexivity.
  - reflexivity.
Qed.

End list_block.

(** ** Running a script *)

Section run_facts.

Context {A B : Type}.

Lemma bind_returned (m : M A) (f : A → M B) (w w' : world) (a : A) :
  m w = (Returned a, w') → (m ≫= f) w = f a w'.
Proof. intros H. unfold mbind, M_bind. by rewrite H. Qed.

Lemma bind_raised (m : M A) (f : A → M B) (w w' : world) (e : exn) :
  m w = (Raised e, w') → (m ≫= f) w = (Raised e, w').
Proof. intros H. unfold mbind, M_bind. by rewrite H. Qed.

End run_facts.

Lemma get_tree_run (w : world) : get_tree w = (Returned (tree w), w).
Proof. done. Qed.

Lemma print_run (s : string) (w : world) :
  print s w = (Returned (), World (tree w) (stdout w ++ [s])).
Proof. done. Qed.

Lemma read_text_run (p : list string) (w : world) (content : string) :
  node_at (tree w) p = Some (File content) →
  read_text p w = (Returned content, w).
Proof.
  intros H. unfold read_text.
  rewrite (bind_returned _ _ _ _ _ (get_tree_run w)). by rewrite H.
Qed.

Lemma write_text_run (p : list string) (content : string) (w : world) :
  node_at (tree w) p ≠ Some Dir →
  node_at (tree w) (dirname p) = Some Dir →
  write_text p content w
  = (Returned (), World (<[p := File content]> (tree w)) (stdout w)).
Proof.
  intros Hp Hd. unfold write_text.
  rewrite (bind_returned _ _ _ _ _ (get_tree_run w)). rewrite Hd.
  by destruct (node_at (tree w) p) as [[]|].
Qed.



Lemma path_exists_Some (t : gmap (list string) node) (p : list string) (x : node) :
  node_at t p = Some x → path_exists t p = true.
Proof. unfold path_exists. by intros ->. Qed.

Lemma path_exists_false (t : gmap (list string) node) (p : list string) :
  path_exists t p = false ↔ node_at t p = None.
Proof. unfold path_exists. by destruct (node_at t p). Qed.

Lemma isdir_true (t : gmap (list string) node) (p : list string) :
  isdir t p = true ↔ node_at t p = Some Dir.
Proof. unfold isdir. by destruct (node_at t p) as [[]|]. Qed.

Lemma isfile_true (t : gmap (list string) node) (p : list string) :
  isfile t p = true ↔ ∃ content, node_at t p = Some (File content).
Proof.
  unfold isfile. destruct (node_at t p) as [[c|]|]; split; try done.
  - eauto.
  - by intros [? ?].
  - by intros [? ?].
Qed.

Ltac run_with tac := erewrite bind_returned; [| tac].
Ltac run_get := run_with ltac:(apply get_tree_run); cbn [tree stdout].

(** ** Missing openers and missing files *)

Section missing.

Variable ROOT_DIR : string.

(** C3 (amended). When no line of Package.swift contains the opener,
    nothing is inserted and nothing is reported: the exclusions step
    leaves the file as it is, the resources step only drops the lines it
    skips, and each prints its usual closing message. *)
Theorem missing_opener_unreported (t : gmap (list string) node) (text : string) :
  node_at t PACKAGE_FILE = Some (File text) →
  (Forall (λ l, ¬ Substring "exclude: [" l) (readlines text) →
   run (add_package_exclusions ROOT_DIR) t
   = (Returned (),
      World t ["Added exclusions to " +:+ show ROOT_DIR PACKAGE_FILE +:+ "."]))
  ∧ (Forall (λ l, ¬ Substring "resources: [" l) (readlines text) →
     run (update_package_resources ROOT_DIR Doc.conflicts.update_resources) t
     = (Returned (),
        World (<[PACKAGE_FILE :=
                   File (writelines
                     (List.filter (λ l, negb (Doc.conflicts.skip l))
                        (readlines text)))]> t)
          ["Updated " +:+ show ROOT_DIR PACKAGE_FILE +:+
           " with correct resource paths."])).
Proof.
  intros H. split; intros Hno.
  - unfold run, add_package_exclusions. run_get.
    rewrite (path_exists_Some _ _ _ H).
    run_with ltac:(by apply read_text_run).
    run_with ltac:(apply write_text_run; cbn [tree]; [by rewrite H | done]).
    rewrite print_run. cbn [tree stdout].
    unfold Doc.add_exclusions. rewrite exclusions_loop_no_opener by done.
    rewrite writelines_readlines. by rewrite insert_id.
  - unfold run, update_package_resources. run_get.
    rewrite (path_exists_Some _ _ _ H).
    run_with ltac:(by apply read_text_run).
    run_with ltac:(apply write_text_run; cbn [tree]; [by rewrite H | done]).
    rewrite print_run. cbn [tree stdout].
    unfold Doc.conflicts.update_resources.
    by rewrite resources_loop_no_opener.
Qed.

(** C9 (amended). A cleaning step whose file does not exist changes no
    file or directory and ends normally, so the script goes on.
    [clean_file], for any path, and the two Package.swift steps of the
    fix scripts print that the file is missing; the filters of
    rollback_redoc_setup.py skip the missing file and note nothing. *)
Theorem missing_file_reported (t : gmap (list string) node) (file_path : list string)
    (patterns_to_remove : list string) :
  path_exists t file_path = false →
  run (clean_file ROOT_DIR file_path patterns_to_remove) t
  = (Returned (), World t ["File not found: " +:+ show ROOT_DIR file_path])
  ∧ (file_path = PACKAGE_FILE →
     (∀ update, run (update_package_resources ROOT_DIR update) t
        = (Returned (),
           World t ["Error: " +:+ show ROOT_DIR PACKAGE_FILE +:+ " does not exist."]))
     ∧ run (add_package_exclusions ROOT_DIR) t
       = (Returned (),
          World t ["Error: " +:+ show ROOT_DIR PACKAGE_FILE +:+ " does not exist."]))
  ∧ (∀ clean cleaned_msg clean_msg rollback_actions,
       run (rollback_clean file_path clean cleaned_msg clean_msg rollback_actions) t
       = (Returned rollback_actions, World t [])).
Proof.
  intros H. split_and!.
  - unfold run, clean_file. run_get. by rewrite H.
  - intros ->. split; [intros update |].
    + unfold run, update_package_resources. run_get. by rewrite H.
    + unfold run, add_package_exclusions. run_get. by rewrite H.
  - intros clean m1 m2 actions. unfold run, rollback_clean. run_get. by rewrite H.
Qed.

(** After a missing routes.swift the cleanup goes on with configure.swift. *)
Lemma clean_vapor_project_continues (t : gmap (list string) node) :
  path_exists t routes_file = false →
  run (clean_vapor_project ROOT_DIR) t
  = (print "Cleaning configure.swift..." ;;
     clean_file ROOT_DIR configure_file ["CreateTodo"; "app.migrations.add"] ;;
     print "Removing default controller files..." ;;
     remove_todo_files ROOT_DIR controllers_dir ;;
     print "Removing default migration files..." ;;
     remove_todo_files ROOT_DIR migrations_dir ;;
     print "Cleanup completed. Please ensure the project compiles by running:" ;;
     print "swift build")
      (World t ["Cleaning routes.swift...";
                "File not found: " +:+ show ROOT_DIR routes_file]).
Proof.
  intros H. unfold run, clean_vapor_project.
  run_with ltac:(apply print_run). cbn [tree stdout].
  run_with ltac:(unfold clean_file; run_get; rewrite H; apply print_run).
  done.
Qed.

(** The rollback filter of routes.swift, by contrast, skips a missing
    file without a word. *)
Lemma rollback_clean_missing (t : gmap (list string) node) (file : list string)
    (clean : list string → list string) (m1 m2 : string) (actions : list string) :
  path_exists t file = false →
  run (rollback_clean file clean m1 m2 actions) t = (Returned actions, World t []).
Proof. intros H. unfold run, rollback_clean. run_get. by rewrite H. Qed.

End missing.

(** C3, as stated, fails: a manifest without an [exclude: \[] line is
    rewritten as it was, and the script prints the message it prints
    when the entries were added. *)
Lemma missing_opener_silent :
  existsb (contains "exclude: [") (readlines plain_package_text) = false
  ∧ run (add_package_exclusions "/p") plain_package_tree
    = (Returned (),
       World plain_package_tree ["Added exclusions to /p/Package.swift."])
  ∧ stdout (run (add_package_exclusions "/p") empty_exclude_tree).2
    = ["Added exclusions to /p/Package.swift."].
Proof. by vm_compute. Qed.

Lemma missing_opener_unreported_witness :
  node_at plain_package_tree PACKAGE_FILE = Some (File plain_package_text)
  ∧ Forall (λ l, ¬ Substring "exclude: [" l) (readlines plain_package_text)
  ∧ run (add_package_exclusions "/p") plain_package_tree
    = (Returned (),
       World plain_package_tree
         ["Added exclusions to " +:+ show "/p" PACKAGE_FILE +:+ "."]).
Proof.
  assert (H1 : node_at plain_package_tree PACKAGE_FILE
               = Some (File plain_package_text)) by reflexivity.
  assert (H2 : Forall (λ l, ¬ Substring "exclude: [" l)
                 (readlines plain_package_text)).
  { repeat constructor. by apply contains_false. }
  split_and!; [exact H1 | exact H2 |].
  exact (proj1 (missing_opener_unreported "/p" plain_package_tree
                  plain_package_text H1) H2).
Defined.

(** C9, as stated, fails for the filters of rollback_redoc_setup.py: in
    a tree without routes.swift and configure.swift the script reports
    its three removals and says nothing of the two files. *)
Lemma rollback_missing_file_silent :
  path_exists (∅ : gmap (list string) node) routes_file = false
  ∧ path_exists (∅ : gmap (list string) node) configure_file = false
  ∧ run (rollback_redoc_setup "/p") ∅
    = (Returned (),
       World ∅
         [nl +:+ "Rollback Actions Performed:";
          "- Directory not found (already removed): /p/Resources/OpenAPI";
          "- File not found (already removed): /p/Resources/Views/redoc.leaf";
          "- Directory not found (already removed): /p/Public/redoc";
          nl +:+ "Rollback complete. Your project has been restored to its previous state."]).
Proof. by vm_compute. Qed.

Lemma missing_file_reported_witness :
  path_exists (∅ : gmap (list string) node) routes_file = false
  ∧ run (clean_file "/p" routes_file ["TodoController"]) ∅
    = (Returned (), World ∅ ["File not found: " +:+ show "/p" routes_file]).
Proof.
  split; [reflexivity |].
  exact (proj1 (missing_file_reported "/p" ∅ routes_file ["TodoController"] eq_refl)).
Defined.

(** ** Creating a file with append_to_file *)

Section append_to_file.

Lemma writelines_insert (pre post : list string) (x : string) :
  writelines (pre ++ x :: post) = writelines pre +:+ x +:+ writelines post.
Proof. by rewrite writelines_app, writelines_cons. Qed.

(** C10 (amended). In a directory that exists, [append_to_file] on a
    path that does not exist creates the file with exactly the content,
    whatever the marker, and adds no newline; on an existing file the
    content enters the text followed by a newline. *)
Theorem append_to_file_creates (t : gmap (list string) node) (file_path : list string)
    (content : string) (marker : option string) :
  isdir t (dirname file_path) = true →
  (node_at t file_path = None →
   run (append_to_file file_path content marker) t
   = (Returned (), World (<[file_path := File content]> t) []))
  ∧ (∀ text, node_at t file_path = Some (File text) →
     ∃ pre post,
       text = pre +:+ post
       ∧ run (append_to_file file_path content marker) t
         = (Returned (),
            World (<[file_path := File (pre +:+ (content +:+ nl) +:+ post)]> t) [])).
Proof.
  intros Hd%isdir_true. split.
  - intros Hp. unfold run, append_to_file. run_get.
    rewrite (proj2 (path_exists_false _ _) Hp). cbn [negb].
    rewrite write_text_run; [done | by cbn [tree]; rewrite Hp | done].
  - intros text Hp. unfold run, append_to_file.
    destruct (marker_insert_one_element (readlines text) content marker)
      as [(pre & post & Hlines & Hres) _].
    exists (writelines pre), (writelines post). split.
    + by rewrite <- writelines_app, <- Hlines, writelines_readlines.
    + run_get. rewrite (path_exists_Some _ _ _ Hp). cbn [negb].
      run_with ltac:(by apply read_text_run).
      rewrite write_text_run; [| by cbn [tree]; rewrite Hp | done].
      by rewrite Hres, writelines_insert.
Qed.

Lemma append_to_file_creates_witness :
  isdir (∅ : gmap (list string) node) (dirname ["Package.swift"]) = true
  ∧ node_at (∅ : gmap (list string) node) ["Package.swift"] = None
  ∧ run (append_to_file ["Package.swift"] "x" (Some "dependencies: [")) ∅
    = (Returned (), World (<[["Package.swift"] := File "x"]> ∅) []).
Proof.
  split_and!; [reflexivity | reflexivity |].
  exact (proj1 (append_to_file_creates ∅ ["Package.swift"] "x"
                  (Some "dependencies: [") eq_refl) eq_refl).
Defined.

(** C10, as stated, fails for a path whose directory is missing: the
    [open] raises and no file is created. *)
Lemma append_to_file_missing_directory :
  node_at (∅ : gmap (list string) node) ["Sources"; "App"; "configure.swift"] = None
  ∧ run (append_to_file ["Sources"; "App"; "configure.swift"] "x" None) ∅
    = (Raised (FileNotFoundError ["Sources"; "App"; "configure.swift"]), World ∅ []).
Proof. by vm_compute. Qed.

End append_to_file.

(** ** ScaffoldValidator *)

Section validator.

Variable ROOT_DIR : string.

Lemma check_dir_run (d : list string) (results : list string) (w : world) :
  check_dir ROOT_DIR d results w
  = (Returned (results ++ unless (isdir (tree w) d)
                 ("Missing directory: " +:+ show ROOT_DIR d)), w).
Proof.
  unfold check_dir. run_get.
  destruct (isdir (tree w) d); simpl; by rewrite ?app_nil_r.
Qed.

Lemma check_file_run (f : list string) (results : list string) (w : world) :
  check_file ROOT_DIR f results w
  = (Returned (results ++ unless (isfile (tree w) f)
                 ("Missing file: " +:+ show ROOT_DIR f)), w).
Proof.
  unfold check_file. run_get.
  destruct (isfile (tree w) f); simpl; by rewrite ?app_nil_r.
Qed.

Lemma check_marker_unless (marker content msg : string) (results : list string) :
  check_marker marker content msg results
  = results ++ unless (contains marker content) msg.
Proof.
  unfold check_marker. destruct (contains marker content); simpl;
    by rewrite ?app_nil_r.
Qed.

Lemma check_routes_run (results : list string) (w : world) :
  check_routes ROOT_DIR results w
  = (Returned (results ++ routes_discrepancies ROOT_DIR (tree w)), w).
Proof.
  unfold check_routes, routes_discrepancies, isfile. run_get.
  destruct (node_at (tree w) routes_file) as [[content|]|] eqn:H; cbn [negb];
    try done.
  run_with ltac:(by apply read_text_run).
  by rewrite !check_marker_unless, <- app_assoc.
Qed.

Lemma check_configure_run (results : list string) (w : world) :
  check_configure ROOT_DIR results w
  = (Returned (results ++ configure_discrepancies ROOT_DIR (tree w)), w).
Proof.
  unfold check_configure, configure_discrepancies, isfile. run_get.
  destruct (node_at (tree w) configure_file) as [[content|]|] eqn:H; cbn [negb];
    try done.
  run_with ltac:(by apply read_text_run).
  by rewrite !check_marker_unless.
Qed.

Lemma validate_results_run (w : world) :
  validate_results ROOT_DIR w = (Returned (discrepancies ROOT_DIR (tree w)), w).
Proof.
  unfold validate_results.
  do 3 run_with ltac:(apply check_dir_run).
  do 4 run_with ltac:(apply check_file_run).
  run_with ltac:(apply check_routes_run).
  rewrite check_configure_run. unfold discrepancies.
  by rewrite <- !app_assoc.
Qed.

End validator.

Section validator_check.

Variable ROOT_DIR : string.

Lemma unless_nil (b : bool) (msg : string) : unless b msg = [] ↔ b = true.
Proof. by destruct b. Qed.

Lemma routes_discrepancies_nil (t : gmap (list string) node) :
  routes_discrepancies ROOT_DIR t = []
  ↔ has_marker t routes_file openapi_route ∧ has_marker t routes_file docs_route.
Proof.
  unfold routes_discrepancies, has_marker.
  destruct (node_at t routes_file) as [[content|]|].
  - rewrite app_nil, !unless_nil, !contains_spec. split.
    + intros [H1 H2]. split; eauto.
    + intros [(c1 & [= <-] & H1) (c2 & [= <-] & H2)]. done.
  - split; [done | by intros [(? & ? & _) _]].
  - split; [done | by intros [(? & ? & _) _]].
Qed.

Lemma configure_discrepancies_nil (t : gmap (list string) node) :
  configure_discrepancies ROOT_DIR t = []
  ↔ has_marker t configure_file leaf_config.
Proof.
  unfold configure_discrepancies, has_marker.
  destruct (node_at t configure_file) as [[content|]|].
  - rewrite unless_nil, contains_spec. split.
    + eauto.
    + by intros (c1 & [= <-] & H1).
  - split; [done | by intros (? & ? & _)].
  - split; [done | by intros (? & ? & _)].
Qed.

Lemma discrepancies_nil (t : gmap (list string) node) :
  discrepancies ROOT_DIR t = [] ↔ AllPresent t.
Proof.
  unfold discrepancies, AllPresent, expected_dirs, expected_files.
  rewrite !app_nil, !unless_nil, !isdir_true, !isfile_true.
  rewrite routes_discrepancies_nil, configure_discrepancies_nil.
  rewrite !Forall_cons, !Forall_nil.
  unfold has_marker. split.
  - intros (?&?&?&?&?&?&?&[Hr1 Hr2]&Hc).
    split_and!; try done.
    + destruct Hr1 as (c & ? & _). eauto.
    + destruct Hc as (c & ? & _). eauto.
  - intros ((?&?&?&_)&(?&?&?&?&_&_&_)&?&?&?). done.
Qed.

Lemma node_at_delete_eq (t : gmap (list string) node) (f : list string) :
  f ≠ [] → node_at (delete f t) f = None.
Proof. destruct f; [done |]. intros _. apply lookup_delete_eq. Qed.

Lemma node_at_delete_ne (t : gmap (list string) node) (f p : list string) :
  f ≠ p → node_at (delete f t) p = node_at t p.
Proof. destruct p; [done |]. intros H. by apply lookup_delete_ne. Qed.

Lemma for_each_print (results : list string) (w : world) :
  for_each results (λ result, print ("- " +:+ result)) w
  = (Returned (), World (tree w) (stdout w ++ ((λ r, "- " +:+ r) <$> results))).
Proof.
  revert w. induction results as [|r results IH]; intros w.
  - destruct w. simpl. by rewrite app_nil_r.
  - simpl. run_with ltac:(apply print_run). rewrite IH. cbn [tree stdout].
    by rewrite <- app_assoc.
Qed.

Lemma validate_redoc_setup_run (w : world) :
  validate_redoc_setup ROOT_DIR w
  = (Returned (),
     World (tree w)
       (stdout w ++ validation_report (discrepancies ROOT_DIR (tree w)))).
Proof.
  unfold validate_redoc_setup.
  run_with ltac:(apply validate_results_run).
  destruct (discrepancies ROOT_DIR (tree w)) as [|d ds].
  - apply print_run.
  - run_with ltac:(apply print_run).
    rewrite for_each_print. cbn [tree stdout validation_report].
    by rewrite <- app_assoc.
Qed.

Lemma discrepancies_delete (t : gmap (list string) node) (f : list string) :
  AllPresent t → f ∈ expected_files →
  discrepancies ROOT_DIR (delete f t) = ["Missing file: " +:+ show ROOT_DIR f].
Proof.
  unfold AllPresent, has_marker.
  intros (Hd & Hf & (rc & Hrc & Ho) & (rc' & Hrc' & Hdocs) & (cc & Hcc & Hl)) Hin.
  rewrite Hrc in Hrc'. injection Hrc' as <-.
  apply contains_spec in Ho, Hdocs, Hl.
  unfold expected_dirs, expected_files in *.
  rewrite !Forall_cons in Hd. rewrite !Forall_cons in Hf.
  destruct Hd as (Hd1 & Hd2 & Hd3 & _).
  destruct Hf as ((c1 & Hf1) & (c2 & Hf2) & (c3 & Hf3) & (c4 & Hf4) & _ & _ & _).
  unfold discrepancies, routes_discrepancies, configure_discrepancies, isdir, isfile.
  repeat (apply elem_of_cons in Hin as [-> | Hin]); [.. | by inversion Hin];
    rewrite node_at_delete_eq by done;
    rewrite !node_at_delete_ne by done;
    rewrite ?Hd1, ?Hd2, ?Hd3, ?Hf1, ?Hf2, ?Hf3, ?Hf4, ?Hrc, ?Hcc, ?Ho, ?Hdocs, ?Hl;
    reflexivity.
Qed.

(** C8. [validate_redoc_setup] leaves the tree as it found it and
    prints its report, the list of discrepancies of the tree: the one
    line that the validation passed, exactly when every expected
    directory, file, route and configuration entry is present, and
    otherwise the failure line followed by one line for each
    discrepancy.  With one of the expected files deleted from a tree
    where all is present, the report is the failure line and the one
    discrepancy that names the file. *)
Theorem validator_check (t : gmap (list string) node) :
  run (validate_redoc_setup ROOT_DIR) t
  = (Returned (), World t (validation_report (discrepancies ROOT_DIR t)))
  ∧ (discrepancies ROOT_DIR t = [] ↔ AllPresent t)
  ∧ (validation_report (discrepancies ROOT_DIR t)
     = ["Validation Passed: All required files, directories, and configurations are present."]
     ↔ AllPresent t)
  ∧ (AllPresent t → ∀ f, f ∈ expected_files →
     run (validate_redoc_setup ROOT_DIR) (delete f t)
     = (Returned (),
        World (delete f t)
          ["Validation Failed:"; "- Missing file: " +:+ show ROOT_DIR f])).
Proof.
  unfold run. split_and!.
  - by rewrite validate_redoc_setup_run.
  - apply discrepancies_nil.
  - rewrite <- discrepancies_nil.
    destruct (discrepancies ROOT_DIR t) as [|d ds]; [done |].
    split; intros H; discriminate H.
  - intros Hall f Hf. rewrite validate_redoc_setup_run. cbn [tree stdout].
    by rewrite discrepancies_delete.
Qed.

End validator_check.

Lemma valid_tree_all_present : AllPresent valid_tree.
Proof.
  unfold AllPresent, has_marker. split_and!.
  - by repeat constructor.
  - repeat constructor; by eexists.
  - eexists. split; [reflexivity | by apply contains_spec].
  - eexists. split; [reflexivity | by apply contains_spec].
  - eexists. split; [reflexivity | by apply contains_spec].
Qed.

Lemma validator_check_witness :
  AllPresent valid_tree
  ∧ run (validate_redoc_setup "/p") (delete routes_file valid_tree)
    = (Returned (),
       World (delete routes_file valid_tree)
         ["Validation Failed:"; "- Missing file: " +:+ show "/p" routes_file]).
Proof.
  split; [exact valid_tree_all_present |].
  destruct (validator_check "/p" valid_tree) as (_ & _ & _ & H).
  apply (H valid_tree_all_present). unfold expected_files. set_solver.
Defined.

(** ** TreeMerger *)

Section tree_merger.

Variable ROOT_DIR : string.

Lemma dirname_snoc (d : list string) (n : string) : dirname (d ++ [n]) = d.
Proof.
  unfold dirname. rewrite length_app. simpl.
  replace (length d + 1 - 1) with (length d) by lia.
  by rewrite take_app_length.
Qed.

Lemma node_at_snoc (t : gmap (list string) node) (d : list string) (n : string) :
  node_at t (d ++ [n]) = t !! (d ++ [n]).
Proof. by destruct d. Qed.

Lemma well_formed_parent (t : gmap (list string) node) (d : list string)
    (n : string) (x : node) :
  well_formed t → node_at t (d ++ [n]) = Some x → node_at t d = Some Dir.
Proof.
  intros Hwf H. rewrite node_at_snoc in H.
  apply Hwf in H. rewrite dirname_snoc in H. by apply isdir_true.
Qed.

Lemma mkdir_exists (p : list string) (w : world) (x : node) :
  node_at (tree w) p = Some x → mkdir p w = (Raised (FileExistsError p), w).
Proof. intros H. unfold mkdir. run_get. by rewrite H. Qed.

(** [os.makedirs] leaves an existing directory alone. *)
Lemma makedirs_isdir (p : list string) (w : world) :
  well_formed (tree w) → node_at (tree w) p = Some Dir →
  makedirs p w = (Returned (), w).
Proof.
  intros Hwf Hp. unfold makedirs.
  destruct (rev p) as [|tail rhead] eqn:E; [done |].
  assert (Hpe : p = rev rhead ++ [tail]).
  { by rewrite <- (rev_involutive p), E. }
  cbn [makedirs_rev]. run_get.
  rewrite Hpe in Hp.
  rewrite (path_exists_Some _ _ _ (well_formed_parent _ _ _ _ Hwf Hp)).
  run_with ltac:(done).
  change (rev (tail :: rhead)) with (rev rhead ++ [tail]).
  unfold except_OSError. rewrite (mkdir_exists _ _ _ Hp).
  run_get. by rewrite (proj2 (isdir_true _ _) Hp).
Qed.

(** [shutil.move] of a file onto a file. *)
Lemma move_file_onto_file (src dst : list string) (w : world) (c_src c_dst : string) :
  well_formed (tree w) →
  node_at (tree w) src = Some (File c_src) →
  node_at (tree w) dst = Some (File c_dst) →
  move src dst w
  = (Returned (), World (<[dst := File c_src]> (delete src (tree w))) (stdout w)).
Proof.
  intros Hwf Hs Hd. unfold move. run_get.
  unfold isdir. rewrite Hd. unfold rename. run_get. rewrite Hs, Hd.
  destruct dst as [|d0 dst'] using rev_ind; [done |].
  by rewrite dirname_snoc, (well_formed_parent _ _ _ _ Hwf Hd).
Qed.

(** The move of a file onto a file, in the body of the walk of
    fix_nested_resources.py and fix_resource_conflicts.py and in the
    openapi.yml step of fix_resources.py: no report, the destination path
    then holds the content of the source file and the source file is
    gone. *)
Lemma move_overwrites (t : gmap (list string) node) :
  well_formed t →
  (∀ src dst root dirs file c_src c_dst,
     node_at t (root ++ [file]) = Some (File c_src) →
     node_at t ((dst ++ drop (length src) root) ++ [file]) = Some (File c_dst) →
     run (move_files src dst root dirs [file]) t
     = (Returned (),
        World (<[(dst ++ drop (length src) root) ++ [file] := File c_src]>
                 (delete (root ++ [file]) t)) []))
  ∧ (∀ c_src c_dst,
     node_at t flat.OPENAPI_SRC = Some (File c_src) →
     node_at t flat.OPENAPI_DEST = Some (File c_dst) →
     run (flat_move_openapi ROOT_DIR) t
     = (Returned (),
        World (<[flat.OPENAPI_DEST := File c_src]> (delete flat.OPENAPI_SRC t))
          ["Moved openapi.yml to " +:+ show ROOT_DIR flat.OPENAPI_DEST])).
Proof.
  intros Hwf. split.
  - intros src dst root dirs file c_src c_dst Hs Hd.
    unfold run, move_files. cbn [for_each].
    run_with ltac:(
      run_with ltac:(apply makedirs_isdir; cbn [tree];
                     [done | by eapply well_formed_parent]);
      by eapply move_file_onto_file).
    done.
  - intros c_src c_dst Hs Hd. unfold run, flat_move_openapi. run_get.
    rewrite (path_exists_Some _ _ _ Hs).
    run_with ltac:(by eapply move_file_onto_file).
    by rewrite print_run.
Qed.

End tree_merger.

Lemma collision_tree_well_formed : well_formed collision_tree.
Proof. unfold well_formed. apply (bool_decide_unpack _). by vm_compute. Qed.

(** C2, as stated, fails: fix_nested_resources.py run on [collision_tree]
    ends normally with its usual message; the file in place now has the
    content of the nested copy and the nested copy is gone. *)
Lemma merge_conflict_overwritten :
  node_at collision_tree (nested.INCORRECT_RESOURCES_DIR ++ ["a.txt"])
    = Some (File "new")
  ∧ node_at collision_tree (nested.CORRECT_RESOURCES_DIR ++ ["a.txt"])
    = Some (File "old")
  ∧ (run (fix_nested_resources_steps12 "/p" 8) collision_tree).1 = Returned ()
  ∧ stdout (run (fix_nested_resources_steps12 "/p" 8) collision_tree).2
    = ["Moved resources from /p/Sources/App/Resources/Sources/App/Resources to /p/Sources/App/Resources."]
  ∧ node_at (tree (run (fix_nested_resources_steps12 "/p" 8) collision_tree).2)
      (nested.CORRECT_RESOURCES_DIR ++ ["a.txt"]) = Some (File "new")
  ∧ node_at (tree (run (fix_nested_resources_steps12 "/p" 8) collision_tree).2)
      (nested.INCORRECT_RESOURCES_DIR ++ ["a.txt"]) = None.
Proof. by vm_compute. Qed.

(** C7. On [twice_nested_tree] fix_nested_resources.py moves the file of
    the source tree to a place below the directory it then removes: the
    script ends normally and no file is left, where the merge should have
    left the file under the destination.  fix_resource_conflicts.py, whose
    destination is outside the directory it removes, keeps the file. *)
Theorem nested_merge_loses_file :
  files_of twice_nested_tree
    = [ (nested.INCORRECT_RESOURCES_DIR
           ++ ["Sources"; "App"; "Resources"; "Views"; "index.leaf"], "leaf") ]
  ∧ (run (fix_nested_resources_steps12 "/p" 8) twice_nested_tree).1 = Returned ()
  ∧ files_of (tree (run (fix_nested_resources_steps12 "/p" 8) twice_nested_tree).2)
    = []
  ∧ (run (fix_resource_conflicts_steps12 "/p" 8) twice_nested_app_tree).1
    = Returned ()
  ∧ files_of
      (tree (run (fix_resource_conflicts_steps12 "/p" 8) twice_nested_app_tree).2)
    = [ (conflicts.RESOURCES_DIR
           ++ ["Sources"; "App"; "Resources"; "Views"; "index.leaf"], "leaf") ].
Proof. by vm_compute. Qed.

(** When the source directory does not exist the step changes nothing
    and says so. *)
Lemma nested_move_resources_absent (ROOT_DIR : string)
    (t : gmap (list string) node) (fuel : nat) :
  path_exists t nested.INCORRECT_RESOURCES_DIR = false →
  run (nested_move_resources ROOT_DIR fuel) t
  = (Returned (),
     World t ["No nested resources found at " +:+
              show ROOT_DIR nested.INCORRECT_RESOURCES_DIR +:+ "."]).
Proof. intros H. unfold run, nested_move_resources. run_get. by rewrite H. Qed.

Lemma conflicts_move_resources_absent (ROOT_DIR : string)
    (t : gmap (list string) node) (fuel : nat) :
  path_exists t conflicts.NESTED_RESOURCES_DIR = false →
  run (conflicts_move_resources ROOT_DIR fuel) t
  = (Returned (),
     World t ["No nested resources found in " +:+
              show ROOT_DIR conflicts.NESTED_RESOURCES_DIR +:+ "."]).
Proof. intros H. unfold run, conflicts_move_resources. run_get. by rewrite H. Qed.

(** ** The step bound of the walk

    A walk that ends within its bound ends the same way under any larger
    bound, and so do the scripts that use it. *)

Section fuel.

Variable ROOT_DIR : string.

Lemma bind_not_out_of_fuel {A B : Type} (m : M A) (f : A → M B) (w : world) :
  ((m ≫= f) w).1 ≠ OutOfFuel → (m w).1 ≠ OutOfFuel.
Proof.
  unfold mbind, M_bind. by destruct (m w) as [[a|e|] w'].
Qed.

Lemma bind_more_fuel {A B : Type} (m m' : M A) (f f' : A → M B) (w : world) :
  m' w = m w →
  (∀ a w', ((m ≫= f) w).1 ≠ OutOfFuel → m w = (Returned a, w') → f' a w' = f a w') →
  ((m ≫= f) w).1 ≠ OutOfFuel →
  (m' ≫= f') w = (m ≫= f) w.
Proof.
  intros Hm Hf H. unfold mbind, M_bind in *. rewrite Hm.
  destruct (m w) as [[a|e|] w'] eqn:E; try done. by apply Hf.
Qed.

Lemma walk_more_fuel (fuel n : nat) (stack : list (list string))
    (body : list string → list string → list string → M unit) (w : world) :
  (walk fuel stack body w).1 ≠ OutOfFuel →
  walk (fuel + n) stack body w = walk fuel stack body w.
Proof.
  revert stack w. induction fuel as [|fuel IH]; intros stack w H.
  - destruct stack; [by destruct n | by destruct H].
  - destruct stack as [|top stack']; [done |].
    cbn [walk Nat.add] in *.
    apply bind_more_fuel; [done | | done].
    intros t w' _ [= <- <-].
    unfold mbind, M_bind, get_tree in H. cbn [fst] in H.
    destruct (isdir (tree w) top).
    + apply bind_more_fuel; [done | | done].
      intros [] w' H' E. apply IH.
      unfold mbind, M_bind in H'. by rewrite E in H'.
    + by apply IH.
Qed.

Lemma nested_move_resources_more_fuel (fuel n : nat) (w : world) :
  (nested_move_resources ROOT_DIR fuel w).1 ≠ OutOfFuel →
  nested_move_resources ROOT_DIR (fuel + n) w = nested_move_resources ROOT_DIR fuel w.
Proof.
  intros H. unfold nested_move_resources in *.
  apply bind_more_fuel; [done | | done].
  intros t w' _ [= <- <-].
  unfold mbind at 1, M_bind at 1, get_tree in H. cbn [fst] in H.
  destruct (path_exists (tree w) nested.INCORRECT_RESOURCES_DIR); [|done].
  apply bind_more_fuel; [| done | done].
  apply walk_more_fuel. by apply bind_not_out_of_fuel in H.
Qed.

Lemma conflicts_move_resources_more_fuel (fuel n : nat) (w : world) :
  (conflicts_move_resources ROOT_DIR fuel w).1 ≠ OutOfFuel →
  conflicts_move_resources ROOT_DIR (fuel + n) w
  = conflicts_move_resources ROOT_DIR fuel w.
Proof.
  intros H. unfold conflicts_move_resources in *.
  apply bind_more_fuel; [done | | done].
  intros t w' _ [= <- <-].
  unfold mbind at 1, M_bind at 1, get_tree in H. cbn [fst] in H.
  destruct (path_exists (tree w) conflicts.NESTED_RESOURCES_DIR); [|done].
  apply bind_more_fuel; [| done | done].
  apply walk_more_fuel. by apply bind_not_out_of_fuel in H.
Qed.

Lemma fix_nested_resources_more_fuel (fuel n : nat) (t : gmap (list string) node) :
  (run (fix_nested_resources_steps12 ROOT_DIR fuel) t).1 ≠ OutOfFuel →
  run (fix_nested_resources_steps12 ROOT_DIR (fuel + n)) t
  = run (fix_nested_resources_steps12 ROOT_DIR fuel) t.
Proof.
  unfold run, fix_nested_resources_steps12. intros H.
  apply bind_more_fuel; [done | | done].
  intros [] w' H' E. apply nested_move_resources_more_fuel.
  unfold mbind, M_bind in H'. by rewrite E in H'.
Qed.

Lemma fix_resource_conflicts_more_fuel (fuel n : nat) (t : gmap (list string) node) :
  (run (fix_resource_conflicts_steps12 ROOT_DIR fuel) t).1 ≠ OutOfFuel →
  run (fix_resource_conflicts_steps12 ROOT_DIR (fuel + n)) t
  = run (fix_resource_conflicts_steps12 ROOT_DIR fuel) t.
Proof.
  unfold run, fix_resource_conflicts_steps12. intros H.
  apply bind_more_fuel; [done | | done].
  intros [] w' H' E. apply conflicts_move_resources_more_fuel.
  unfold mbind, M_bind in H'. by rewrite E in H'.
Qed.

End fuel.

(** The runs on the sample trees do not depend on the bound chosen. *)
Lemma sample_runs_any_fuel (n : nat) :
  run (fix_nested_resources_steps12 "/p" (8 + n)) collision_tree
  = run (fix_nested_resources_steps12 "/p" 8) collision_tree
  ∧ run (fix_nested_resources_steps12 "/p" (8 + n)) twice_nested_tree
    = run (fix_nested_resources_steps12 "/p" 8) twice_nested_tree
  ∧ run (fix_resource_conflicts_steps12 "/p" (8 + n)) twice_nested_app_tree
    = run (fix_resource_conflicts_steps12 "/p" 8) twice_nested_app_tree.
Proof.
  split_and!.
  - apply fix_nested_resources_more_fuel. by vm_compute.
  - apply fix_nested_resources_more_fuel. by vm_compute.
  - apply fix_resource_conflicts_more_fuel. by vm_compute.
Qed.

(** ** The walk of the merge

    What [os.walk] with the body of the fix scripts does to a tree whose
    source and destination do not overlap. *)

Section entries_facts.

Lemma child_of_Some (d k : list string) (n : string) :
  child_of d k = Some n ↔ k = d ++ [n].
Proof.
  unfold child_of. split.
  - destruct (drop (length d) k) as [|x [|y l]] eqn:E; try done.
    case_bool_decide as Ht; [|done]. intros [= ->].
    by rewrite <- (take_drop (length d) k), Ht, E.
  - intros ->. rewrite drop_app_length, take_app_length.
    by rewrite bool_decide_true.
Qed.

Lemma elem_of_entries (t : gmap (list string) node) (d : list string) (n : string) :
  n ∈ entries t d ↔ is_Some (t !! (d ++ [n])).
Proof.
  unfold entries. rewrite list_elem_of_omap. split.
  - intros ([k x] & Hin & Hc). apply child_of_Some in Hc. simpl in Hc. subst k.
    apply elem_of_map_to_list in Hin. eauto.
  - intros [x Hx]. exists (d ++ [n], x). split.
    + by apply elem_of_map_to_list.
    + by apply child_of_Some.
Qed.

Lemma NoDup_entries (t : gmap (list string) node) (d : list string) :
  NoDup (entries t d).
Proof.
  unfold entries. pose proof (NoDup_fst_map_to_list t) as H.
  induction (map_to_list t) as [|[k x] l IH]; [constructor |].
  rewrite fmap_cons in H. apply NoDup_cons in H as [Hk Hl].
  cbn [omap list_omap]. simpl.
  destruct (child_of d k) as [n|] eqn:E; [|by apply IH].
  apply NoDup_cons. split; [|by apply IH].
  intros Hin. apply list_elem_of_omap in Hin as ([k' x'] & Hin & Hc).
  apply child_of_Some in E, Hc. simpl in Hc. subst k k'.
  apply Hk. apply list_elem_of_fmap. by exists (d ++ [n], x').
Qed.

End entries_facts.

Section makedirs_facts.

Lemma node_at_lookup (t : gmap (list string) node) (p : list string) :
  p ≠ [] → node_at t p = t !! p.
Proof. by destruct p. Qed.

Lemma node_at_insert_ne (t : gmap (list string) node) (p q : list string) (x : node) :
  p ≠ q → node_at (<[p := x]> t) q = node_at t q.
Proof. intros H. destruct q; [done |]. by apply lookup_insert_ne. Qed.

Lemma node_at_insert_eq (t : gmap (list string) node) (p : list string) (x : node) :
  p ≠ [] → node_at (<[p := x]> t) p = Some x.
Proof. intros H. destruct p; [done |]. by apply lookup_insert_eq. Qed.

Lemma snoc_ne_nil (d : list string) (n : string) : d ++ [n] ≠ [].
Proof. by destruct d. Qed.

Lemma snoc_ne_self (d : list string) (n : string) : d ++ [n] ≠ d.
Proof.
  intros H. apply (f_equal length) in H. rewrite length_app in H. simpl in H. lia.
Qed.

Lemma dirname_nonempty (p : list string) :
  p ≠ [] → ∃ d n, p = d ++ [n] ∧ dirname p = d.
Proof.
  intros H. destruct p as [|x p] using rev_ind; [done |].
  exists p, x. by rewrite dirname_snoc.
Qed.

(** Adding an entry in an existing directory keeps the tree well formed. *)
Lemma well_formed_insert (t : gmap (list string) node) (d : list string)
    (n : string) (x : node) :
  well_formed t → node_at t d = Some Dir →
  (x = Dir → t !! (d ++ [n]) = None ∨ t !! (d ++ [n]) = Some Dir) →
  (∀ c, x = File c → ∀ m y, t !! ((d ++ [n]) ++ [m]) = Some y → False) →
  well_formed (<[d ++ [n] := x]> t).
Proof.
  intros Hwf Hd Hx Hf. unfold well_formed.
  apply map_Forall_insert_2.
  - rewrite dirname_snoc. apply isdir_true.
    rewrite node_at_insert_ne by apply snoc_ne_self. done.
  - intros q y Hq. specialize (Hwf q y Hq). simpl in *.
    apply isdir_true in Hwf. apply isdir_true.
    destruct (decide (dirname q = d ++ [n])) as [E|E].
    + rewrite E in *. rewrite node_at_lookup in Hwf by apply snoc_ne_nil.
      rewrite node_at_insert_eq by apply snoc_ne_nil.
      destruct x as [c|]; [|done]. exfalso.
      destruct (decide (q = [])) as [->|Hne].
      { by destruct d. }
      destruct (dirname_nonempty q Hne) as (d' & m & -> & Hd').
      rewrite Hd' in E. subst d'. by eapply Hf.
    + by rewrite node_at_insert_ne.
Qed.

(** Removing a file keeps the tree well formed. *)
Lemma well_formed_delete_file (t : gmap (list string) node) (p : list string)
    (c : string) :
  well_formed t → t !! p = Some (File c) → well_formed (delete p t).
Proof.
  intros Hwf Hp. unfold well_formed. apply map_Forall_delete.
  intros q y Hq. specialize (Hwf q y Hq). simpl in *.
  apply isdir_true in Hwf. apply isdir_true.
  destruct (decide (p = dirname q)) as [->|E].
  - destruct (dirname q); [done |]. simpl in Hwf. congruence.
  - by rewrite node_at_delete_ne.
Qed.

Lemma makedirs_rev_run (rp : list string) (w : world) :
  well_formed (tree w) →
  (∀ q c, q `prefix_of` rev rp → node_at (tree w) q ≠ Some (File c)) →
  ∃ u', makedirs_rev rp w = (Returned (), World u' (stdout w))
        ∧ well_formed u'
        ∧ dirs_added (rev rp) (tree w) u'
        ∧ node_at u' (rev rp) = Some Dir.
Proof.
  revert w. induction rp as [|tail rhead IH]; intros w Hwf Hnf.
  - exists (tree w). destruct w. split_and!; try done. by left.
  - change (rev (tail :: rhead)) with (rev rhead ++ [tail]) in *.
    cbn [makedirs_rev].
    change (rev (tail :: rhead)) with (rev rhead ++ [tail]).
    set (P := rev rhead) in *. set (N := P ++ [tail]) in *.
    assert (HPN : P `prefix_of` N) by (by exists [tail]).
    run_get.
    destruct (node_at (tree w) P) as [x|] eqn:EP.
    + assert (x = Dir) as ->.
      { destruct x as [c|]; [|done]. by destruct (Hnf P c HPN). }
      rewrite (path_exists_Some _ _ _ EP).
      run_with ltac:(done).
      unfold except_OSError.
      destruct (node_at (tree w) N) as [y|] eqn:EN.
      * assert (y = Dir) as ->.
        { destruct y as [c|]; [|done]. by destruct (Hnf N c). }
        rewrite (mkdir_exists _ _ _ EN). run_get.
        rewrite (proj2 (isdir_true _ _) EN).
        exists (tree w). destruct w. split_and!; try done. by left.
      * unfold mkdir. run_get. rewrite EN.
        unfold N at 1. rewrite dirname_snoc, EP.
        exists (<[N := Dir]> (tree w)). split_and!; try done.
        -- apply well_formed_insert; try done.
           ++ intros _. left. by rewrite <- node_at_lookup by apply snoc_ne_nil.
        -- intros p. destruct (decide (p = N)) as [->|Hne].
           ++ right. rewrite lookup_insert_eq.
              rewrite <- node_at_lookup by apply snoc_ne_nil. done.
           ++ left. by rewrite lookup_insert_ne.
        -- by apply node_at_insert_eq, snoc_ne_nil.
    + rewrite (proj2 (path_exists_false _ _) EP).
      destruct (IH w Hwf) as (u1 & Hrun & Hwf1 & Hadd & HP1).
      { intros q c Hq. apply Hnf. by etrans. }
      fold P in Hrun, Hadd, HP1.
      run_with ltac:(unfold except_FileExistsError_pass; by rewrite Hrun).
      assert (EN : (tree w) !! N = None).
      { destruct ((tree w) !! N) as [y|] eqn:E; [|done].
        apply Hwf in E. simpl in E. unfold N in E. rewrite dirname_snoc in E.
        apply isdir_true in E. congruence. }
      assert (EN1 : u1 !! N = None).
      { destruct (Hadd N) as [->|(_ & _ & Hpre)]; [done |].
        apply prefix_length in Hpre. unfold N in Hpre.
        rewrite length_app in Hpre. simpl in Hpre. lia. }
      unfold except_OSError, mkdir. run_get.
      rewrite (node_at_lookup _ N) by apply snoc_ne_nil. rewrite EN1.
      unfold N at 1. rewrite dirname_snoc, HP1.
      exists (<[N := Dir]> u1). split_and!; try done.
      * apply well_formed_insert; try done. intros _. by left.
      * intros p. destruct (decide (p = N)) as [->|Hne].
        -- right. by rewrite lookup_insert_eq.
        -- rewrite lookup_insert_ne by done.
           destruct (Hadd p) as [->|(? & ? & ?)]; [by left |].
           right. split_and!; try done. by etrans.
      * by apply node_at_insert_eq, snoc_ne_nil.
Qed.

Lemma makedirs_run (p : list string) (w : world) :
  well_formed (tree w) →
  (∀ q c, q `prefix_of` p → node_at (tree w) q ≠ Some (File c)) →
  ∃ u', makedirs p w = (Returned (), World u' (stdout w))
        ∧ well_formed u'
        ∧ dirs_added p (tree w) u'
        ∧ node_at u' p = Some Dir.
Proof.
  intros Hwf Hnf. unfold makedirs.
  destruct (makedirs_rev_run (rev p) w Hwf) as (u' & H).
  { by rewrite rev_involutive. }
  rewrite rev_involutive in H. eauto.
Qed.

End makedirs_facts.

Section move_facts.

(** [shutil.move] of a file to a name that is free or taken by a file, in
    an existing directory. *)
Lemma move_file (src dst : list string) (w : world) (c : string) :
  node_at (tree w) src = Some (File c) →
  node_at (tree w) dst ≠ Some Dir →
  node_at (tree w) (dirname dst) = Some Dir →
  move src dst w
  = (Returned (), World (<[dst := File c]> (delete src (tree w))) (stdout w)).
Proof.
  intros Hs Hd Hp. unfold move. run_get.
  unfold isdir, rename.
  destruct (node_at (tree w) dst) as [[c'|]|] eqn:E; [| done |];
    run_get; by rewrite Hs, E, Hp.
Qed.

End move_facts.

Section merge.

Variables src dst : list string.

(** The relative paths in use, and that their places under the
    destination are not under the source. *)
Variable G : list string → Prop.
Hypothesis Hdisj : ∀ rel rel', G rel' → src ++ rel ≠ dst ++ rel'.

Lemma src_file_ne_dst_file (rel rel' : list string) (f f' : string) :
  G (rel' ++ [f']) → (src ++ rel) ++ [f] ≠ (dst ++ rel') ++ [f'].
Proof. intros HG. rewrite <- !app_assoc. by apply Hdisj. Qed.

Lemma snoc_not_prefix (d : list string) (f : string) : ¬ (d ++ [f]) `prefix_of` d.
Proof. apply prefix_snoc_not. Qed.

Lemma move_files_run (rel dirs fs : list string) (u : gmap (list string) node)
    (out : list string) :
  well_formed u → NoDup fs → G rel →
  (∀ f, f ∈ fs → G (rel ++ [f])) →
  (∀ f, f ∈ fs → ∃ c, u !! ((src ++ rel) ++ [f]) = Some (File c)) →
  (∀ f, f ∈ fs → u !! ((dst ++ rel) ++ [f]) ≠ Some Dir) →
  (∀ q c, q `prefix_of` dst ++ rel → node_at u q ≠ Some (File c)) →
  ∃ u',
    move_files src dst (src ++ rel) dirs fs (World u out)
    = (Returned (), World u' out)
    ∧ well_formed u'
    ∧ (fs = [] → u' = u)
    ∧ (∀ f, f ∈ fs →
         u' !! ((src ++ rel) ++ [f]) = None
         ∧ u' !! ((dst ++ rel) ++ [f]) = u !! ((src ++ rel) ++ [f]))
    ∧ (∀ p, (∀ f, f ∈ fs → p ≠ (src ++ rel) ++ [f] ∧ p ≠ (dst ++ rel) ++ [f]) →
         u' !! p = u !! p
         ∨ (u !! p = None ∧ u' !! p = Some Dir ∧ p `prefix_of` dst ++ rel)).
Proof.
  unfold move_files. rewrite drop_app_length. intros Hwf Hnd HGrel.
  revert u Hwf Hnd. induction fs as [|f fs' IH]; intros u Hwf Hnd HG Hsrc Hdst Hnf.
  - exists u. split_and!; try done.
    + intros f Hf. inversion Hf.
    + intros p _. by left.
  - apply NoDup_cons in Hnd as [Hf Hnd].
    destruct (Hsrc f) as [c Hc]; [left |].
    set (S := src ++ rel) in *. set (D := dst ++ rel) in *.
    assert (Hsd : ∀ g g', g' ∈ f :: fs' → S ++ [g] ≠ D ++ [g']).
    { intros g g' Hg'. apply src_file_ne_dst_file. by apply HG. }
    assert (Hds : ∀ g g', g' ∈ f :: fs' → D ++ [g'] ≠ S ++ [g]).
    { intros g g' Hg' E. symmetry in E. by apply Hsd in E. }
    assert (Hff : f ∈ f :: fs') by left.
    destruct (makedirs_run D (World u out) Hwf Hnf) as (u1 & Hrun1 & Hwf1 & Hadd & HD1).
    cbn [tree stdout] in *.
    assert (Hkeep : ∀ p x, u !! p = Some x → u1 !! p = Some x).
    { intros p x Hp. destruct (Hadd p) as [->|(? & _)]; congruence. }
    assert (Hnone : ∀ g, u !! (D ++ [g]) ≠ Some Dir → u1 !! (D ++ [g]) ≠ Some Dir).
    { intros g Hg. destruct (Hadd (D ++ [g])) as [->|(_ & _ & Hpre)]; [done |].
      by apply snoc_not_prefix in Hpre. }
    assert (Hc1 := Hkeep _ _ Hc).
    assert (Hd1 : u1 !! (D ++ [f]) ≠ Some Dir) by (apply Hnone, Hdst; left).
    set (u2 := <[D ++ [f] := File c]> (delete (S ++ [f]) u1)).
    assert (Hrun2 : move (S ++ [f]) (D ++ [f]) (World u1 out)
                    = (Returned (), World u2 out)).
    { apply move_file; cbn [tree].
      - by rewrite node_at_lookup by apply snoc_ne_nil.
      - by rewrite node_at_lookup by apply snoc_ne_nil.
      - by rewrite dirname_snoc. }
    assert (Hwf2 : well_formed u2).
    { apply well_formed_insert.
      - by eapply well_formed_delete_file.
      - rewrite node_at_delete_ne; [done |].
        intros E. rewrite <- E, node_at_lookup in HD1 by apply snoc_ne_nil.
        congruence.
      - done.
      - intros c' _ m y Hm.
        pose proof (well_formed_delete_file u1 (S ++ [f]) c Hwf1 Hc1) as Hwfd.
        apply Hwfd in Hm. simpl in Hm. rewrite dirname_snoc in Hm.
        apply isdir_true in Hm.
        rewrite node_at_lookup in Hm by apply snoc_ne_nil.
        rewrite lookup_delete_ne in Hm by by apply Hsd.
        congruence. }
    assert (Hu2 : ∀ p, p ≠ S ++ [f] → p ≠ D ++ [f] → u2 !! p = u1 !! p).
    { intros p H1 H2. unfold u2.
      rewrite lookup_insert_ne by done. by rewrite lookup_delete_ne. }
    destruct (IH u2 Hwf2 Hnd) as (u' & Hrun & Hwf' & _ & Hmoved & Hrest).
    { intros g Hg. apply HG. by right. }
    { intros g Hg. destruct (Hsrc g) as [cg Hcg]; [by right |].
      exists cg. rewrite Hu2; [by apply Hkeep | |].
      - intros E. apply app_inj_tail in E as [_ ->]. done.
      - by apply Hsd. }
    { intros g Hg. rewrite Hu2; [apply Hnone, Hdst; by right | |].
      - apply Hds. by right.
      - intros E. apply app_inj_tail in E as [_ ->]. done. }
    { intros q c' Hq. destruct (decide (q = [])) as [->|Hne]; [done |].
      rewrite node_at_lookup by done.
      destruct (decide (q = S ++ [f])) as [->|H1].
      { unfold u2. rewrite lookup_insert_ne by by apply Hds.
        by rewrite lookup_delete_eq. }
      rewrite Hu2; [| done |].
      - destruct (Hadd q) as [->|(_ & -> & _)]; [|done].
        rewrite <- node_at_lookup by done. by apply Hnf.
      - intros ->. by apply snoc_not_prefix in Hq. }
    exists u'. split_and!.
    + cbn [for_each].
      run_with ltac:(run_with ltac:(exact Hrun1); exact Hrun2).
      exact Hrun.
    + done.
    + done.
    + intros g Hg. apply elem_of_cons in Hg as [->|Hg].
      * assert (Hp : ∀ p, p = S ++ [f] ∨ p = D ++ [f] → u' !! p = u2 !! p).
        { intros p Hp. destruct (Hrest p) as [->|(_ & _ & Hpre)]; [| done |].
          - intros g Hg. destruct Hp as [-> | ->]; split.
            + intros E. apply app_inj_tail in E as [_ ->]. done.
            + apply Hsd. by right.
            + by apply Hds.
            + intros E. apply app_inj_tail in E as [_ ->]. done.
          - destruct Hp as [-> | ->].
            + destruct Hpre as [k Hk]. unfold S, D in Hk.
              rewrite <- !app_assoc in Hk. symmetry in Hk.
              by apply Hdisj in Hk.
            + by apply snoc_not_prefix in Hpre. }
        rewrite !Hp by auto. unfold u2. split.
        -- rewrite lookup_insert_ne by by apply Hds.
           by rewrite lookup_delete_eq.
        -- by rewrite lookup_insert_eq.
      * destruct (Hmoved g Hg) as [H1 H2]. split; [done |].
        rewrite H2. rewrite Hu2.
        -- destruct (Hsrc g) as [cg Hcg]; [by right |].
           by rewrite Hcg, (Hkeep _ _ Hcg).
        -- intros E. apply app_inj_tail in E as [_ ->]. done.
        -- by apply Hsd.
    + intros p Hp.
      destruct (Hp f) as [Hp1 Hp2]; [left |].
      destruct (Hrest p) as [E|(E1 & E2 & E3)].
      { intros g Hg. apply Hp. by right. }
      * rewrite E, Hu2 by done.
        destruct (Hadd p) as [->|(? & ? & ?)]; [by left | by right].
      * rewrite Hu2 in E1 by done.
        destruct (Hadd p) as [E'|(? & ? & ?)]; [| congruence].
        right. split_and!; try done. congruence.
Qed.

End merge.

Section regions.

Variables src dst : list string.
Variable G : list string → Prop.
Hypothesis Hdisj : ∀ rel rel', G rel' → src ++ rel ≠ dst ++ rel'.

Lemma src_not_prefix_of_dst (x r : list string) :
  G r → ¬ src ++ x `prefix_of` dst ++ r.
Proof.
  intros HG [k Hk]. rewrite <- app_assoc in Hk. symmetry in Hk.
  by apply Hdisj in Hk.
Qed.

Lemma src_app_ne_nil (rel : list string) : G rel → src ++ rel ≠ [].
Proof.
  intros HG E. apply app_eq_nil in E as [E ->].
  apply (Hdisj dst [] HG). rewrite E. simpl. by rewrite app_nil_r.
Qed.

Lemma Merged_refl (PF PD : list string → Prop) (u : gmap (list string) node) :
  well_formed u → (∀ r c, PF r → u !! (src ++ r) = Some (File c) → False) →
  Merged src dst PF PD u u.
Proof.
  intros Hwf Hno. split_and!; [done | | by left].
  intros r c Hr Hc. by destruct (Hno r c).
Qed.

Lemma Merged_file_kept (PF PD : list string → Prop) (u u' : gmap (list string) node)
    (r : list string) (c : string) :
  (∀ r, PF r → G r) →
  Merged src dst PF PD u u' → u' !! (src ++ r) = Some (File c) → u !! (src ++ r) = Some (File c).
Proof.
  intros HF (_ & Hb & Hc) H.
  destruct (Hc (src ++ r)) as [E | [(r1 & c1 & H1 & H2 & [E|E]) | (_ & E & _)]].
  - congruence.
  - apply app_inv_head in E as <-. destruct (Hb r c1 H1 H2). congruence.
  - apply Hdisj in E; [done | by apply HF].
  - congruence.
Qed.

Lemma Merged_seq (PF1 PD1 PF2 PD2 : list string → Prop)
    (u u1 u2 : gmap (list string) node) :
  (∀ r, PF1 r → G r) → (∀ r, PF2 r → G r) → (∀ r, PD2 r → G r) →
  Merged src dst PF1 PD1 u u1 → Merged src dst PF2 PD2 u1 u2 →
  Merged src dst (λ r, PF1 r ∨ PF2 r) (λ r, PD1 r ∨ PD2 r) u u2.
Proof.
  intros HF1 HF2 HD2 H1 H2.
  pose proof (λ r c, Merged_file_kept _ _ _ _ r c HF1 H1) as Hkept.
  destruct H1 as (Hwf1 & Hb1 & Hc1). destruct H2 as (Hwf2 & Hb2 & Hc2).
  assert (Hstay : ∀ r c, G r →
                  u1 !! (src ++ r) = None → u1 !! (dst ++ r) = Some (File c) →
                  u2 !! (src ++ r) = None ∧ u2 !! (dst ++ r) = Some (File c)).
  { intros r c HG Hs Hd. split.
    - destruct (Hc2 (src ++ r)) as [E | [(r2 & c2 & Hr2 & H2 & [E|E]) | (_ & _ & r2 & Hr2 & E)]].
      + congruence.
      + apply app_inv_head in E as <-. congruence.
      + apply Hdisj in E; [done | by apply HF2].
      + apply src_not_prefix_of_dst in E; [done | by apply HD2].
    - destruct (Hc2 (dst ++ r)) as [E | [(r2 & c2 & _ & H2 & [E|E]) | (E & _)]].
      + congruence.
      + symmetry in E. by apply Hdisj in E.
      + apply app_inv_head in E as <-. congruence.
      + congruence. }
  split_and!; [done | |].
  - intros r c Hr Hc.
    destruct (Hc1 (src ++ r)) as [E | [(r1 & c1 & Hr1 & Hr1c & [E|E]) | (E & _)]].
    + rewrite <- E in Hc. destruct Hr as [Hr|Hr].
      * destruct (Hb1 r c Hr) as [? _]; congruence.
      * by apply Hb2.
    + apply app_inv_head in E as <-.
      destruct (Hb1 r c1 Hr1 Hr1c) as [Hs Hd].
      assert (c1 = c) as -> by congruence. apply Hstay; [by apply HF1 | done | done].
    + apply Hdisj in E; [done | by apply HF1].
    + congruence.
  - intros p.
    destruct (Hc2 p) as [E2 | [(r2 & c2 & Hr2 & Hr2c & Hp) | (E2 & E2' & r2 & Hr2 & Hp)]].
    + destruct (Hc1 p) as [E1 | [(r1 & c1 & Hr1 & Hr1c & Hp) | (E1 & E1' & r1 & Hr1 & Hp)]].
      * left. congruence.
      * right. left. exists r1, c1. auto.
      * right. right. split_and!; [done | congruence | eauto].
    + right. left. exists r2, c2. split_and!; [by right | by apply Hkept | done].
    + destruct (Hc1 p) as [E1 | [(r1 & c1 & Hr1 & Hr1c & Hp1) | (E1 & E1' & _)]].
      * right. right. split_and!; [congruence | done | eauto].
      * right. left. exists r1, c1. auto.
      * congruence.
Qed.

Lemma Merged_weaken (PF PD QF QD : list string → Prop)
    (u u' : gmap (list string) node) :
  (∀ r, PF r → QF r) → (∀ r, PD r → QD r) →
  (∀ r c, QF r → u !! (src ++ r) = Some (File c) → PF r) →
  Merged src dst PF PD u u' → Merged src dst QF QD u u'.
Proof.
  intros HF HD HQ (Hwf & Hb & Hc). split_and!; [done | |].
  - intros r c Hr Hrc. apply Hb; [by eapply HQ | done].
  - intros p. destruct (Hc p) as [E | [(r & c & Hr & Hrc & Hp) | (E & E' & r & Hr & Hp)]].
    + by left.
    + right. left. exists r, c. auto.
    + right. right. split_and!; eauto.
Qed.

Lemma Ready_frame (PF PD : list string → Prop) (n : nat)
    (u u' : gmap (list string) node) (rel : list string) :
  (∀ r, PF r → G r) → (∀ r, PD r → G r) →
  Merged src dst PF PD u u' →
  (∀ r, PF r → ¬ rel `prefix_of` r ∧ ¬ r `prefix_of` rel) →
  (∀ r, PD r → ¬ rel `prefix_of` r) →
  Ready src dst G n u rel → Ready src dst G n u' rel.
Proof.
  intros HGF HGD Hm HF HD (Hdir & Hnf & Hdepth & Hfd & Hdf).
  pose proof (λ r c, Merged_file_kept _ _ _ _ r c HGF Hm) as Hkept.
  destruct Hm as (Hwf & Hb & Hc).
  assert (HGrel : G rel).
  { rewrite <- (app_nil_r rel). apply Hdepth. rewrite app_nil_r. by rewrite Hdir. }
  assert (Hsrc_dir : ∀ r, u' !! (src ++ r) = Some Dir → u !! (src ++ r) = Some Dir).
  { intros r H.
    destruct (Hc (src ++ r)) as [E | [(r1 & c & Hr1 & Hr1c & [E|E]) | (_ & _ & r1 & Hr1 & E)]].
    - congruence.
    - apply app_inv_head in E as <-. destruct (Hb r c Hr1 Hr1c). congruence.
    - apply Hdisj in E; [done | by apply HGF].
    - apply src_not_prefix_of_dst in E; [done | by apply HGD]. }
  assert (Hbelow : ∀ r x, rel `prefix_of` r → u !! (src ++ r) = Some x → G r).
  { intros r x [k ->] H. apply Hdepth. by rewrite H. }
  split_and!.
  - destruct (Hc (src ++ rel)) as [E | [(r & c & Hr & Hrc & [E|E]) | (E & _)]].
    + congruence.
    + apply app_inv_head in E as <-. congruence.
    + apply Hdisj in E; [done | by apply HGF].
    + congruence.
  - intros q c Hq Hqc. destruct (decide (q = [])) as [->|Hne]; [done |].
    rewrite node_at_lookup in Hqc by done.
    destruct (Hc q) as [E | [(r & c' & Hr & Hrc & [E|E]) | (_ & E & _)]].
    + apply (Hnf q c Hq). rewrite node_at_lookup by done. congruence.
    + subst q. by apply src_not_prefix_of_dst in Hq.
    + subst q. apply prefix_app_inv in Hq. by apply HF in Hr as [_ Hr].
    + congruence.
  - intros k Hk. apply Hdepth.
    destruct (Hc (src ++ rel ++ k)) as [E | [(r & c' & Hr & Hrc & [E|E]) | (_ & _ & r & Hr & E)]].
    + congruence.
    + apply app_inv_head in E as <-. apply HF in Hr as [Hr _].
      destruct Hr. by exists k.
    + apply Hdisj in E; [done | by apply HGF].
    + apply src_not_prefix_of_dst in E; [done | by apply HGD].
  - intros r c Hr Hrc Hd. apply Hsrc_dir in Hd.
    destruct (Hc (dst ++ r)) as [E | [(r1 & c' & Hr1 & Hr1c & [E|E]) | (_ & E & _)]].
    + apply (Hfd r c Hr); [congruence | done].
    + symmetry in E. apply Hdisj in E; [done | by eapply Hbelow].
    + apply app_inv_head in E as <-. by apply HF in Hr1 as [Hr1 _].
    + congruence.
  - intros r c Hr Hrc Hd. apply Hkept in Hrc.
    destruct (Hc (dst ++ r)) as [E | [(r1 & c' & Hr1 & Hr1c & [E|E]) | (_ & _ & r1 & Hr1 & E)]].
    + apply (Hdf r c Hr Hrc). congruence.
    + symmetry in E. apply Hdisj in E; [done | by eapply Hbelow].
    + apply app_inv_head in E as <-. by apply HF in Hr1 as [Hr1 _].
    + apply prefix_app_inv in E. apply HD in Hr1. destruct Hr1. by etrans.
Qed.

End regions.

Section walk_facts.

Variables src dst : list string.
Variable G : list string → Prop.
Hypothesis Hdisj : ∀ rel rel', G rel' → src ++ rel ≠ dst ++ rel'.

Lemma elem_of_List_filter {A : Type} (f : A → bool) (l : list A) (x : A) :
  x ∈ List.filter f l ↔ x ∈ l ∧ f x = true.
Proof. rewrite !list_elem_of_In. apply filter_In. Qed.

Lemma NoDup_List_filter {A : Type} (f : A → bool) (l : list A) :
  NoDup l → NoDup (List.filter f l).
Proof.
  induction 1 as [|x l Hx _ IH]; simpl; [constructor |].
  destruct (f x); [|done]. apply NoDup_cons. split; [|done].
  rewrite elem_of_List_filter. by intros [? _].
Qed.

Lemma well_formed_ancestor (u : gmap (list string) node) (p k : list string) (x : node) :
  well_formed u → k ≠ [] → u !! (p ++ k) = Some x → node_at u p = Some Dir.
Proof.
  intros Hwf. revert x. induction k as [|y k IH] using rev_ind; intros x Hk H; [done |].
  rewrite app_assoc in H.
  assert (Hp : node_at u (p ++ k) = Some Dir).
  { eapply well_formed_parent; [done |]. by rewrite node_at_snoc. }
  destruct k as [|z k']; [by rewrite app_nil_r in Hp |].
  apply (IH Dir); [done |]. by rewrite <- node_at_lookup by by destruct p.
Qed.

Lemma prefix_snoc_inv (q a : list string) (x : string) :
  q `prefix_of` a ++ [x] → q = a ++ [x] ∨ q `prefix_of` a.
Proof.
  intros [k Hk]. destruct k as [|y k] using rev_ind.
  - left. by rewrite app_nil_r in Hk.
  - right. rewrite app_assoc in Hk. apply app_inj_tail in Hk as [-> _].
    by exists k.
Qed.

Lemma snoc_prefix_snoc (a : list string) (x y : string) :
  a ++ [x] `prefix_of` a ++ [y] → x = y.
Proof.
  intros H. apply prefix_app_inv in H. destruct H as [k Hk]. by injection Hk.
Qed.

Lemma Incomparable_nil : Incomparable [].
Proof. intros i j a b H. by rewrite lookup_nil in H. Qed.

Lemma Incomparable_tail (rel : list string) (R : list (list string)) :
  Incomparable (rel :: R) → Incomparable R.
Proof.
  intros H i j a b Ha Hb Hab.
  assert (S i = S j) by (eapply H; eauto). lia.
Qed.

Lemma Incomparable_head (rel rel' : list string) (R : list (list string)) :
  Incomparable (rel :: R) → rel' ∈ R →
  ¬ rel `prefix_of` rel' ∧ ¬ rel' `prefix_of` rel.
Proof.
  intros H Hin. apply list_elem_of_lookup in Hin as [j Hj].
  split; intros Hp.
  - assert (0 = S j) by (eapply H; eauto). lia.
  - assert (S j = 0) by (eapply H; eauto). lia.
Qed.

Lemma Incomparable_children (rel : list string) (ds : list string) :
  NoDup ds → Incomparable ((λ d, rel ++ [d]) <$> ds).
Proof.
  intros Hnd i j a b Ha Hb Hab.
  apply list_lookup_fmap_Some in Ha as (x & -> & Hx).
  apply list_lookup_fmap_Some in Hb as (y & -> & Hy).
  apply snoc_prefix_snoc in Hab as ->.
  by eapply NoDup_lookup.
Qed.

(** The step on one directory, given the scan of lists of directories
    one level less deep. *)
Lemma scan_root (n : nat) (rel : list string) :
  (∀ m R, n = S m → Scans src dst G m R) → Scans src dst G n [rel].
Proof.
  intros IH u rest out Hwf _ Hready.
  destruct (Hready rel) as (Hdir & Hnf & Hdepth & Hfd & Hdf); [left |].
  assert (HGrel : G rel).
  { rewrite <- (app_nil_r rel). apply Hdepth. rewrite app_nil_r. by rewrite Hdir. }
  assert (HGin : ∀ x y, u !! ((src ++ rel) ++ [x]) = Some y → G (rel ++ [x])).
  { intros x y H. apply Hdepth. rewrite app_assoc. by rewrite H. }
  set (top := src ++ rel) in *.
  set (names := entries u top).
  set (dirs := List.filter (λ n, isdir u (top ++ [n])) names).
  set (nondirs := List.filter (λ n, negb (isdir u (top ++ [n]))) names).
  assert (Hnames : ∀ x, x ∈ names ↔ is_Some (u !! (top ++ [x]))).
  { intros x. apply elem_of_entries. }
  assert (Hdirs : ∀ d, d ∈ dirs ↔ u !! (top ++ [d]) = Some Dir).
  { intros d. unfold dirs. rewrite elem_of_List_filter, Hnames, isdir_true.
    rewrite node_at_lookup by apply snoc_ne_nil. split; [by intros [_ ?] | eauto]. }
  assert (Hnondirs : ∀ f, f ∈ nondirs ↔ ∃ c, u !! (top ++ [f]) = Some (File c)).
  { intros f. unfold nondirs. rewrite elem_of_List_filter, Hnames.
    unfold isdir. rewrite node_at_lookup by apply snoc_ne_nil.
    destruct (u !! (top ++ [f])) as [[c|]|]; simpl.
    - split; [eauto | intros _; split; [eauto | done]].
    - split; [by intros [_ ?] | by intros [? ?]].
    - split; [by intros [[? ?] _] | by intros [? ?]]. }
  assert (Hnd : NoDup names) by apply NoDup_entries.
  assert (Hndd : NoDup dirs) by by apply NoDup_List_filter.
  assert (Hndf : NoDup nondirs) by by apply NoDup_List_filter.
  (* the body of the loop on this directory *)
  destruct (move_files_run src dst G Hdisj rel dirs nondirs u out Hwf Hndf HGrel)
    as (u1 & Hrun1 & Hwf1 & _ & Hmoved & Hrest).
  { intros f Hf. apply Hnondirs in Hf as [c Hc]. by eapply HGin. }
  { intros f Hf. by apply Hnondirs. }
  { intros f Hf. apply Hnondirs in Hf as [c Hc]. rewrite <- app_assoc.
    apply (Hdf _ c); [by exists [f] |]. by rewrite app_assoc. }
  { done. }
  fold top in Hrun1, Hmoved, Hrest.
  set (PFb := λ r : list string, ∃ f, f ∈ nondirs ∧ r = rel ++ [f]).
  set (PDb := λ r : list string, r = rel).
  assert (HGF : ∀ r, PFb r → G r).
  { intros r (f & Hf & ->). apply Hnondirs in Hf as [c Hc]. by eapply HGin. }
  assert (HGD : ∀ r, PDb r → G r) by by intros r ->.
  assert (Hbody : Merged src dst PFb PDb u u1).
  { split_and!; [done | |].
    - intros r c (f & Hf & ->) Hc. rewrite !app_assoc. fold top.
      destruct (Hmoved f Hf) as [H1 H2]. split; [done |].
      rewrite H2. by rewrite app_assoc in Hc.
    - intros p.
      destruct (decide (Exists (λ f, p = top ++ [f] ∨ p = (dst ++ rel) ++ [f])
                          nondirs)) as [Hex|Hex].
      + right. left. apply Exists_exists in Hex as (f & Hf & Hp).
        apply Hnondirs in Hf as Hc. destruct Hc as [c Hc].
        exists (rel ++ [f]), c. rewrite !app_assoc. fold top.
        split_and!; [by exists f | done | done].
      + destruct (Hrest p) as [E|(E1 & E2 & E3)].
        * intros f Hf. split; intros ->; apply Hex, Exists_exists; eauto.
        * by left.
        * right. right. split_and!; [done | done |]. by exists rel. }
  (* the subdirectories *)
  set (Rc := (λ d, rel ++ [d]) <$> dirs).
  assert (Hstack : (λ n, top ++ [n]) <$> dirs = (λ r, src ++ r) <$> Rc).
  { unfold Rc. rewrite <- list_fmap_compose. apply list_fmap_ext.
    intros i d _. simpl. unfold top. by rewrite app_assoc. }
  assert (Hchildren : ∃ k1 u2,
    (∀ fuel, walk (k1 + fuel) (((λ r, src ++ r) <$> Rc) ++ rest)
               (move_files src dst) (World u1 out)
             = walk fuel rest (move_files src dst) (World u2 out))
    ∧ Merged src dst (Under G Rc) (Under G Rc) u1 u2).
  { destruct n as [|m].
    - assert (dirs = []) as Hnil.
      { apply elem_of_nil_inv. intros d Hd. apply Hdirs in Hd.
        assert (length [d] ≤ 0); [|simpl in *; lia].
        eapply proj1, Hdepth. unfold top in Hd. rewrite <- app_assoc in Hd.
        by rewrite Hd. }
      unfold Rc. rewrite Hnil. exists 0, u1. split; [done |].
      apply Merged_refl; [done |].
      intros r c ((rel' & Hin & _) & _). inversion Hin.
    - apply (IH m Rc eq_refl); [done | by apply Incomparable_children |].
      intros r Hr. apply list_elem_of_fmap in Hr as (d & -> & Hd).
      assert (Hdd := proj1 (Hdirs d) Hd).
      apply (Ready_frame src dst G Hdisj PFb PDb m u u1 _ HGF HGD); [done | | |].
      + intros r (f & Hf & ->). apply Hnondirs in Hf as [c Hc].
        split; intros Hp; apply snoc_prefix_snoc in Hp; subst; congruence.
      + intros r ->. apply prefix_snoc_not.
      + split_and!.
        * by rewrite app_assoc.
        * intros q c Hq. rewrite app_assoc in Hq.
          apply prefix_snoc_inv in Hq as [->|Hq]; [|by apply Hnf].
          rewrite node_at_lookup by apply snoc_ne_nil.
          rewrite <- app_assoc. intros Hfile.
          apply (Hfd _ c) in Hfile; [| by exists [d]].
          apply Hfile. by rewrite app_assoc.
        * intros k Hk. rewrite <- app_assoc in Hk. apply Hdepth in Hk.
          rewrite length_app in Hk. rewrite <- app_assoc. simpl in Hk.
          split; [lia | tauto].
        * intros r c [k ->]. apply Hfd.
          exists ([d] ++ k). by rewrite app_assoc.
        * intros r c [k ->]. apply Hdf.
          exists ([d] ++ k). by rewrite app_assoc. }
  destruct Hchildren as (k1 & u2 & Hwalk & Hsub).
  exists (S k1), u2. split.
  - intros fuel. cbn [fmap list_fmap app Nat.add walk].
    fold top. run_get.
    rewrite (proj2 (isdir_true u top));
      [|by rewrite node_at_lookup by by apply (src_app_ne_nil src dst G)].
    fold names. fold dirs. fold nondirs.
    run_with ltac:(exact Hrun1).
    rewrite Hstack. apply Hwalk.
  - assert (HGsub : ∀ r, Under G Rc r → G r) by by intros r [_ ?].
    eapply Merged_weaken;
      [| | | exact (Merged_seq src dst G Hdisj _ _ _ _ _ _ _ HGF HGsub HGsub Hbody Hsub)].
    + intros r [Hr | ((rel' & Hin & Hp) & HG)].
      * split; [|by apply HGF]. destruct Hr as (f & _ & ->).
        exists rel. split; [left | by exists [f]].
      * split; [|done]. apply list_elem_of_fmap in Hin as (d & -> & _).
        exists rel. split; [left |]. etrans; [|done]. by exists [d].
    + intros r [-> | ((rel' & Hin & Hp) & HG)].
      * split; [|done]. exists rel. split; [left | done].
      * split; [|done]. apply list_elem_of_fmap in Hin as (d & -> & _).
        exists rel. split; [left |]. etrans; [|done]. by exists [d].
    + intros r c ((rel' & Hin & [k ->]) & HG) Hc.
      apply list_elem_of_singleton in Hin as ->.
      destruct k as [|x k'].
      { rewrite app_nil_r in Hc. unfold top in Hdir. congruence. }
      destruct k' as [|y k''].
      * left. exists x. split; [|done]. apply Hnondirs. exists c.
        unfold top. by rewrite <- app_assoc.
      * right. split; [|done]. exists (rel ++ [x]). split.
        -- apply list_elem_of_fmap. exists x. split; [done |].
           apply Hdirs. unfold top.
           rewrite <- node_at_lookup by apply snoc_ne_nil.
           apply (well_formed_ancestor u _ (y :: k'') (File c)); [done | done |].
           rewrite <- Hc. f_equal. by rewrite <- !app_assoc.
        -- exists (y :: k''). by rewrite <- app_assoc.
Qed.

Lemma scan_list (n : nat) (R : list (list string)) :
  (∀ rel, Scans src dst G n [rel]) → Scans src dst G n R.
Proof.
  intros Hroot. induction R as [|rel R' IH]; intros u rest out Hwf Hinc Hready.
  - exists 0, u. split; [done |]. apply Merged_refl; [done |].
    intros r c ((rel' & Hin & _) & _). inversion Hin.
  - destruct (Hroot rel u (((λ r, src ++ r) <$> R') ++ rest) out Hwf)
      as (k1 & u1 & Hwalk1 & Hm1).
    { intros i j a b Ha Hb _. destruct i, j; try done.
      all: by rewrite ?lookup_nil in *. }
    { intros r Hr. apply list_elem_of_singleton in Hr as ->. apply Hready. left. }
    destruct (IH u1 rest out) as (k2 & u' & Hwalk2 & Hm2).
    { by destruct Hm1. }
    { by eapply Incomparable_tail. }
    { intros rel' Hin.
      apply (Ready_frame src dst G Hdisj (Under G [rel]) (Under G [rel]) n u u1);
        [by intros r [_ ?] | by intros r [_ ?] | done | | | apply Hready; by right].
      - intros r ((a & Ha & Hp) & _). apply list_elem_of_singleton in Ha as ->.
        destruct (Incomparable_head _ _ _ Hinc Hin) as [H1 H2].
        split; intros Hq.
        + destruct (prefix_weak_total _ _ _ Hp Hq); auto.
        + apply H1. by etrans.
      - intros r ((a & Ha & Hp) & _) Hq. apply list_elem_of_singleton in Ha as ->.
        destruct (Incomparable_head _ _ _ Hinc Hin) as [H1 H2].
        destruct (prefix_weak_total _ _ _ Hp Hq); auto. }
    exists (k1 + k2), u'. split.
    + intros fuel. rewrite fmap_cons. cbn [app].
      rewrite <- Nat.add_assoc.
      change ((src ++ rel) :: ((λ r, src ++ r) <$> R') ++ rest)
        with (((λ r, src ++ r) <$> [rel]) ++ ((λ r, src ++ r) <$> R') ++ rest).
      rewrite Hwalk1. apply Hwalk2.
    + assert (HGu : ∀ R r, Under G R r → G r) by by intros R0 r [_ ?].
      eapply Merged_weaken;
        [| | | exact (Merged_seq src dst G Hdisj _ _ _ _ _ _ _
                        (HGu _) (HGu _) (HGu _) Hm1 Hm2)].
      * intros r [((a & Ha & Hp) & HG) | ((a & Ha & Hp) & HG)]; (split; [|done]).
        -- apply list_elem_of_singleton in Ha as ->. exists rel. split; [left | done].
        -- exists a. split; [by right | done].
      * intros r [((a & Ha & Hp) & HG) | ((a & Ha & Hp) & HG)]; (split; [|done]).
        -- apply list_elem_of_singleton in Ha as ->. exists rel. split; [left | done].
        -- exists a. split; [by right | done].
      * intros r c ((a & Ha & Hp) & HG) _. apply elem_of_cons in Ha as [-> | Ha].
        -- left. split; [|done]. exists rel. split; [left | done].
        -- right. split; [|done]. by exists a.
Qed.

Lemma scans (n : nat) (R : list (list string)) : Scans src dst G n R.
Proof.
  revert R. induction n as [|n IH]; intros R.
  - apply scan_list. intros rel. apply scan_root. intros m R' [=].
  - apply scan_list. intros rel. apply scan_root. intros m R' [= <-]. apply IH.
Qed.

End walk_facts.

Section merge_all.

Variables src dst rm : list string.
Variable G : list string → Prop.
Hypothesis Hdisj : ∀ rel rel', G rel' → src ++ rel ≠ dst ++ rel'.
Hypothesis Hrm_src : ∃ k, k ≠ [] ∧ src = rm ++ k.
Hypothesis Hrm_dst : ∀ r, G r → ¬ rm `prefix_of` dst ++ r.

Lemma max_length_bound (t : gmap (list string) node) (p : list string) (x : node) :
  t !! p = Some x → length p ≤ max_length t.
Proof.
  intros H. apply elem_of_map_to_list in H. unfold max_length.
  induction (map_to_list t) as [|kv l IH]; [inversion H |].
  apply elem_of_cons in H as [<-|H]; simpl; [lia |].
  specialize (IH H). lia.
Qed.

Lemma rm_ne_nil : G [] → rm ≠ [].
Proof. intros HG E. apply (Hrm_dst [] HG). rewrite E. apply prefix_nil. Qed.

(** The walk, the message and the removal: the loop and the two lines
    after it in step 2 of the fix scripts, when all that is under the
    source is in [G].  The files of the source are afterwards under the
    destination, the other files there are as they were, and nothing is
    left at or below [rm]. *)
Lemma walk_and_remove (t : gmap (list string) node) (out : list string) (msg : string) :
  well_formed t →
  t !! src = Some Dir →
  (∀ r, is_Some (t !! (src ++ r)) → G r) →
  (∀ q c, q `prefix_of` dst → node_at t q ≠ Some (File c)) →
  (∀ r c, t !! (dst ++ r) = Some (File c) → t !! (src ++ r) ≠ Some Dir) →
  (∀ r c, t !! (src ++ r) = Some (File c) → t !! (dst ++ r) ≠ Some Dir) →
  ∃ k t',
    (∀ fuel,
       (walk (k + fuel) [src] (move_files src dst) ;; print msg ;; rmtree rm)
         (World t out)
       = (Returned (), World t' (out ++ [msg])))
    ∧ (∀ r c, t !! (src ++ r) = Some (File c) → t' !! (dst ++ r) = Some (File c))
    ∧ (∀ r, G r → (∀ c, t !! (src ++ r) ≠ Some (File c)) →
         ∀ c, t' !! (dst ++ r) = Some (File c) ↔ t !! (dst ++ r) = Some (File c))
    ∧ (∀ p, rm `prefix_of` p → t' !! p = None).
Proof.
  intros Hwf Hsrc HG Hnf Hfd Hdf.
  assert (HG0 : G []).
  { apply HG. rewrite app_nil_r. by rewrite Hsrc. }
  destruct (scans src dst G Hdisj (max_length t) [[]] t [] out Hwf)
    as (k & u' & Hwalk & Hwf' & Hb & Hc).
  { intros i j a b Ha Hb _. destruct i, j; try done.
    all: by rewrite ?lookup_nil in *. }
  { intros rel Hrel. apply list_elem_of_singleton in Hrel as ->. split_and!.
    - by rewrite app_nil_r.
    - intros q c. rewrite app_nil_r. apply Hnf.
    - intros l Hl. simpl in *. split; [|by apply HG].
      destruct Hl as [x Hx]. apply max_length_bound in Hx.
      rewrite length_app in Hx. lia.
    - intros r c _. apply Hfd.
    - intros r c _. apply Hdf. }
  assert (Hall : ∀ r, G r → Under G [[]] r).
  { intros r Hr. split; [|done]. exists []. split; [left | apply prefix_nil]. }
  assert (Hrm : node_at u' rm = Some Dir).
  { destruct Hrm_src as (l & Hl & E).
    assert (Ht : t !! rm = Some Dir).
    { rewrite <- node_at_lookup by by apply rm_ne_nil.
      apply (well_formed_ancestor t rm l Dir); [done | done | by rewrite <- E]. }
    rewrite node_at_lookup by by apply rm_ne_nil.
    destruct (Hc rm) as [E' | [(r & c & Hr & _ & [E'|E']) | (E' & _)]].
    - congruence.
    - rewrite E, <- app_assoc in E'.
      rewrite <- (app_nil_r rm) in E' at 1. apply app_inv_head in E'.
      symmetry in E'. apply app_eq_nil in E' as [-> _]. done.
    - destruct (Hrm_dst r); [by destruct Hr | by rewrite <- E'].
    - congruence. }
  assert (Hwalk' : ∀ fuel, walk (k + fuel) [src] (move_files src dst) (World t out)
                           = (Returned (), World u' out)).
  { intros fuel. specialize (Hwalk fuel). simpl in Hwalk.
    rewrite app_nil_r in Hwalk. rewrite Hwalk. by destruct fuel. }
  assert (Hfilter : ∀ r, G r →
            filter (λ kv, ¬ below rm kv) u' !! (dst ++ r) = u' !! (dst ++ r)).
  { intros r Hr. destruct (u' !! (dst ++ r)) as [x|] eqn:E.
    - apply map_lookup_filter_Some. split; [done |]. by apply Hrm_dst.
    - apply map_lookup_filter_None. by left. }
  exists k, (filter (λ kv, ¬ below rm kv) u'). split_and!.
  - intros fuel.
    run_with ltac:(apply Hwalk').
    run_with ltac:(apply print_run). cbn [tree stdout].
    unfold rmtree. run_get. by rewrite Hrm.
  - intros r c H.
    assert (Hr : G r) by (apply HG; by rewrite H).
    rewrite Hfilter by done. apply Hb; [by apply Hall | done].
  - intros r Hr Hno c. rewrite Hfilter by done.
    destruct (Hc (dst ++ r)) as [E | [(r1 & c1 & _ & Hc1 & [E|E]) | (E1 & E2 & _)]].
    + by rewrite E.
    + symmetry in E. by apply Hdisj in E.
    + apply app_inv_head in E as <-. by apply Hno in Hc1.
    + rewrite E1, E2. split; intros; congruence.
  - intros p Hp. apply map_lookup_filter_None. right. intros x _ Hx. by apply Hx.
Qed.

End merge_all.

(** ** The merge of fix_resource_conflicts.py *)

Section conflicts_merge.

Variable ROOT_DIR : string.

Lemma conflicts_disjoint (rel rel' : list string) :
  conflicts.NESTED_RESOURCES_DIR ++ rel ≠ conflicts.RESOURCES_DIR ++ rel'.
Proof. intros E. discriminate E. Qed.

Lemma conflicts_removed_above_source :
  ∃ k, k ≠ [] ∧ conflicts.NESTED_RESOURCES_DIR = (conflicts.APP_DIR ++ ["Sources"]) ++ k.
Proof. by exists ["App"; "Resources"]. Qed.

Lemma conflicts_removed_off_destination (r : list string) :
  ¬ (conflicts.APP_DIR ++ ["Sources"]) `prefix_of` conflicts.RESOURCES_DIR ++ r.
Proof. intros [k E]. discriminate E. Qed.

Lemma conflicts_destination_clear (t : gmap (list string) node) :
  well_formed t →
  t !! conflicts.NESTED_RESOURCES_DIR = Some Dir →
  (∀ r c, t !! (conflicts.RESOURCES_DIR ++ r) = Some (File c) →
          t !! (conflicts.NESTED_RESOURCES_DIR ++ r) ≠ Some Dir) →
  ∀ q c, q `prefix_of` conflicts.RESOURCES_DIR → node_at t q ≠ Some (File c).
Proof.
  intros Hwf Hsrc Hfd q c [k E] Hq.
  destruct (decide (k = [])) as [->|Hk].
  - rewrite app_nil_r in E. subst q.
    apply (Hfd [] c); rewrite app_nil_r; [|done].
    by rewrite <- node_at_lookup.
  - assert (Hd : node_at t q = Some Dir); [|congruence].
    assert (∃ l, l ≠ [] ∧ conflicts.NESTED_RESOURCES_DIR = q ++ l) as (l & Hl & El).
    { unfold conflicts.RESOURCES_DIR, conflicts.NESTED_RESOURCES_DIR,
        conflicts.APP_DIR in *. simpl in E |- *.
      destruct q as [|a [|b [|d q']]]; simpl in E.
      - eexists. split; [|reflexivity]. done.
      - injection E as <- E. eexists. split; [|reflexivity]. done.
      - injection E as <- <- E. eexists. split; [|reflexivity]. done.
      - injection E as <- <- <- E. symmetry in E.
        apply app_eq_nil in E as [_ ->]. done. }
    apply (well_formed_ancestor t q l Dir); [done | done | by rewrite <- El].
Qed.

(** Step 2 of fix_resource_conflicts.py on a well-formed tree whose
    nested directory exists and where the source and the destination
    never have a file where the other has a directory: with enough steps
    the walk ends and the step returns with its message; every file of
    the source is then under the destination, at the same relative path
    and with the same content, whether or not a file was there before;
    the other files under the destination are as they were; and nothing
    is left of Sources/App/Sources. *)
Lemma conflicts_move_resources_moves_all (t : gmap (list string) node) :
  well_formed t →
  t !! conflicts.NESTED_RESOURCES_DIR = Some Dir →
  (∀ r c, t !! (conflicts.RESOURCES_DIR ++ r) = Some (File c) →
          t !! (conflicts.NESTED_RESOURCES_DIR ++ r) ≠ Some Dir) →
  (∀ r c, t !! (conflicts.NESTED_RESOURCES_DIR ++ r) = Some (File c) →
          t !! (conflicts.RESOURCES_DIR ++ r) ≠ Some Dir) →
  ∃ k t',
    (∀ fuel,
       run (conflicts_move_resources ROOT_DIR (k + fuel)) t
       = (Returned (),
          World t' ["Moved resources from " +:+
                    show ROOT_DIR conflicts.NESTED_RESOURCES_DIR +:+ " to " +:+
                    show ROOT_DIR conflicts.RESOURCES_DIR +:+ "."]))
    ∧ (∀ r c, t !! (conflicts.NESTED_RESOURCES_DIR ++ r) = Some (File c) →
              t' !! (conflicts.RESOURCES_DIR ++ r) = Some (File c))
    ∧ (∀ r, (∀ c, t !! (conflicts.NESTED_RESOURCES_DIR ++ r) ≠ Some (File c)) →
         ∀ c, t' !! (conflicts.RESOURCES_DIR ++ r) = Some (File c)
              ↔ t !! (conflicts.RESOURCES_DIR ++ r) = Some (File c))
    ∧ (∀ p, (conflicts.APP_DIR ++ ["Sources"]) `prefix_of` p → t' !! p = None).
Proof.
  intros Hwf Hsrc Hfd Hdf.
  destruct (walk_and_remove conflicts.NESTED_RESOURCES_DIR conflicts.RESOURCES_DIR
              (conflicts.APP_DIR ++ ["Sources"]) (λ _, True)
              (λ rel rel' _, conflicts_disjoint rel rel')
              conflicts_removed_above_source
              (λ r _, conflicts_removed_off_destination r)
              t []
              ("Moved resources from " +:+
               show ROOT_DIR conflicts.NESTED_RESOURCES_DIR +:+ " to " +:+
               show ROOT_DIR conflicts.RESOURCES_DIR +:+ ".")
              Hwf Hsrc (λ _ _, I) (conflicts_destination_clear t Hwf Hsrc Hfd) Hfd Hdf)
    as (k & t' & Hrun & Hfiles & Hothers & Hgone).
  exists k, t'. split_and!; [| done | by intros r; apply Hothers | done].
  intros fuel. unfold run, conflicts_move_resources. run_get.
  rewrite (path_exists_Some _ _ Dir) by done.
  apply Hrun.
Qed.

(** With nothing below the destination, the files under it are
    afterwards exactly those that were under the source. *)
Lemma conflicts_move_resources_empty_destination (t : gmap (list string) node) :
  well_formed t →
  t !! conflicts.NESTED_RESOURCES_DIR = Some Dir →
  (∀ r, t !! (conflicts.RESOURCES_DIR ++ r) = None
        ∨ r = [] ∧ t !! conflicts.RESOURCES_DIR = Some Dir) →
  ∃ k t',
    (∀ fuel,
       run (conflicts_move_resources ROOT_DIR (k + fuel)) t
       = (Returned (),
          World t' ["Moved resources from " +:+
                    show ROOT_DIR conflicts.NESTED_RESOURCES_DIR +:+ " to " +:+
                    show ROOT_DIR conflicts.RESOURCES_DIR +:+ "."]))
    ∧ (∀ r c, t' !! (conflicts.RESOURCES_DIR ++ r) = Some (File c)
              ↔ t !! (conflicts.NESTED_RESOURCES_DIR ++ r) = Some (File c))
    ∧ (∀ p, (conflicts.APP_DIR ++ ["Sources"]) `prefix_of` p → t' !! p = None).
Proof.
  intros Hwf Hsrc Hempty.
  assert (Hnofile : ∀ r c, t !! (conflicts.RESOURCES_DIR ++ r) ≠ Some (File c)).
  { intros r c H. destruct (Hempty r) as [E|[-> E]]; [congruence |].
    rewrite app_nil_r in H. congruence. }
  destruct (conflicts_move_resources_moves_all t Hwf Hsrc)
    as (k & t' & Hrun & Hfiles & Hothers & Hgone).
  { intros r c H. by apply Hnofile in H. }
  { intros r c H Hd. destruct (Hempty r) as [E|[-> E]]; [congruence |].
    rewrite app_nil_r in H. congruence. }
  exists k, t'. split_and!; [done | | done].
  intros r c. split; [|apply Hfiles].
  intros H.
  destruct (t !! (conflicts.NESTED_RESOURCES_DIR ++ r)) as [[c'|]|] eqn:E.
  - apply Hfiles in E. congruence.
  - apply Hothers in H; [by apply Hnofile in H | intros c0; congruence].
  - apply Hothers in H; [by apply Hnofile in H | intros c0; congruence].
Qed.

End conflicts_merge.

Section conflicts_script.

Variable ROOT_DIR : string.

(** X25. fix_resource_conflicts.py up to the end of step 2, on a
    well-formed tree whose nested directory exists, where the source and
    the destination never have a file where the other has a directory,
    and neither has a file named Views at its top (step 1 makes the
    directory Views under the destination, and a source file of that
    name would be moved into it): with enough steps the walk ends and the
    script prints its message; every file of the source is then under
    the destination, at the same relative path and with the same
    content; the other files under the destination are as they were; and
    nothing is left of Sources/App/Sources. *)
Lemma fix_resource_conflicts_moves_all (t : gmap (list string) node) :
  well_formed t →
  t !! conflicts.NESTED_RESOURCES_DIR = Some Dir →
  (∀ r c, t !! (conflicts.RESOURCES_DIR ++ r) = Some (File c) →
          t !! (conflicts.NESTED_RESOURCES_DIR ++ r) ≠ Some Dir) →
  (∀ r c, t !! (conflicts.NESTED_RESOURCES_DIR ++ r) = Some (File c) →
          t !! (conflicts.RESOURCES_DIR ++ r) ≠ Some Dir) →
  (∀ c, t !! (conflicts.NESTED_RESOURCES_DIR ++ ["Views"]) ≠ Some (File c)) →
  (∀ c, t !! conflicts.VIEWS_DIR ≠ Some (File c)) →
  ∃ k t',
    (∀ fuel,
       run (fix_resource_conflicts_steps12 ROOT_DIR (k + fuel)) t
       = (Returned (),
          World t' ["Moved resources from " +:+
                    show ROOT_DIR conflicts.NESTED_RESOURCES_DIR +:+ " to " +:+
                    show ROOT_DIR conflicts.RESOURCES_DIR +:+ "."]))
    ∧ (∀ r c, t !! (conflicts.NESTED_RESOURCES_DIR ++ r) = Some (File c) →
              t' !! (conflicts.RESOURCES_DIR ++ r) = Some (File c))
    ∧ (∀ r, (∀ c, t !! (conflicts.NESTED_RESOURCES_DIR ++ r) ≠ Some (File c)) →
         ∀ c, t' !! (conflicts.RESOURCES_DIR ++ r) = Some (File c)
              ↔ t !! (conflicts.RESOURCES_DIR ++ r) = Some (File c))
    ∧ (∀ p, (conflicts.APP_DIR ++ ["Sources"]) `prefix_of` p → t' !! p = None).
Proof.
  intros Hwf Hsrc Hfd Hdf Hviews Hviews'.
  destruct (makedirs_run conflicts.VIEWS_DIR (World t []) Hwf)
    as (u1 & Hrun1 & Hwf1 & Hadd & _).
  { intros q c Hq. apply prefix_snoc_inv in Hq as [->|Hq].
    - rewrite node_at_lookup by done. apply Hviews'.
    - by apply conflicts_destination_clear. }
  cbn [tree stdout] in *.
  assert (Hsame : ∀ r, u1 !! (conflicts.NESTED_RESOURCES_DIR ++ r)
                       = t !! (conflicts.NESTED_RESOURCES_DIR ++ r)).
  { intros r. destruct (Hadd (conflicts.NESTED_RESOURCES_DIR ++ r))
      as [E|(_ & _ & E)]; [done |].
    by apply (src_not_prefix_of_dst _ _ (λ _, True)
                (λ rel rel' _, conflicts_disjoint rel rel') r ["Views"] I) in E. }
  assert (Hfile : ∀ r c, u1 !! (conflicts.RESOURCES_DIR ++ r) = Some (File c)
                         ↔ t !! (conflicts.RESOURCES_DIR ++ r) = Some (File c)).
  { intros r c. destruct (Hadd (conflicts.RESOURCES_DIR ++ r)) as [E|(E1 & E2 & _)].
    - by rewrite E.
    - rewrite E1, E2. split; intros; congruence. }
  destruct (conflicts_move_resources_moves_all ROOT_DIR u1 Hwf1)
    as (k & t' & Hrun & Hfiles & Hothers & Hgone).
  { rewrite <- (app_nil_r conflicts.NESTED_RESOURCES_DIR), Hsame.
    by rewrite app_nil_r. }
  { intros r c H. rewrite Hsame. apply Hfile in H. by eapply Hfd. }
  { intros r c H Hd. rewrite Hsame in H.
    destruct (Hadd (conflicts.RESOURCES_DIR ++ r)) as [E|(_ & _ & E)].
    - apply (Hdf r c H). congruence.
    - apply (prefix_app_inv conflicts.RESOURCES_DIR r ["Views"]) in E.
      destruct E as [l E]. destruct r as [|x [|y r']].
      + rewrite app_nil_r in H. congruence.
      + injection E as <-. by apply Hviews in H.
      + discriminate E. }
  exists k, t'. split_and!; [| | | done].
  - intros fuel. unfold run, fix_resource_conflicts_steps12.
    run_with ltac:(exact Hrun1). apply Hrun.
  - intros r c H. apply Hfiles. by rewrite Hsame.
  - intros r Hno c. rewrite <- Hfile. apply Hothers.
    intros c'. rewrite Hsame. apply Hno.
Qed.

End conflicts_script.

(** ** The merge of fix_nested_resources.py

    The source of this script is inside its destination, under the
    directory Sources that the script removes in the end.  The relative
    paths that start with Sources are the ones that go wrong; when the
    source has no entry of that name at its top, the merge does what the
    one of fix_resource_conflicts.py does. *)

Section nested_merge.

Variable ROOT_DIR : string.

Lemma nested_disjoint (rel rel' : list string) :
  outside_sources rel' →
  nested.INCORRECT_RESOURCES_DIR ++ rel ≠ nested.CORRECT_RESOURCES_DIR ++ rel'.
Proof.
  intros H E. apply H. simpl in E. injection E as <-.
  by exists ("App" :: "Resources" :: rel).
Qed.

Lemma nested_removed_above_source :
  ∃ k, k ≠ [] ∧ nested.INCORRECT_RESOURCES_DIR
                = (nested.CORRECT_RESOURCES_DIR ++ ["Sources"]) ++ k.
Proof. by exists ["App"; "Resources"]. Qed.

Lemma nested_removed_off_destination (r : list string) :
  outside_sources r →
  ¬ (nested.CORRECT_RESOURCES_DIR ++ ["Sources"])
      `prefix_of` nested.CORRECT_RESOURCES_DIR ++ r.
Proof.
  intros H [k E]. apply H. simpl in E. injection E as ->. by exists k.
Qed.

Lemma nested_destination_clear (t : gmap (list string) node) :
  well_formed t →
  t !! nested.INCORRECT_RESOURCES_DIR = Some Dir →
  ∀ q c, q `prefix_of` nested.CORRECT_RESOURCES_DIR → node_at t q ≠ Some (File c).
Proof.
  intros Hwf Hsrc q c [k E] Hq.
  assert (Hd : node_at t q = Some Dir); [|congruence].
  apply (well_formed_ancestor t q (k ++ ["Sources"; "App"; "Resources"]) Dir);
    [done | by destruct k |].
  rewrite app_assoc, <- E. exact Hsrc.
Qed.

Lemma nested_source_outside (t : gmap (list string) node) :
  well_formed t →
  t !! (nested.INCORRECT_RESOURCES_DIR ++ ["Sources"]) = None →
  ∀ r, is_Some (t !! (nested.INCORRECT_RESOURCES_DIR ++ r)) → outside_sources r.
Proof.
  intros Hwf Hno r [x Hx] [k ->].
  destruct k as [|y k'].
  - simpl in *. congruence.
  - assert (Hd : node_at t (nested.INCORRECT_RESOURCES_DIR ++ ["Sources"]) = Some Dir).
    { apply (well_formed_ancestor t _ (y :: k') x); [done | done |].
      exact Hx. }
    rewrite node_at_lookup in Hd by done. congruence.
Qed.

(** Step 2 of fix_nested_resources.py on a well-formed tree whose nested
    directory exists and has no entry named Sources, and where the source
    and the destination never have a file where the other has a
    directory: with enough steps the walk ends and the step returns with
    its message; every file of the source is then under the destination,
    at the same relative path and with the same content; the other files
    under the destination and outside its directory Sources are as they
    were; and nothing is left of that directory. *)
Lemma nested_move_resources_moves_all (t : gmap (list string) node) :
  well_formed t →
  t !! nested.INCORRECT_RESOURCES_DIR = Some Dir →
  t !! (nested.INCORRECT_RESOURCES_DIR ++ ["Sources"]) = None →
  (∀ r c, t !! (nested.CORRECT_RESOURCES_DIR ++ r) = Some (File c) →
          t !! (nested.INCORRECT_RESOURCES_DIR ++ r) ≠ Some Dir) →
  (∀ r c, t !! (nested.INCORRECT_RESOURCES_DIR ++ r) = Some (File c) →
          t !! (nested.CORRECT_RESOURCES_DIR ++ r) ≠ Some Dir) →
  ∃ k t',
    (∀ fuel,
       run (nested_move_resources ROOT_DIR (k + fuel)) t
       = (Returned (),
          World t' ["Moved resources from " +:+
                    show ROOT_DIR nested.INCORRECT_RESOURCES_DIR +:+ " to " +:+
                    show ROOT_DIR nested.CORRECT_RESOURCES_DIR +:+ "."]))
    ∧ (∀ r c, t !! (nested.INCORRECT_RESOURCES_DIR ++ r) = Some (File c) →
              t' !! (nested.CORRECT_RESOURCES_DIR ++ r) = Some (File c))
    ∧ (∀ r, outside_sources r →
         (∀ c, t !! (nested.INCORRECT_RESOURCES_DIR ++ r) ≠ Some (File c)) →
         ∀ c, t' !! (nested.CORRECT_RESOURCES_DIR ++ r) = Some (File c)
              ↔ t !! (nested.CORRECT_RESOURCES_DIR ++ r) = Some (File c))
    ∧ (∀ p, (nested.CORRECT_RESOURCES_DIR ++ ["Sources"]) `prefix_of` p →
            t' !! p = None).
Proof.
  intros Hwf Hsrc Hno Hfd Hdf.
  destruct (walk_and_remove nested.INCORRECT_RESOURCES_DIR nested.CORRECT_RESOURCES_DIR
              (nested.CORRECT_RESOURCES_DIR ++ ["Sources"]) outside_sources
              nested_disjoint nested_removed_above_source
              nested_removed_off_destination
              t []
              ("Moved resources from " +:+
               show ROOT_DIR nested.INCORRECT_RESOURCES_DIR +:+ " to " +:+
               show ROOT_DIR nested.CORRECT_RESOURCES_DIR +:+ ".")
              Hwf Hsrc (nested_source_outside t Hwf Hno)
              (nested_destination_clear t Hwf Hsrc) Hfd Hdf)
    as (k & t' & Hrun & Hfiles & Hothers & Hgone).
  exists k, t'. split_and!; [| done | done | done].
  intros fuel. unfold run, nested_move_resources. run_get.
  rewrite (path_exists_Some _ _ Dir) by done.
  apply Hrun.
Qed.

(** With nothing else below the destination, the files under it are
    afterwards exactly those that were under the source. *)
Lemma nested_move_resources_empty_destination (t : gmap (list string) node) :
  well_formed t →
  t !! nested.INCORRECT_RESOURCES_DIR = Some Dir →
  t !! (nested.INCORRECT_RESOURCES_DIR ++ ["Sources"]) = None →
  (∀ r, outside_sources r → r ≠ [] →
        t !! (nested.CORRECT_RESOURCES_DIR ++ r) = None) →
  ∃ k t',
    (∀ fuel,
       run (nested_move_resources ROOT_DIR (k + fuel)) t
       = (Returned (),
          World t' ["Moved resources from " +:+
                    show ROOT_DIR nested.INCORRECT_RESOURCES_DIR +:+ " to " +:+
                    show ROOT_DIR nested.CORRECT_RESOURCES_DIR +:+ "."]))
    ∧ (∀ r c, t' !! (nested.CORRECT_RESOURCES_DIR ++ r) = Some (File c)
              ↔ t !! (nested.INCORRECT_RESOURCES_DIR ++ r) = Some (File c))
    ∧ (∀ p, (nested.CORRECT_RESOURCES_DIR ++ ["Sources"]) `prefix_of` p →
            t' !! p = None).
Proof.
  intros Hwf Hsrc Hno Hempty.
  assert (Hout := nested_source_outside t Hwf Hno).
  assert (Hdst : t !! nested.CORRECT_RESOURCES_DIR = Some Dir).
  { rewrite <- node_at_lookup by done.
    apply (well_formed_ancestor t _ ["Sources"; "App"; "Resources"] Dir); done. }
  assert (Hnofile : ∀ r c, outside_sources r →
                    t !! (nested.CORRECT_RESOURCES_DIR ++ r) ≠ Some (File c)).
  { intros r c Hr H. destruct (decide (r = [])) as [->|Hne].
    - rewrite app_nil_r in H. congruence.
    - rewrite Hempty in H by done. done. }
  destruct (nested_move_resources_moves_all t Hwf Hsrc Hno)
    as (k & t' & Hrun & Hfiles & Hothers & Hgone).
  { intros r c H Hd. apply (Hnofile r c); [|done]. apply Hout. by rewrite Hd. }
  { intros r c H Hd.
    assert (Hr : outside_sources r) by (apply Hout; by rewrite H).
    destruct (decide (r = [])) as [->|Hne].
    - rewrite app_nil_r in H. congruence.
    - rewrite Hempty in Hd by done. done. }
  exists k, t'. split_and!; [done | | done].
  intros r c. split; [|apply Hfiles].
  intros H.
  destruct (decide (["Sources"] `prefix_of` r)) as [[l ->]|Hr].
  { rewrite Hgone in H; [done |]. exists l. by rewrite <- app_assoc. }
  destruct (t !! (nested.INCORRECT_RESOURCES_DIR ++ r)) as [[c'|]|] eqn:E.
  - apply Hfiles in E. congruence.
  - apply Hothers in H; [by apply Hnofile in H | done | intros c0; congruence].
  - apply Hothers in H; [by apply Hnofile in H | done | intros c0; congruence].
Qed.

End nested_merge.

Section nested_script.

Variable ROOT_DIR : string.

(** X26. fix_nested_resources.py up to the end of step 2, on a
    well-formed tree whose nested directory exists and has no entry
    Sources at its top, where the source and the destination never have
    a file where the other has a directory, and neither has a file named
    Views at its top: with enough steps the walk ends and the script
    prints its message; every file of the source is then under the
    destination, at the same relative path and with the same content;
    the other files under the destination, outside its entry Sources,
    are as they were; and nothing is left of the directory Sources under
    the destination. *)
Lemma fix_nested_resources_moves_all (t : gmap (list string) node) :
  well_formed t →
  t !! nested.INCORRECT_RESOURCES_DIR = Some Dir →
  t !! (nested.INCORRECT_RESOURCES_DIR ++ ["Sources"]) = None →
  (∀ r c, t !! (nested.CORRECT_RESOURCES_DIR ++ r) = Some (File c) →
          t !! (nested.INCORRECT_RESOURCES_DIR ++ r) ≠ Some Dir) →
  (∀ r c, t !! (nested.INCORRECT_RESOURCES_DIR ++ r) = Some (File c) →
          t !! (nested.CORRECT_RESOURCES_DIR ++ r) ≠ Some Dir) →
  (∀ c, t !! (nested.INCORRECT_RESOURCES_DIR ++ ["Views"]) ≠ Some (File c)) →
  (∀ c, t !! nested.CORRECT_VIEWS_DIR ≠ Some (File c)) →
  ∃ k t',
    (∀ fuel,
       run (fix_nested_resources_steps12 ROOT_DIR (k + fuel)) t
       = (Returned (),
          World t' ["Moved resources from " +:+
                    show ROOT_DIR nested.INCORRECT_RESOURCES_DIR +:+ " to " +:+
                    show ROOT_DIR nested.CORRECT_RESOURCES_DIR +:+ "."]))
    ∧ (∀ r c, t !! (nested.INCORRECT_RESOURCES_DIR ++ r) = Some (File c) →
              t' !! (nested.CORRECT_RESOURCES_DIR ++ r) = Some (File c))
    ∧ (∀ r, outside_sources r →
         (∀ c, t !! (nested.INCORRECT_RESOURCES_DIR ++ r) ≠ Some (File c)) →
         ∀ c, t' !! (nested.CORRECT_RESOURCES_DIR ++ r) = Some (File c)
              ↔ t !! (nested.CORRECT_RESOURCES_DIR ++ r) = Some (File c))
    ∧ (∀ p, (nested.CORRECT_RESOURCES_DIR ++ ["Sources"]) `prefix_of` p →
            t' !! p = None).
Proof.
  intros Hwf Hsrc Hno Hfd Hdf Hviews Hviews'.
  assert (Hv : outside_sources ["Views"]).
  { intros [l E]. discriminate E. }
  destruct (makedirs_run nested.CORRECT_VIEWS_DIR (World t []) Hwf)
    as (u1 & Hrun1 & Hwf1 & Hadd & _).
  { intros q c Hq. apply prefix_snoc_inv in Hq as [->|Hq].
    - rewrite node_at_lookup by done. apply Hviews'.
    - by apply nested_destination_clear. }
  cbn [tree stdout] in *.
  assert (Hsame : ∀ r, u1 !! (nested.INCORRECT_RESOURCES_DIR ++ r)
                       = t !! (nested.INCORRECT_RESOURCES_DIR ++ r)).
  { intros r. destruct (Hadd (nested.INCORRECT_RESOURCES_DIR ++ r))
      as [E|(_ & _ & E)]; [done |].
    by apply (src_not_prefix_of_dst _ _ outside_sources nested_disjoint
                r ["Views"] Hv) in E. }
  assert (Hfile : ∀ r c, u1 !! (nested.CORRECT_RESOURCES_DIR ++ r) = Some (File c)
                         ↔ t !! (nested.CORRECT_RESOURCES_DIR ++ r) = Some (File c)).
  { intros r c. destruct (Hadd (nested.CORRECT_RESOURCES_DIR ++ r)) as [E|(E1 & E2 & _)].
    - by rewrite E.
    - rewrite E1, E2. split; intros; congruence. }
  destruct (nested_move_resources_moves_all ROOT_DIR u1 Hwf1)
    as (k & t' & Hrun & Hfiles & Hothers & Hgone).
  { rewrite <- (app_nil_r nested.INCORRECT_RESOURCES_DIR), Hsame.
    by rewrite app_nil_r. }
  { by rewrite Hsame. }
  { intros r c H. rewrite Hsame. apply Hfile in H. by eapply Hfd. }
  { intros r c H Hd. rewrite Hsame in H.
    destruct (Hadd (nested.CORRECT_RESOURCES_DIR ++ r)) as [E|(_ & _ & E)].
    - apply (Hdf r c H). congruence.
    - apply (prefix_app_inv nested.CORRECT_RESOURCES_DIR r ["Views"]) in E.
      destruct E as [l E]. destruct r as [|x [|y r']].
      + rewrite app_nil_r in H. congruence.
      + injection E as <-. by apply Hviews in H.
      + discriminate E. }
  exists k, t'. split_and!; [| | | done].
  - intros fuel. unfold run, fix_nested_resources_steps12.
    run_with ltac:(exact Hrun1). apply Hrun.
  - intros r c H. apply Hfiles. by rewrite Hsame.
  - intros r Hr Hno' c. rewrite <- Hfile. apply Hothers; [done |].
    intros c'. rewrite Hsame. apply Hno'.
Qed.

End nested_script.

(** ** What the merge does on a collision *)

Section collisions.

Variable ROOT_DIR : string.

Lemma no_file_over_dir_check_spec (a b : list string) (t : gmap (list string) node) :
  no_file_over_dir_check a b t = true → no_file_over_dir a b t.
Proof.
  unfold no_file_over_dir_check. rewrite forallb_forall.
  intros H r c Hr Hd.
  apply elem_of_map_to_list, list_elem_of_In, H in Hr. simpl in Hr.
  rewrite bool_decide_true in Hr by by exists r.
  rewrite drop_app_length, Hd in Hr. done.
Qed.

(** C2 (amended). In a well-formed tree, a destination file at the
    relative path of a source file is overwritten without any report.
    Each move of the walk of fix_nested_resources.py and
    fix_resource_conflicts.py, and the openapi.yml move of
    fix_resources.py, puts the content of the source file at the
    destination path and removes the source file.  For step 2 of
    fix_resource_conflicts.py as a whole, when neither side has a file
    where the other has a directory, and for step 2 of
    fix_nested_resources.py when moreover the source has no entry named
    Sources at its top: with enough steps the walk ends, the step returns
    having printed only its usual message, and every colliding path then
    holds the content of the source file, whose own path is gone. *)
Theorem merge_overwrites (t : gmap (list string) node) :
  well_formed t →
  (∀ src dst root dirs file c_src c_dst,
     node_at t (root ++ [file]) = Some (File c_src) →
     node_at t ((dst ++ drop (length src) root) ++ [file]) = Some (File c_dst) →
     run (move_files src dst root dirs [file]) t
     = (Returned (),
        World (<[(dst ++ drop (length src) root) ++ [file] := File c_src]>
                 (delete (root ++ [file]) t)) []))
  ∧ (∀ c_src c_dst,
     node_at t flat.OPENAPI_SRC = Some (File c_src) →
     node_at t flat.OPENAPI_DEST = Some (File c_dst) →
     run (flat_move_openapi ROOT_DIR) t
     = (Returned (),
        World (<[flat.OPENAPI_DEST := File c_src]> (delete flat.OPENAPI_SRC t))
          ["Moved openapi.yml to " +:+ show ROOT_DIR flat.OPENAPI_DEST]))
  ∧ (t !! conflicts.NESTED_RESOURCES_DIR = Some Dir →
     no_file_over_dir conflicts.RESOURCES_DIR conflicts.NESTED_RESOURCES_DIR t →
     no_file_over_dir conflicts.NESTED_RESOURCES_DIR conflicts.RESOURCES_DIR t →
     ∃ k t',
       (∀ fuel,
          run (conflicts_move_resources ROOT_DIR (k + fuel)) t
          = (Returned (),
             World t' ["Moved resources from " +:+
                       show ROOT_DIR conflicts.NESTED_RESOURCES_DIR +:+ " to " +:+
                       show ROOT_DIR conflicts.RESOURCES_DIR +:+ "."]))
       ∧ (∀ r c_src c_dst,
            t !! (conflicts.NESTED_RESOURCES_DIR ++ r) = Some (File c_src) →
            t !! (conflicts.RESOURCES_DIR ++ r) = Some (File c_dst) →
            t' !! (conflicts.RESOURCES_DIR ++ r) = Some (File c_src)
            ∧ t' !! (conflicts.NESTED_RESOURCES_DIR ++ r) = None))
  ∧ (t !! nested.INCORRECT_RESOURCES_DIR = Some Dir →
     t !! (nested.INCORRECT_RESOURCES_DIR ++ ["Sources"]) = None →
     no_file_over_dir nested.CORRECT_RESOURCES_DIR nested.INCORRECT_RESOURCES_DIR t →
     no_file_over_dir nested.INCORRECT_RESOURCES_DIR nested.CORRECT_RESOURCES_DIR t →
     ∃ k t',
       (∀ fuel,
          run (nested_move_resources ROOT_DIR (k + fuel)) t
          = (Returned (),
             World t' ["Moved resources from " +:+
                       show ROOT_DIR nested.INCORRECT_RESOURCES_DIR +:+ " to " +:+
                       show ROOT_DIR nested.CORRECT_RESOURCES_DIR +:+ "."]))
       ∧ (∀ r c_src c_dst,
            t !! (nested.INCORRECT_RESOURCES_DIR ++ r) = Some (File c_src) →
            t !! (nested.CORRECT_RESOURCES_DIR ++ r) = Some (File c_dst) →
            t' !! (nested.CORRECT_RESOURCES_DIR ++ r) = Some (File c_src)
            ∧ t' !! (nested.INCORRECT_RESOURCES_DIR ++ r) = None)).
Proof.
  intros Hwf. destruct (move_overwrites ROOT_DIR t Hwf) as [Hmove Hopenapi].
  split_and!; [exact Hmove | exact Hopenapi | |].
  - intros Hsrc Hfd Hdf.
    destruct (conflicts_move_resources_moves_all ROOT_DIR t Hwf Hsrc Hfd Hdf)
      as (k & t' & Hrun & Hfiles & _ & Hgone).
    exists k, t'. split; [done |].
    intros r c_src c_dst Hs _. split; [by apply Hfiles |].
    apply Hgone. exists (["App"; "Resources"] ++ r). by rewrite app_assoc.
  - intros Hsrc Hno Hfd Hdf.
    destruct (nested_move_resources_moves_all ROOT_DIR t Hwf Hsrc Hno Hfd Hdf)
      as (k & t' & Hrun & Hfiles & _ & Hgone).
    exists k, t'. split; [done |].
    intros r c_src c_dst Hs _. split; [by apply Hfiles |].
    apply Hgone. exists (["App"; "Resources"] ++ r). by rewrite app_assoc.
Qed.

End collisions.

Lemma collision_app_tree_well_formed : well_formed collision_app_tree.
Proof. unfold well_formed. apply (bool_decide_unpack _). by vm_compute. Qed.

Lemma merge_overwrites_witness :
  well_formed collision_app_tree
  ∧ collision_app_tree !! conflicts.NESTED_RESOURCES_DIR = Some Dir
  ∧ no_file_over_dir conflicts.RESOURCES_DIR conflicts.NESTED_RESOURCES_DIR
      collision_app_tree
  ∧ no_file_over_dir conflicts.NESTED_RESOURCES_DIR conflicts.RESOURCES_DIR
      collision_app_tree
  ∧ run (move_files conflicts.NESTED_RESOURCES_DIR conflicts.RESOURCES_DIR
           conflicts.NESTED_RESOURCES_DIR [] ["a.txt"]) collision_app_tree
    = (Returned (),
       World (<[conflicts.RESOURCES_DIR ++ ["a.txt"] := File "new"]>
                (delete (conflicts.NESTED_RESOURCES_DIR ++ ["a.txt"])
                   collision_app_tree)) [])
  ∧ (∃ k t',
      (∀ fuel,
         run (conflicts_move_resources "/p" (k + fuel)) collision_app_tree
         = (Returned (),
            World t' ["Moved resources from " +:+
                      show "/p" conflicts.NESTED_RESOURCES_DIR +:+ " to " +:+
                      show "/p" conflicts.RESOURCES_DIR +:+ "."]))
      ∧ t' !! (conflicts.RESOURCES_DIR ++ ["a.txt"]) = Some (File "new")
      ∧ t' !! (conflicts.NESTED_RESOURCES_DIR ++ ["a.txt"]) = None)
  ∧ (well_formed collision_tree
     ∧ collision_tree !! nested.INCORRECT_RESOURCES_DIR = Some Dir
     ∧ collision_tree !! (nested.INCORRECT_RESOURCES_DIR ++ ["Sources"]) = None
     ∧ no_file_over_dir nested.CORRECT_RESOURCES_DIR nested.INCORRECT_RESOURCES_DIR
         collision_tree
     ∧ no_file_over_dir nested.INCORRECT_RESOURCES_DIR nested.CORRECT_RESOURCES_DIR
         collision_tree
     ∧ ∃ k t',
         (∀ fuel,
            run (nested_move_resources "/p" (k + fuel)) collision_tree
            = (Returned (),
               World t' ["Moved resources from " +:+
                         show "/p" nested.INCORRECT_RESOURCES_DIR +:+ " to " +:+
                         show "/p" nested.CORRECT_RESOURCES_DIR +:+ "."]))
         ∧ t' !! (nested.CORRECT_RESOURCES_DIR ++ ["a.txt"]) = Some (File "new")
         ∧ t' !! (nested.INCORRECT_RESOURCES_DIR ++ ["a.txt"]) = None).
Proof.
  assert (H1 := collision_app_tree_well_formed).
  assert (H2 : collision_app_tree !! conflicts.NESTED_RESOURCES_DIR = Some Dir)
    by reflexivity.
  assert (H3 : no_file_over_dir conflicts.RESOURCES_DIR
                 conflicts.NESTED_RESOURCES_DIR collision_app_tree).
  { apply no_file_over_dir_check_spec. by vm_compute. }
  assert (H4 : no_file_over_dir conflicts.NESTED_RESOURCES_DIR
                 conflicts.RESOURCES_DIR collision_app_tree).
  { apply no_file_over_dir_check_spec. by vm_compute. }
  assert (N1 := collision_tree_well_formed).
  assert (N2 : collision_tree !! nested.INCORRECT_RESOURCES_DIR = Some Dir)
    by reflexivity.
  assert (N3 : collision_tree !! (nested.INCORRECT_RESOURCES_DIR ++ ["Sources"]) = None)
    by reflexivity.
  assert (N4 : no_file_over_dir nested.CORRECT_RESOURCES_DIR
                 nested.INCORRECT_RESOURCES_DIR collision_tree).
  { apply no_file_over_dir_check_spec. by vm_compute. }
  assert (N5 : no_file_over_dir nested.INCORRECT_RESOURCES_DIR
                 nested.CORRECT_RESOURCES_DIR collision_tree).
  { apply no_file_over_dir_check_spec. by vm_compute. }
  destruct (merge_overwrites "/p" collision_app_tree H1) as (Hmove & _ & Hall & _).
  refine (conj H1 (conj H2 (conj H3 (conj H4 (conj _ (conj _ _)))))).
  - exact (Hmove conflicts.NESTED_RESOURCES_DIR conflicts.RESOURCES_DIR
             conflicts.NESTED_RESOURCES_DIR [] "a.txt" "new" "old" eq_refl eq_refl).
  - destruct (Hall H2 H3 H4) as (k & t' & Hrun & Hover).
    exists k, t'. split; [done |].
    exact (Hover ["a.txt"] "new" "old" eq_refl eq_refl).
  - destruct (merge_overwrites "/p" collision_tree N1) as (_ & _ & _ & Hnested).
    refine (conj N1 (conj N2 (conj N3 (conj N4 (conj N5 _))))).
    destruct (Hnested N2 N3 N4 N5) as (k & t' & Hrun & Hover).
    exists k, t'. split; [done |].
    exact (Hover ["a.txt"] "new" "old" eq_refl eq_refl).
Defined.

(** A source file named Views, at the top of the nested resources: step
    1 of the two scripts has made the directory Views under the
    destination, and the file is moved into it. *)
Lemma views_file_moved_into_views :
  files_of views_file_tree = [ (nested.INCORRECT_RESOURCES_DIR ++ ["Views"], "v") ]
  ∧ files_of
      (tree (run (fix_nested_resources_steps12 "/p" 8) views_file_tree).2)
    = [ (nested.CORRECT_RESOURCES_DIR ++ ["Views"; "Views"], "v") ]
  ∧ files_of views_file_app_tree
    = [ (conflicts.NESTED_RESOURCES_DIR ++ ["Views"], "v") ]
  ∧ files_of
      (tree (run (fix_resource_conflicts_steps12 "/p" 8) views_file_app_tree).2)
    = [ (conflicts.RESOURCES_DIR ++ ["Views"; "Views"], "v") ].
Proof. by vm_compute. Qed.

(** * Further properties *)

Ltac in_list := repeat first [apply list_elem_of_here | apply list_elem_of_further].

(** ** Lines of a file *)

Section line_facts.

Lemma full_line_cons (c : ascii) (l : string) :
  l ≠ "" → full_line (String c l) = negb (Ascii.eqb c nl_char) && full_line l.
Proof. by destruct l. Qed.

Lemma last_line_cons (c : ascii) (l : string) :
  l ≠ "" → last_line (String c l) = negb (Ascii.eqb c nl_char) && last_line l.
Proof. by destruct l. Qed.

Lemma full_line_last_line (l : string) : full_line l = true → last_line l = true.
Proof.
  induction l as [|c l IH]; [done |].
  destruct l as [|d l']; [done |].
  rewrite full_line_cons, last_line_cons by done.
  intros [H1 H2]%andb_true_iff. by rewrite H1, IH.
Qed.

Lemma lines_ok_cons (l : string) (ls : list string) :
  ls ≠ [] → lines_ok (l :: ls) = full_line l && lines_ok ls.
Proof. by destruct ls. Qed.

Lemma readlines_cons_nl (s : string) :
  readlines (String nl_char s) = nl :: readlines s.
Proof. reflexivity. Qed.

Lemma readlines_cons_other (c : ascii) (s : string) :
  Ascii.eqb c nl_char = false →
  readlines (String c s)
  = match readlines s with [] => [String c ""] | l :: ls => String c l :: ls end.
Proof. intros H. simpl. by rewrite H. Qed.

Lemma readlines_full_line (l s : string) :
  full_line l = true → readlines (l +:+ s) = l :: readlines s.
Proof.
  induction l as [|c l IH]; [done |].
  destruct l as [|d l'].
  - simpl. intros ->%Ascii.eqb_eq. reflexivity.
  - rewrite full_line_cons by done. intros [H1 H2]%andb_true_iff.
    apply negb_true_iff in H1.
    rewrite append_cons, readlines_cons_other by done. by rewrite IH.
Qed.

Lemma readlines_last_line (l : string) :
  last_line l = true → readlines l = [l].
Proof.
  induction l as [|c l IH]; [done |].
  destruct l as [|d l'].
  - intros _. simpl. by destruct (Ascii.eqb c nl_char).
  - rewrite last_line_cons by done. intros [H1 H2]%andb_true_iff.
    apply negb_true_iff in H1.
    rewrite readlines_cons_other by done. by rewrite IH.
Qed.

Lemma lines_ok_readlines (s : string) : lines_ok (readlines s) = true.
Proof.
  induction s as [|c s IH]; [done |].
  destruct (Ascii.eqb c nl_char) eqn:E.
  - apply Ascii.eqb_eq in E as ->. rewrite readlines_cons_nl.
    destruct (readlines s) as [|l ls] eqn:El; [done |].
    rewrite lines_ok_cons by done. by rewrite IH.
  - rewrite readlines_cons_other by done.
    destruct (readlines s) as [|l ls] eqn:El; [done |].
    assert (Hl : l ≠ "").
    { intros ->. by destruct ls. }
    destruct ls as [|l2 ls'].
    + change (last_line l = true) in IH.
      change (last_line (String c l) = true).
      rewrite last_line_cons by done. by rewrite E, IH.
    + rewrite lines_ok_cons in IH |- * by done.
      apply andb_true_iff in IH as [H1 H2].
      rewrite full_line_cons by done. by rewrite E, H1, H2.
Qed.

Lemma readlines_writelines (ls : list string) :
  lines_ok ls = true → readlines (writelines ls) = ls.
Proof.
  induction ls as [|l ls IH]; [done |].
  destruct ls as [|l2 ls'].
  - intros H. change (writelines [l]) with (l +:+ "").
    rewrite append_nil_r. by apply readlines_last_line.
  - rewrite lines_ok_cons by done. intros [H1 H2]%andb_true_iff.
    rewrite writelines_cons, readlines_full_line by done. by rewrite IH.
Qed.

Lemma lines_ok_tail (l : string) (ls : list string) :
  lines_ok (l :: ls) = true → lines_ok ls = true.
Proof.
  destruct ls as [|l2 ls']; [done |].
  rewrite lines_ok_cons by done. by intros [_ ?]%andb_true_iff.
Qed.

Lemma lines_ok_head (l : string) (ls : list string) :
  lines_ok (l :: ls) = true → last_line l = true.
Proof.
  destruct ls as [|l2 ls']; [done |].
  rewrite lines_ok_cons by done. intros [? _]%andb_true_iff.
  by apply full_line_last_line.
Qed.

Lemma lines_ok_filter (f : string → bool) (ls : list string) :
  lines_ok ls = true → lines_ok (List.filter f ls) = true.
Proof.
  induction ls as [|l ls IH]; [done |]. intros H.
  assert (Hls := lines_ok_tail _ _ H). specialize (IH Hls).
  simpl. destruct (f l); [|done].
  destruct (List.filter f ls) as [|x xs] eqn:E.
  - by eapply lines_ok_head.
  - rewrite lines_ok_cons by done. rewrite IH, andb_true_r.
    destruct ls as [|l2 ls']; [done |].
    rewrite lines_ok_cons in H by done. by apply andb_true_iff in H as [? _].
Qed.

Lemma lines_ok_app_full (pre : list string) (l : string) (post : list string) :
  lines_ok (pre ++ l :: post) = true → Forall (λ x, full_line x = true) pre.
Proof.
  induction pre as [|x pre IH]; [constructor |]. intros H.
  change ((x :: pre) ++ l :: post) with (x :: (pre ++ l :: post)) in H.
  rewrite lines_ok_cons in H by by destruct pre.
  apply andb_true_iff in H as [H1 H2]. constructor; auto.
Qed.

Lemma readlines_full_lines (pre : list string) (s : string) :
  Forall (λ x, full_line x = true) pre →
  readlines (writelines pre +:+ s) = pre ++ readlines s.
Proof.
  induction 1 as [|x pre Hx _ IH]; [done |].
  rewrite writelines_cons, append_assoc, readlines_full_line by done.
  by rewrite IH.
Qed.

End line_facts.

(** ** clean_vapor_project.py *)

Section clean_file_facts.

Variable ROOT_DIR : string.

Lemma List_filter_idem {A : Type} (f : A → bool) (l : list A) :
  List.filter f (List.filter f l) = List.filter f l.
Proof.
  induction l as [|x l IH]; [done |]. simpl.
  destruct (f x) eqn:E; [|done]. simpl. by rewrite E, IH.
Qed.

Lemma node_at_file_ne_nil (t : gmap (list string) node) (f : list string) (c : string) :
  node_at t f = Some (File c) → f ≠ [].
Proof. by intros H ->. Qed.

Lemma clean_file_run (t : gmap (list string) node) (file_path : list string)
    (patterns_to_remove : list string) (text : string) (out : list string) :
  node_at t file_path = Some (File text) →
  node_at t (dirname file_path) = Some Dir →
  clean_file ROOT_DIR file_path patterns_to_remove (World t out)
  = (Returned (),
     World (<[file_path :=
                File (writelines (Doc.cleaned_lines (readlines text)
                                    patterns_to_remove))]> t)
       (out ++ ["Cleaned file: " +:+ show ROOT_DIR file_path])).
Proof.
  intros Hf Hd. unfold clean_file. run_get.
  rewrite (path_exists_Some _ _ _ Hf). cbn [negb].
  run_with ltac:(by apply read_text_run).
  run_with ltac:(apply write_text_run; cbn [tree]; [by rewrite Hf | done]).
  by rewrite print_run.
Qed.

(** X1. [clean_file] on an existing file: the file is rewritten with the
    lines that contain none of the patterns; read again, the file has
    exactly these lines, and a second run leaves the tree as the first
    one made it. *)
Theorem clean_file_settles (t : gmap (list string) node) (file_path : list string)
    (patterns_to_remove : list string) (text : string) :
  node_at t file_path = Some (File text) →
  node_at t (dirname file_path) = Some Dir →
  ∃ cleaned t',
    cleaned = writelines (filter (Doc.matches_none patterns_to_remove) (readlines text))
    ∧ t' = <[file_path := File cleaned]> t
    ∧ run (clean_file ROOT_DIR file_path patterns_to_remove) t
      = (Returned (), World t' ["Cleaned file: " +:+ show ROOT_DIR file_path])
    ∧ readlines cleaned
      = filter (Doc.matches_none patterns_to_remove) (readlines text)
    ∧ run (clean_file ROOT_DIR file_path patterns_to_remove) t'
      = (Returned (), World t' ["Cleaned file: " +:+ show ROOT_DIR file_path]).
Proof.
  intros Hf Hd. assert (Hne := node_at_file_ne_nil _ _ _ Hf).
  eexists _, _. split; [reflexivity |]. split; [reflexivity |].
  rewrite <- cleaned_lines_filter.
  assert (Hre : readlines (writelines (Doc.cleaned_lines (readlines text)
                                         patterns_to_remove))
                = Doc.cleaned_lines (readlines text) patterns_to_remove).
  { apply readlines_writelines, lines_ok_filter, lines_ok_readlines. }
  split_and!.
  - unfold run. by rewrite (clean_file_run _ _ _ text).
  - exact Hre.
  - unfold run. erewrite clean_file_run.
    + rewrite Hre. unfold Doc.cleaned_lines. rewrite List_filter_idem.
      by rewrite insert_insert_eq.
    + by apply node_at_insert_eq.
    + rewrite node_at_insert_ne; [done |].
      intros E. rewrite E in Hd. congruence.
Qed.

End clean_file_facts.

Section remove_todo_files_facts.

Variable ROOT_DIR : string.

Lemma remove_run (p : list string) (w : world) (c : string) :
  node_at (tree w) p = Some (File c) →
  remove p w = (Returned (), World (delete p (tree w)) (stdout w)).
Proof. intros H. unfold remove. run_get. by rewrite H. Qed.

Lemma listdir_run (d : list string) (w : world) :
  node_at (tree w) d = Some Dir →
  listdir d w = (Returned (entries (tree w) d), w).
Proof. intros H. unfold listdir. run_get. by rewrite H. Qed.

Lemma child_of_snoc (d : list string) (n : string) : child_of d (d ++ [n]) = Some n.
Proof. by apply child_of_Some. Qed.

(** The loop of [remove_todo_files] over the names [ns], when those that
    contain Todo are files. *)
Lemma remove_todo_loop (dir : list string) (ns : list string)
    (u : gmap (list string) node) (out : list string) :
  NoDup ns →
  (∀ n, n ∈ ns → contains "Todo" n = true → ∃ c, u !! (dir ++ [n]) = Some (File c)) →
  ∃ u',
    for_each ns (λ file_name,
      if contains "Todo" file_name then
        remove (dir ++ [file_name]) ;;
        print ("Removed file: " +:+ show ROOT_DIR (dir ++ [file_name]))
      else mret ()) (World u out)
    = (Returned (),
       World u' (out ++ ((λ n, "Removed file: " +:+ show ROOT_DIR (dir ++ [n]))
                           <$> List.filter (contains "Todo") ns)))
    ∧ (∀ p, u' !! p
            = match child_of dir p with
              | Some n => if bool_decide (n ∈ ns) && contains "Todo" n then None
                          else u !! p
              | None => u !! p
              end).
Proof.
  revert u out. induction ns as [|n ns IH]; intros u out Hnd Hfiles.
  - exists u. split; [simpl; by rewrite app_nil_r |].
    intros p. by destruct (child_of dir p).
  - apply NoDup_cons in Hnd as [Hn Hnd]. cbn [for_each List.filter].
    destruct (contains "Todo" n) eqn:E.
    + destruct (Hfiles n) as [c Hc]; [left | done |].
      destruct (IH (delete (dir ++ [n]) u)
                  (out ++ ["Removed file: " +:+ show ROOT_DIR (dir ++ [n])]) Hnd)
        as (u' & Hrun & Hu').
      { intros m Hm Em. destruct (Hfiles m) as [cm Hcm]; [by right | done |].
        exists cm. rewrite lookup_delete_ne; [done |].
        intros [_ ->]%app_inj_tail. done. }
      exists u'. split.
      * run_with ltac:(
          run_with ltac:(apply (remove_run _ _ c); cbn [tree];
                         by rewrite node_at_lookup by apply snoc_ne_nil);
          apply print_run).
        cbn [tree stdout]. rewrite Hrun. by rewrite fmap_cons, <- app_assoc.
      * intros p. rewrite Hu'. destruct (child_of dir p) as [m|] eqn:Em.
        -- apply child_of_Some in Em as ->.
           destruct (decide (m = n)) as [->|Hne].
           ++ rewrite (bool_decide_false (n ∈ ns)) by done.
              rewrite (bool_decide_true (n ∈ n :: ns)) by left.
              rewrite E. simpl. by rewrite lookup_delete_eq.
           ++ rewrite lookup_delete_ne by (intros [_ ->]%app_inj_tail; done).
              rewrite (bool_decide_ext (m ∈ n :: ns) (m ∈ ns)); [done |].
              rewrite elem_of_cons. split; [by intros [?|?] | by right].
        -- rewrite lookup_delete_ne; [done |].
           intros <-. by rewrite child_of_snoc in Em.
    + destruct (IH u out Hnd) as (u' & Hrun & Hu').
      { intros m Hm. apply Hfiles. by right. }
      exists u'. split.
      * run_with ltac:(done). exact Hrun.
      * intros p. rewrite Hu'. destruct (child_of dir p) as [m|] eqn:Em; [|done].
        destruct (decide (m = n)) as [->|Hne].
        -- by rewrite E, !andb_false_r.
        -- rewrite (bool_decide_ext (m ∈ n :: ns) (m ∈ ns)); [done |].
           rewrite elem_of_cons. split; [by intros [?|?] | by right].
Qed.

Lemma remove_todo_files_run (t : gmap (list string) node) (dir : list string)
    (out : list string) :
  node_at t dir = Some Dir →
  (∀ n, contains "Todo" n = true → t !! (dir ++ [n]) ≠ Some Dir) →
  ∃ t',
    remove_todo_files ROOT_DIR dir (World t out)
    = (Returned (),
       World t' (out ++ ((λ n, "Removed file: " +:+ show ROOT_DIR (dir ++ [n]))
                           <$> List.filter (contains "Todo") (entries t dir))))
    ∧ (∀ p, t' !! p = if todo_entry dir p then None else t !! p).
Proof.
  intros Hdir Hfiles.
  destruct (remove_todo_loop dir (entries t dir) t out) as (t' & Hrun & Ht').
  { apply NoDup_entries. }
  { intros n Hn En. apply elem_of_entries in Hn as [x Hx].
    destruct x as [c|]; [eauto | by destruct (Hfiles n En)]. }
  exists t'. split.
  - unfold remove_todo_files. run_get.
    rewrite (path_exists_Some _ _ _ Hdir).
    run_with ltac:(by apply listdir_run). exact Hrun.
  - intros p. rewrite Ht'. unfold todo_entry.
    destruct (child_of dir p) as [n|] eqn:En; [|done].
    apply child_of_Some in En as ->.
    destruct (contains "Todo" n); [|by rewrite andb_false_r].
    rewrite andb_true_r. case_bool_decide as Hin; [done |].
    destruct (t !! (dir ++ [n])) as [x|] eqn:Ex; [|done].
    destruct Hin. apply elem_of_entries. by rewrite Ex.
Qed.

(** X2. [remove_todo_files] on a directory whose entries named with Todo
    are files: every such entry is removed and reported, in the order of
    the listing, and nothing else changes. *)
Theorem remove_todo_files_removes (t : gmap (list string) node) (dir : list string) :
  node_at t dir = Some Dir →
  (∀ n, contains "Todo" n = true → t !! (dir ++ [n]) ≠ Some Dir) →
  ∃ t',
    run (remove_todo_files ROOT_DIR dir) t
    = (Returned (),
       World t' ((λ n, "Removed file: " +:+ show ROOT_DIR (dir ++ [n]))
                   <$> List.filter (contains "Todo") (entries t dir)))
    ∧ (∀ p, t' !! p = if todo_entry dir p then None else t !! p).
Proof. intros Hdir Hfiles. by apply (remove_todo_files_run t dir []). Qed.

(** The loop stops at the first name with Todo that is a directory. *)
Lemma remove_todo_loop_directory (dir : list string) (ns : list string)
    (u : gmap (list string) node) (out : list string) :
  NoDup ns →
  (∀ n, n ∈ ns → is_Some (u !! (dir ++ [n]))) →
  (∃ n, n ∈ ns ∧ contains "Todo" n = true ∧ u !! (dir ++ [n]) = Some Dir) →
  ∃ m w',
    contains "Todo" m = true
    ∧ u !! (dir ++ [m]) = Some Dir
    ∧ for_each ns (λ file_name,
        if contains "Todo" file_name then
          remove (dir ++ [file_name]) ;;
          print ("Removed file: " +:+ show ROOT_DIR (dir ++ [file_name]))
        else mret ()) (World u out)
      = (Raised (IsADirectoryError (dir ++ [m])), w')
    ∧ tree w' !! (dir ++ [m]) = Some Dir.
Proof.
  revert u out. induction ns as [|n ns IH]; intros u out Hnd Hall (d & Hd & Ed & Hdir).
  - inversion Hd.
  - apply NoDup_cons in Hnd as [Hn Hnd]. cbn [for_each].
    destruct (contains "Todo" n) eqn:E.
    + destruct (Hall n) as [x Hx]; [left |]. destruct x as [c|].
      * assert (Hd' : d ∈ ns).
        { apply elem_of_cons in Hd as [->|Hd]; [congruence | done]. }
        assert (Hne : ∀ m, m ∈ ns → dir ++ [n] ≠ dir ++ [m]).
        { intros m Hm [_ ->]%app_inj_tail. done. }
        destruct (IH (delete (dir ++ [n]) u)
                    (out ++ ["Removed file: " +:+ show ROOT_DIR (dir ++ [n])]) Hnd)
          as (m & w' & Em & Hm & Hrun & Hw').
        { intros m Hm. rewrite lookup_delete_ne by by apply Hne.
          apply Hall. by right. }
        { exists d. split_and!; [done | done |].
          by rewrite lookup_delete_ne by by apply Hne. }
        exists m, w'. split_and!; [done | | | done].
        -- destruct (decide (dir ++ [n] = dir ++ [m])) as [Heq|Hneq].
           ++ rewrite <- Heq, lookup_delete_eq in Hm. done.
           ++ by rewrite lookup_delete_ne in Hm.
        -- run_with ltac:(
             run_with ltac:(apply (remove_run _ _ c); cbn [tree];
                            by rewrite node_at_lookup by apply snoc_ne_nil);
             apply print_run).
           exact Hrun.
      * exists n, (World u out). split_and!; [done | done | | done].
        erewrite bind_raised; [done |].
        erewrite bind_raised; [done |].
        unfold remove. run_get.
        by rewrite node_at_lookup, Hx by apply snoc_ne_nil.
    + assert (Hd' : d ∈ ns).
      { apply elem_of_cons in Hd as [->|Hd]; [congruence | done]. }
      destruct (IH u out Hnd) as (m & w' & Em & Hm & Hrun & Hw').
      { intros m Hm. apply Hall. by right. }
      { by exists d. }
      exists m, w'. split_and!; [done | done | | done].
      run_with ltac:(done). exact Hrun.
Qed.

(** X3. When an entry of the directory named with Todo is a directory,
    [remove_todo_files] ends with the exception of [os.remove] on such an
    entry, which is still there. *)
Theorem remove_todo_files_directory (t : gmap (list string) node)
    (dir : list string) (n : string) :
  node_at t dir = Some Dir →
  contains "Todo" n = true →
  t !! (dir ++ [n]) = Some Dir →
  ∃ m w',
    contains "Todo" m = true
    ∧ t !! (dir ++ [m]) = Some Dir
    ∧ run (remove_todo_files ROOT_DIR dir) t
      = (Raised (IsADirectoryError (dir ++ [m])), w')
    ∧ tree w' !! (dir ++ [m]) = Some Dir.
Proof.
  intros Hdir En Hn.
  destruct (remove_todo_loop_directory dir (entries t dir) t [])
    as (m & w' & Em & Hm & Hrun & Hw').
  { apply NoDup_entries. }
  { intros k Hk. by apply elem_of_entries. }
  { exists n. split_and!; [| done | done]. apply elem_of_entries. by rewrite Hn. }
  exists m, w'. split_and!; [done | done | | done].
  unfold run, remove_todo_files. run_get.
  rewrite (path_exists_Some _ _ _ Hdir).
  run_with ltac:(by apply listdir_run). exact Hrun.
Qed.

Lemma entries_same (t u : gmap (list string) node) (d : list string) :
  (∀ n, u !! (d ++ [n]) = t !! (d ++ [n])) → entries u d ≡ₚ entries t d.
Proof.
  intros H. apply NoDup_Permutation; [apply NoDup_entries | apply NoDup_entries |].
  intros n. by rewrite !elem_of_entries, H.
Qed.

Lemma List_filter_Permutation {A : Type} (f : A → bool) (l k : list A) :
  l ≡ₚ k → List.filter f l ≡ₚ List.filter f k.
Proof.
  induction 1 as [|x l k _ IH|x y l|l k m _ IH1 _ IH2]; simpl.
  - done.
  - destruct (f x); [by constructor | done].
  - destruct (f x), (f y); try done. apply perm_swap.
  - by etrans.
Qed.

(** X4. [clean_vapor_project] on a project that has routes.swift,
    configure.swift and the directories Controllers and Migrations, whose
    entries named with Todo are files: the script ends normally, the two
    sources keep the lines without their patterns, the Todo entries of
    the two directories are gone and nothing else changes; each removal
    is reported between the banners of its step. *)
Theorem clean_vapor_project_cleans (t : gmap (list string) node)
    (routes configure : string) :
  node_at t ["Sources"; "App"] = Some Dir →
  node_at t routes_file = Some (File routes) →
  node_at t configure_file = Some (File configure) →
  node_at t controllers_dir = Some Dir →
  node_at t migrations_dir = Some Dir →
  (∀ n, contains "Todo" n = true →
        t !! (controllers_dir ++ [n]) ≠ Some Dir
        ∧ t !! (migrations_dir ++ [n]) ≠ Some Dir) →
  ∃ t' removed_controllers removed_migrations,
    run (clean_vapor_project ROOT_DIR) t
    = (Returned (),
       World t'
         (["Cleaning routes.swift...";
           "Cleaned file: " +:+ show ROOT_DIR routes_file;
           "Cleaning configure.swift...";
           "Cleaned file: " +:+ show ROOT_DIR configure_file;
           "Removing default controller files..."]
          ++ ((λ n, "Removed file: " +:+ show ROOT_DIR (controllers_dir ++ [n]))
                <$> removed_controllers)
          ++ ["Removing default migration files..."]
          ++ ((λ n, "Removed file: " +:+ show ROOT_DIR (migrations_dir ++ [n]))
                <$> removed_migrations)
          ++ ["Cleanup completed. Please ensure the project compiles by running:";
              "swift build"]))
    ∧ removed_controllers
        ≡ₚ List.filter (contains "Todo") (entries t controllers_dir)
    ∧ removed_migrations
        ≡ₚ List.filter (contains "Todo") (entries t migrations_dir)
    ∧ t' !! routes_file
      = Some (File (writelines
          (filter (Doc.matches_none ["TodoController"; "register(collection:"])
             (readlines routes))))
    ∧ t' !! configure_file
      = Some (File (writelines
          (filter (Doc.matches_none ["CreateTodo"; "app.migrations.add"])
             (readlines configure))))
    ∧ (∀ p, p ≠ routes_file → p ≠ configure_file →
         t' !! p = if todo_entry controllers_dir p || todo_entry migrations_dir p
                   then None else t !! p).
Proof.
  intros Happ Hr Hc Hcd Hmd Hfiles.
  set (r' := writelines
               (Doc.cleaned_lines (readlines routes)
                  ["TodoController"; "register(collection:"])).
  set (c' := writelines
               (Doc.cleaned_lines (readlines configure)
                  ["CreateTodo"; "app.migrations.add"])).
  set (t1 := <[routes_file := File r']> t).
  set (t2 := <[configure_file := File c']> t1).
  assert (H2 : ∀ p, p ≠ routes_file → p ≠ configure_file → t2 !! p = t !! p).
  { intros p H1 H2. unfold t2, t1. by rewrite !lookup_insert_ne. }
  destruct (remove_todo_files_run t2 controllers_dir
              ["Cleaning routes.swift...";
               "Cleaned file: " +:+ show ROOT_DIR routes_file;
               "Cleaning configure.swift...";
               "Cleaned file: " +:+ show ROOT_DIR configure_file;
               "Removing default controller files..."])
    as (t3 & Hrun3 & H3).
  { change (t2 !! controllers_dir = Some Dir). by rewrite H2. }
  { intros n En. rewrite H2 by done. by apply Hfiles. }
  assert (Hmd3 : ∀ n, t3 !! (migrations_dir ++ [n]) = t !! (migrations_dir ++ [n])).
  { intros n. rewrite H3.
    assert (todo_entry controllers_dir (migrations_dir ++ [n]) = false) as ->.
    { unfold todo_entry. destruct (child_of _ _) as [m|] eqn:Em; [|done].
      apply child_of_Some in Em. discriminate Em. }
    by apply H2. }
  set (out3 := ["Cleaning routes.swift...";
                "Cleaned file: " +:+ show ROOT_DIR routes_file;
                "Cleaning configure.swift...";
                "Cleaned file: " +:+ show ROOT_DIR configure_file;
                "Removing default controller files..."]
               ++ ((λ n, "Removed file: " +:+ show ROOT_DIR (controllers_dir ++ [n]))
                     <$> List.filter (contains "Todo") (entries t2 controllers_dir)))
    in *.
  destruct (remove_todo_files_run t3 migrations_dir
              (out3 ++ ["Removing default migration files..."]))
    as (t4 & Hrun4 & H4).
  { change (t3 !! migrations_dir = Some Dir). rewrite H3.
    change (todo_entry controllers_dir migrations_dir) with false.
    by rewrite H2. }
  { intros n En. rewrite Hmd3. by apply Hfiles. }
  exists t4, (List.filter (contains "Todo") (entries t2 controllers_dir)),
    (List.filter (contains "Todo") (entries t3 migrations_dir)).
  split_and!.
  - unfold run, clean_vapor_project.
    run_with ltac:(apply print_run). cbn [tree stdout app].
    run_with ltac:(by apply (clean_file_run _ _ _ _ routes)). cbn [app].
    run_with ltac:(apply print_run). cbn [tree stdout app].
    run_with ltac:(apply (clean_file_run _ _ _ _ configure);
                   [by rewrite node_at_insert_ne | by rewrite node_at_insert_ne]).
    cbn [app].
    run_with ltac:(apply print_run). cbn [tree stdout app].
    run_with ltac:(exact Hrun3).
    run_with ltac:(apply print_run). cbn [tree stdout].
    run_with ltac:(exact Hrun4).
    run_with ltac:(apply print_run). cbn [tree stdout].
    rewrite print_run. cbn [tree stdout]. unfold out3.
    by rewrite <- !app_assoc.
  - apply List_filter_Permutation, entries_same. intros n. by apply H2.
  - apply List_filter_Permutation, entries_same, Hmd3.
  - rewrite H4, H3. change (todo_entry migrations_dir routes_file) with false.
    change (todo_entry controllers_dir routes_file) with false.
    unfold t2, t1. rewrite lookup_insert_ne by done.
    rewrite lookup_insert_eq. unfold r'. by rewrite cleaned_lines_filter.
  - rewrite H4, H3. change (todo_entry migrations_dir configure_file) with false.
    change (todo_entry controllers_dir configure_file) with false.
    unfold t2. rewrite lookup_insert_eq. unfold c'.
    by rewrite cleaned_lines_filter.
  - intros p Hp1 Hp2. rewrite H4, H3, H2 by done.
    by destruct (todo_entry controllers_dir p), (todo_entry migrations_dir p).
Qed.

End remove_todo_files_facts.

(** ** append_to_file, write_file and create_file *)

Section append_to_file_facts.

Lemma first_index_app (marker : string) (pre : list string) (line : string)
    (post : list string) :
  Forall (λ l, ¬ Substring marker l) pre → Substring marker line →
  Doc.first_index marker (pre ++ line :: post) = Some (length pre).
Proof.
  intros Hpre Hline. induction Hpre as [|x pre Hx _ IH]; simpl.
  - apply contains_spec in Hline. by rewrite Hline.
  - apply contains_false in Hx. by rewrite Hx, IH.
Qed.

Lemma first_index_none (marker : string) (lines : list string) :
  Forall (λ l, ¬ Substring marker l) lines → Doc.first_index marker lines = None.
Proof.
  induction 1 as [|x lines Hx _ IH]; [done |]. simpl.
  apply contains_false in Hx. by rewrite Hx, IH.
Qed.

Lemma append_lines_at (lines : list string) (content marker : string)
    (pre : list string) (line : string) (post : list string) :
  marker ≠ "" → lines = pre ++ line :: post →
  Forall (λ l, ¬ Substring marker l) pre → Substring marker line →
  Doc.append_lines lines content (Some marker)
  = pre ++ line :: (content +:+ nl) :: post.
Proof.
  intros Hm -> Hpre Hline. unfold Doc.append_lines.
  rewrite truthy_nonempty by done. rewrite first_index_app by done.
  apply list_insert_at_app.
Qed.

Lemma append_to_file_run (t : gmap (list string) node) (file_path : list string)
    (text content : string) (marker : option string) (out : list string) :
  node_at t file_path = Some (File text) →
  node_at t (dirname file_path) = Some Dir →
  append_to_file file_path content marker (World t out)
  = (Returned (),
     World (<[file_path :=
                File (writelines (Doc.append_lines (readlines text) content marker))]> t)
       out).
Proof.
  intros Hf Hd. unfold append_to_file. run_get.
  rewrite (path_exists_Some _ _ _ Hf). cbn [negb].
  run_with ltac:(by apply read_text_run).
  apply write_text_run; cbn [tree]; [by rewrite Hf | done].
Qed.

(** X5. [append_to_file] on an existing file, seen on the text of the
    file.  Without a marker, or when no line contains the marker, the new
    text is the old one followed by the content and a newline, whether or
    not the old text ends with a newline; otherwise the content and its
    newline come right after the first line that contains the marker,
    between the unchanged text before and after. *)
Theorem append_to_file_text (t : gmap (list string) node) (file_path : list string)
    (text content : string) (marker : option string) :
  node_at t file_path = Some (File text) →
  node_at t (dirname file_path) = Some Dir →
  ∃ text',
    run (append_to_file file_path content marker) t
    = (Returned (), World (<[file_path := File text']> t) [])
    ∧ (Doc.truthy marker = None → text' = text +:+ content +:+ nl)
    ∧ (∀ m, marker = Some m →
         Forall (λ l, ¬ Substring m l) (readlines text) →
         text' = text +:+ content +:+ nl)
    ∧ (∀ m pre line post,
         marker = Some m → m ≠ "" →
         readlines text = pre ++ line :: post →
         Forall (λ l, ¬ Substring m l) pre → Substring m line →
         text' = writelines pre +:+ line +:+ content +:+ nl +:+ writelines post).
Proof.
  intros Hf Hd. eexists. split; [by apply append_to_file_run |].
  assert (Hend : writelines (readlines text ++ [content +:+ nl])
                 = text +:+ content +:+ nl).
  { rewrite writelines_app, writelines_readlines.
    change (writelines [content +:+ nl]) with ((content +:+ nl) +:+ "").
    by rewrite append_nil_r. }
  split_and!.
  - intros Hm. unfold Doc.append_lines. by rewrite Hm.
  - intros m -> Hno. unfold Doc.append_lines.
    destruct (Doc.truthy (Some m)) as [m'|] eqn:Em; [|done].
    assert (m' = m) as -> by (destruct m; simpl in Em; congruence).
    by rewrite first_index_none.
  - intros m pre line post -> Hm Hlines Hpre Hline.
    rewrite (append_lines_at _ _ _ pre line post) by done.
    by rewrite writelines_app, !writelines_cons, append_assoc.
Qed.

(** X6. Two calls of [append_to_file] with the same marker, as in step 1
    of setup_openapiserve.py: when the first line with the marker ends
    with a newline, the content of the second call lands between that
    line and the content of the first call. *)
Theorem append_to_file_twice (t : gmap (list string) node) (file_path : list string)
    (text first second marker : string) (pre : list string) (line : string)
    (post : list string) :
  node_at t file_path = Some (File text) →
  node_at t (dirname file_path) = Some Dir →
  marker ≠ "" →
  readlines text = pre ++ line :: post →
  Forall (λ l, ¬ Substring marker l) pre →
  Substring marker line →
  full_line line = true →
  run (append_to_file file_path first (Some marker) ;;
       append_to_file file_path second (Some marker)) t
  = (Returned (),
     World (<[file_path :=
                File (writelines pre +:+ line +:+ second +:+ nl +:+ first +:+ nl
                      +:+ writelines post)]> t) []).
Proof.
  intros Hf Hd Hm Hlines Hpre Hline Hfull.
  assert (Hne := node_at_file_ne_nil _ _ _ Hf).
  assert (Hfullpre : Forall (λ x, full_line x = true) pre).
  { apply (lines_ok_app_full pre line post). rewrite <- Hlines.
    apply lines_ok_readlines. }
  unfold run. run_with ltac:(by apply (append_to_file_run _ _ text)).
  rewrite Hlines, (append_lines_at _ _ _ pre line post) by done.
  erewrite append_to_file_run; [| by apply node_at_insert_eq |].
  - rewrite insert_insert_eq. do 3 f_equal.
    rewrite writelines_app, writelines_cons.
    rewrite readlines_full_lines, readlines_full_line by done.
    rewrite (append_lines_at _ _ _ pre line
               (readlines (writelines ((first +:+ nl) :: post)))) by done.
    rewrite writelines_app, !writelines_cons, writelines_readlines.
    by rewrite !append_assoc.
  - rewrite node_at_insert_ne; [done |].
    intros E. rewrite E in Hd. congruence.
Qed.

(** X7. [append_to_file] changes one file or nothing: it ends normally
    with the tree changed at most at the path of the file, which is then a
    file, or it ends with an exception and the tree as it was; it never
    makes a directory. *)
Theorem append_to_file_one_file (t : gmap (list string) node) (file_path : list string)
    (content : string) (marker : option string) :
  (∃ text', run (append_to_file file_path content marker) t
            = (Returned (), World (<[file_path := File text']> t) []))
  ∨ (∃ e, run (append_to_file file_path content marker) t = (Raised e, World t [])).
Proof.
  unfold run, append_to_file. run_get.
  destruct (node_at t file_path) as [[text|]|] eqn:Ef.
  - rewrite (path_exists_Some _ _ _ Ef). cbn [negb].
    run_with ltac:(by apply read_text_run).
    unfold write_text. run_get. rewrite Ef.
    destruct (node_at t (dirname file_path)) as [[c|]|]; [eauto | eauto |].
    destruct (file_on_the_way t [] (dirname file_path)); eauto.
  - rewrite (path_exists_Some _ _ _ Ef). cbn [negb]. right.
    eexists. erewrite bind_raised; [done |].
    unfold read_text. run_get. by rewrite Ef.
  - rewrite (proj2 (path_exists_false _ _) Ef). cbn [negb].
    unfold write_text. run_get. rewrite Ef.
    destruct (node_at t (dirname file_path)) as [[c|]|]; [eauto | eauto |].
    destruct (file_on_the_way t [] (dirname file_path)); eauto.
Qed.

End append_to_file_facts.

Section write_file_facts.

Lemma prefix_of_dirname_ne (p q : list string) :
  p ≠ [] → q `prefix_of` dirname p → q ≠ p.
Proof.
  intros Hp Hq ->. apply prefix_length in Hq.
  destruct (dirname_nonempty p Hp) as (d & n & -> & Hd). rewrite Hd in Hq.
  rewrite length_app in Hq. simpl in Hq. lia.
Qed.

(** Writing a file into a directory made for it. *)
Lemma makedirs_write_run (t : gmap (list string) node) (path : list string)
    (content : string) (out : list string) :
  well_formed t →
  dirname path ≠ [] →
  (∀ q c, q `prefix_of` dirname path → node_at t q ≠ Some (File c)) →
  node_at t path ≠ Some Dir →
  ∃ t',
    (makedirs_dirname path ;; write_text path content) (World t out)
    = (Returned (), World t' out)
    ∧ well_formed t'
    ∧ t' !! path = Some (File content)
    ∧ (∀ q, q ≠ path →
         t' !! q = t !! q
         ∨ (t !! q = None ∧ t' !! q = Some Dir ∧ q `prefix_of` dirname path)).
Proof.
  intros Hwf Hdn Hnf Hp.
  assert (Hne : path ≠ []) by (intros ->; done).
  destruct (dirname_nonempty path Hne) as (d & n & Epath & Ed).
  destruct (makedirs_run (dirname path) (World t out) Hwf Hnf)
    as (u & Hrun & Hwfu & Hadd & Hdir).
  cbn [tree stdout] in *.
  assert (Hup : u !! path = t !! path).
  { destruct (Hadd path) as [E|(_ & _ & Hpre)]; [done |].
    by apply prefix_of_dirname_ne in Hpre. }
  assert (Hpu : node_at u path ≠ Some Dir).
  { rewrite node_at_lookup, Hup, <- node_at_lookup by done. done. }
  exists (<[path := File content]> u). split_and!.
  - unfold makedirs_dirname. destruct (dirname path) as [|x l] eqn:E; [done |].
    run_with ltac:(exact Hrun).
    apply write_text_run; cbn [tree]; [done | by rewrite E].
  - rewrite Epath. rewrite Epath, Ed in *.
    apply well_formed_insert; [done | done | done |].
    intros c _ m y Hm. apply Hpu.
    eapply well_formed_parent; [done |]. by rewrite node_at_snoc.
  - by rewrite lookup_insert_eq.
  - intros q Hq. rewrite lookup_insert_ne by done. apply Hadd.
Qed.

(** X8. [write_file] makes the directories of its path and writes the
    file, over a file that was there: in a well-formed tree where no file
    is in the way of the directory and the path is not a directory, it
    ends normally, the file then reads as the content, the tree is well
    formed, and the only other changes are the new directories.  A path
    without a directory part is refused by [os.makedirs]. *)
Theorem write_file_writes (t : gmap (list string) node) (path : list string)
    (content : string) :
  well_formed t →
  (∀ q c, q `prefix_of` dirname path → node_at t q ≠ Some (File c)) →
  node_at t path ≠ Some Dir →
  (dirname path = [] →
   run (write_file path content) t = (Raised (FileNotFoundError []), World t []))
  ∧ (dirname path ≠ [] →
     ∃ t',
       run (write_file path content) t = (Returned (), World t' [])
       ∧ well_formed t'
       ∧ run (read_text path) t' = (Returned content, World t' [])
       ∧ (∀ q, q ≠ path →
            t' !! q = t !! q
            ∨ (t !! q = None ∧ t' !! q = Some Dir ∧ q `prefix_of` dirname path))).
Proof.
  intros Hwf Hnf Hp. split.
  - intros E. unfold run, write_file, makedirs_dirname. by rewrite E.
  - intros Hdn.
    destruct (makedirs_write_run t path content [] Hwf Hdn Hnf Hp)
      as (t' & Hrun & Hwf' & Hfile & Hrest).
    exists t'. split_and!; [done | done | | done].
    apply read_text_run. cbn [tree].
    rewrite node_at_lookup; [done |]. by intros ->.
Qed.

(** X9. [create_file] never touches a path that exists, file or
    directory.  On a free path with a directory part, in a well-formed
    tree where no file is in the way of that directory, it makes the
    directories and the file as [write_file] does, and a second call with
    another content leaves the first content in place.  On a free path
    without a directory part it ends with the [FileNotFoundError] of
    [os.makedirs] for the empty name, and the tree is as it was. *)
Theorem create_file_first_wins (t : gmap (list string) node) (file_path : list string)
    (content other : string) :
  (path_exists t file_path = true →
   run (create_file file_path content) t = (Returned (), World t []))
  ∧ (path_exists t file_path = false → dirname file_path = [] →
     run (create_file file_path content) t
     = (Raised (FileNotFoundError []), World t []))
  ∧ (path_exists t file_path = false → dirname file_path ≠ [] →
     well_formed t →
     (∀ q c, q `prefix_of` dirname file_path → node_at t q ≠ Some (File c)) →
     ∃ t',
       run (create_file file_path content) t = (Returned (), World t' [])
       ∧ well_formed t'
       ∧ t' !! file_path = Some (File content)
       ∧ (∀ q, q ≠ file_path →
            t' !! q = t !! q
            ∨ (t !! q = None ∧ t' !! q = Some Dir
               ∧ q `prefix_of` dirname file_path))
       ∧ run (create_file file_path content ;; create_file file_path other) t
         = (Returned (), World t' [])).
Proof.
  split_and!.
  - intros E. unfold run, create_file. run_get. by rewrite E.
  - intros E Hd. unfold run, create_file. run_get. rewrite E. cbn [negb].
    unfold makedirs_dirname. by rewrite Hd.
  - intros E Hdn Hwf Hnf.
    assert (Hp : node_at t file_path ≠ Some Dir).
    { apply path_exists_false in E. by rewrite E. }
    destruct (makedirs_write_run t file_path content [] Hwf Hdn Hnf Hp)
      as (t' & Hrun & Hwf' & Hfile & Hrest).
    assert (Hfirst : run (create_file file_path content) t
                     = (Returned (), World t' [])).
    { unfold run, create_file. run_get. rewrite E. cbn [negb]. exact Hrun. }
    exists t'. split_and!; [done | done | done | done |].
    unfold run in *. run_with ltac:(exact Hfirst).
    unfold create_file. run_get.
    rewrite (path_exists_Some _ _ (File content)); [done |].
    rewrite node_at_lookup; [done |]. by intros ->.
Qed.

End write_file_facts.

(** ** rollback_redoc_setup.py *)

Section rollback_facts.

Variable ROOT_DIR : string.

Lemma prefix_of_dirname (p q : list string) :
  p `prefix_of` dirname q → p `prefix_of` q.
Proof.
  intros H. destruct (decide (q = [])) as [->|Hq]; [done |].
  destruct (dirname_nonempty q Hq) as (d & n & -> & Hd). rewrite Hd in H.
  by apply prefix_app_r.
Qed.

Lemma lookup_rmtree (t : gmap (list string) node) (p q : list string) :
  filter (λ kv, ¬ below p kv) t !! q
  = if decide (p `prefix_of` q) then None else t !! q.
Proof.
  destruct (decide (p `prefix_of` q)) as [H|H].
  - apply map_lookup_filter_None. right. intros x _ Hx. by apply Hx.
  - destruct (t !! q) as [x|] eqn:E.
    + by apply map_lookup_filter_Some.
    + apply map_lookup_filter_None. by left.
Qed.

Lemma well_formed_rmtree (t : gmap (list string) node) (p : list string) :
  well_formed t → well_formed (filter (λ kv, ¬ below p kv) t).
Proof.
  intros Hwf q x Hq. apply map_lookup_filter_Some in Hq as [Hq Hnb].
  specialize (Hwf q x Hq). simpl in *.
  apply isdir_true in Hwf. apply isdir_true.
  destruct (decide (dirname q = [])) as [E|E]; [by rewrite E |].
  rewrite node_at_lookup in Hwf |- * by done.
  rewrite lookup_rmtree. destruct (decide (p `prefix_of` dirname q)) as [H|H]; [|done].
  destruct Hnb. by apply prefix_of_dirname.
Qed.

Lemma rmtree_run (p : list string) (t : gmap (list string) node) (out : list string) :
  node_at t p = Some Dir →
  rmtree p (World t out) = (Returned (), World (filter (λ kv, ¬ below p kv) t) out).
Proof. intros H. unfold rmtree. run_get. by rewrite H. Qed.

Lemma nothing_below_absent (t : gmap (list string) node) (d q : list string) :
  well_formed t → node_at t d = None → d `prefix_of` q → t !! q = None.
Proof.
  intros Hwf Hd [k ->].
  assert (Hne : d ≠ []) by (intros ->; done).
  destruct (t !! (d ++ k)) as [x|] eqn:E; [|done].
  destruct (decide (k = [])) as [->|Hk].
  - rewrite app_nil_r, <- node_at_lookup in E by done. congruence.
  - apply well_formed_ancestor in E; [congruence | done | done].
Qed.

Lemma rollback_dir_run (t : gmap (list string) node) (dir : list string)
    (actions out : list string) :
  well_formed t → (∀ c, node_at t dir ≠ Some (File c)) →
  ∃ t',
    rollback_dir ROOT_DIR dir actions (World t out)
    = (Returned (actions ++ [(if path_exists t dir then "Removed directory: "
                              else "Directory not found (already removed): ")
                             +:+ show ROOT_DIR dir]),
       World t' out)
    ∧ well_formed t'
    ∧ (∀ q, t' !! q = if decide (dir `prefix_of` q) then None else t !! q).
Proof.
  intros Hwf Hnf. unfold rollback_dir. run_get.
  destruct (node_at t dir) as [[c|]|] eqn:E.
  - by destruct (Hnf c).
  - rewrite (path_exists_Some _ _ _ E). eexists. split_and!.
    + run_with ltac:(by apply rmtree_run). done.
    + by apply well_formed_rmtree.
    + intros q. apply lookup_rmtree.
  - rewrite (proj2 (path_exists_false _ _) E). exists t. split_and!; [done | done |].
    intros q. destruct (decide (dir `prefix_of` q)) as [H|H]; [|done].
    by eapply nothing_below_absent.
Qed.

Lemma rollback_leaf_file_run (t : gmap (list string) node)
    (actions out : list string) :
  well_formed t → node_at t redoc_leaf_file ≠ Some Dir →
  ∃ t',
    rollback_leaf_file ROOT_DIR actions (World t out)
    = (Returned (actions ++ [(if path_exists t redoc_leaf_file then "Removed file: "
                              else "File not found (already removed): ")
                             +:+ show ROOT_DIR redoc_leaf_file]),
       World t' out)
    ∧ well_formed t'
    ∧ (∀ q, t' !! q = if decide (q = redoc_leaf_file) then None else t !! q).
Proof.
  intros Hwf Hnd. unfold rollback_leaf_file. run_get.
  destruct (node_at t redoc_leaf_file) as [[c|]|] eqn:E.
  - rewrite (path_exists_Some _ _ _ E). exists (delete redoc_leaf_file t). split_and!.
    + run_with ltac:(by apply (remove_run _ _ c)). done.
    + by apply (well_formed_delete_file _ _ c).
    + intros q. destruct (decide (q = redoc_leaf_file)) as [->|H].
      * by rewrite lookup_delete_eq.
      * by rewrite lookup_delete_ne.
  - done.
  - rewrite (proj2 (path_exists_false _ _) E). exists t. split_and!; [done | done |].
    intros q. by destruct (decide (q = redoc_leaf_file)) as [->|H].
Qed.

Lemma List_filter_length_eq {A : Type} (f : A → bool) (l : list A) :
  (length (List.filter f l) =? length l) = forallb f l.
Proof.
  induction l as [|x l IH]; [done |]. simpl.
  assert (Hle : length (List.filter f l) ≤ length l).
  { clear. induction l as [|y l IH]; simpl; [lia |]. destruct (f y); simpl; lia. }
  destruct (f x); simpl; [done |].
  apply Nat.eqb_neq. lia.
Qed.

Lemma List_filter_all {A : Type} (f : A → bool) (l : list A) :
  forallb f l = true → List.filter f l = l.
Proof.
  induction l as [|x l IH]; [done |]. simpl.
  intros [Hx Hl]%andb_true_iff. by rewrite Hx, IH.
Qed.

Lemma well_formed_write (t : gmap (list string) node) (p : list string)
    (old new : string) :
  well_formed t → p ≠ [] → t !! p = Some (File old) →
  well_formed (<[p := File new]> t).
Proof.
  intros Hwf Hne Hp.
  destruct (dirname_nonempty p Hne) as (d & n & -> & _).
  apply well_formed_insert; [done | | done |].
  - eapply well_formed_parent; [done |]. by rewrite node_at_snoc.
  - intros c _ m y Hm.
    assert (node_at t (d ++ [n]) = Some Dir); [|rewrite node_at_snoc in *; congruence].
    eapply well_formed_parent; [done |]. by rewrite node_at_snoc.
Qed.

Lemma rollback_clean_run (t : gmap (list string) node) (file : list string)
    (f : string → bool) (cleaned_msg clean_msg : string)
    (actions out : list string) :
  well_formed t → file ≠ [] → t !! file ≠ Some Dir →
  ∃ t',
    rollback_clean file (List.filter f) cleaned_msg clean_msg actions (World t out)
    = (Returned (actions ++ match t !! file with
                            | Some (File text) =>
                                [if forallb f (readlines text) then clean_msg
                                 else cleaned_msg]
                            | _ => []
                            end),
       World t' out)
    ∧ well_formed t'
    ∧ t' !! file = clean_node (List.filter f) <$> t !! file
    ∧ (∀ q, q ≠ file → t' !! q = t !! q).
Proof.
  intros Hwf Hne Hnd. unfold rollback_clean. run_get.
  unfold path_exists. rewrite (node_at_lookup _ file) by done.
  destruct (t !! file) as [[text|]|] eqn:E; [| done |].
  - run_with ltac:(apply read_text_run; cbn [tree];
                   by rewrite node_at_lookup by done).
    rewrite List_filter_length_eq.
    destruct (forallb f (readlines text)) eqn:Ef; cbn [negb].
    + exists t. split_and!; [done | done | | done].
      simpl. by rewrite List_filter_all, writelines_readlines.
    + assert (Hd : node_at t (dirname file) = Some Dir).
      { destruct (dirname_nonempty file Hne) as (d & n & Efile & ->).
        eapply well_formed_parent; [done |].
        rewrite <- Efile, node_at_lookup by done. done. }
      eexists. split_and!.
      * run_with ltac:(apply write_text_run; cbn [tree];
                       [by rewrite node_at_lookup, E by done | done]).
        done.
      * by eapply well_formed_write.
      * by rewrite lookup_insert_eq.
      * intros q Hq. by rewrite lookup_insert_ne.
  - exists t. rewrite app_nil_r. by split_and!.
Qed.

End rollback_facts.

Section rollback_script.

Variable ROOT_DIR : string.

Lemma rollback_run (t : gmap (list string) node) :
  well_formed t →
  (∀ c, node_at t openapi_dir ≠ Some (File c)) →
  node_at t redoc_leaf_file ≠ Some Dir →
  (∀ c, node_at t redoc_assets_dir ≠ Some (File c)) →
  t !! routes_file ≠ Some Dir →
  t !! configure_file ≠ Some Dir →
  ∃ t',
    run (rollback_redoc_setup ROOT_DIR) t
    = (Returned (),
       World t' ([nl +:+ "Rollback Actions Performed:"]
                 ++ ((λ action, "- " +:+ action) <$> rollback_actions ROOT_DIR t)
                 ++ [nl +:+ "Rollback complete. Your project has been restored to its previous state."]))
    ∧ well_formed t'
    ∧ (∀ q, openapi_dir `prefix_of` q ∨ redoc_assets_dir `prefix_of` q
            ∨ q = redoc_leaf_file → t' !! q = None)
    ∧ t' !! routes_file = clean_node Doc.rollback_routes_cleaned <$> t !! routes_file
    ∧ t' !! configure_file
      = clean_node Doc.rollback_configure_cleaned <$> t !! configure_file
    ∧ (∀ q, ¬ openapi_dir `prefix_of` q → ¬ redoc_assets_dir `prefix_of` q →
            q ≠ redoc_leaf_file → q ≠ routes_file → q ≠ configure_file →
            t' !! q = t !! q).
Proof.
  intros Hwf Ho Hl Ha Hr Hc.
  assert (Ndr : ∀ d, d `prefix_of` routes_file → d = openapi_dir ∨ d = redoc_assets_dir
                     → False).
  { intros d [k E] [-> | ->]; discriminate E. }
  assert (Ndc : ∀ d, d `prefix_of` configure_file →
                     d = openapi_dir ∨ d = redoc_assets_dir → False).
  { intros d [k E] [-> | ->]; discriminate E. }
  assert (Ndl : ∀ d, d `prefix_of` redoc_leaf_file →
                     d = openapi_dir ∨ d = redoc_assets_dir → False).
  { intros d [k E] [-> | ->]; discriminate E. }
  assert (Nda : ¬ openapi_dir `prefix_of` redoc_assets_dir).
  { intros [k E]. discriminate E. }
  destruct (rollback_dir_run ROOT_DIR t openapi_dir [] [] Hwf Ho)
    as (t1 & Hrun1 & Hwf1 & H1).
  assert (E1 : ∀ q, ¬ openapi_dir `prefix_of` q → t1 !! q = t !! q).
  { intros q Hq. rewrite H1. by destruct (decide _). }
  destruct (rollback_leaf_file_run ROOT_DIR t1
              ([] ++ [(if path_exists t openapi_dir then "Removed directory: "
                       else "Directory not found (already removed): ")
                      +:+ show ROOT_DIR openapi_dir]) [] Hwf1)
    as (t2 & Hrun2 & Hwf2 & H2).
  { change (t1 !! redoc_leaf_file ≠ Some Dir). rewrite E1; [done |].
    intros H. by eapply Ndl; eauto. }
  assert (Ep1 : path_exists t1 redoc_leaf_file = path_exists t redoc_leaf_file).
  { unfold path_exists. change (node_at ?u redoc_leaf_file) with (u !! redoc_leaf_file).
    rewrite E1; [done |]. intros H. by eapply Ndl; eauto. }
  rewrite Ep1 in Hrun2.
  assert (E2 : ∀ q, q ≠ redoc_leaf_file → t2 !! q = t1 !! q).
  { intros q Hq. rewrite H2. by destruct (decide _). }
  destruct (rollback_dir_run ROOT_DIR t2 redoc_assets_dir
              (([] ++ [(if path_exists t openapi_dir then "Removed directory: "
                        else "Directory not found (already removed): ")
                       +:+ show ROOT_DIR openapi_dir])
               ++ [(if path_exists t redoc_leaf_file then "Removed file: "
                    else "File not found (already removed): ")
                   +:+ show ROOT_DIR redoc_leaf_file]) [] Hwf2)
    as (t3 & Hrun3 & Hwf3 & H3).
  { intros c. change (t2 !! redoc_assets_dir ≠ Some (File c)).
    rewrite E2 by done. rewrite E1 by done. apply Ha. }
  assert (Ep2 : path_exists t2 redoc_assets_dir = path_exists t redoc_assets_dir).
  { unfold path_exists.
    change (node_at ?u redoc_assets_dir) with (u !! redoc_assets_dir).
    rewrite E2 by done. by rewrite E1. }
  rewrite Ep2 in Hrun3.
  assert (E3 : ∀ q, ¬ redoc_assets_dir `prefix_of` q → t3 !! q = t2 !! q).
  { intros q Hq. rewrite H3. by destruct (decide _). }
  assert (R3 : t3 !! routes_file = t !! routes_file).
  { rewrite E3, E2, E1; [done | | done |]; intros H; by eapply Ndr; eauto. }
  assert (C3 : t3 !! configure_file = t !! configure_file).
  { rewrite E3, E2, E1; [done | | done |]; intros H; by eapply Ndc; eauto. }
  set (acts3 := (([] ++ [(if path_exists t openapi_dir then "Removed directory: "
                          else "Directory not found (already removed): ")
                         +:+ show ROOT_DIR openapi_dir])
                 ++ [(if path_exists t redoc_leaf_file then "Removed file: "
                      else "File not found (already removed): ")
                     +:+ show ROOT_DIR redoc_leaf_file])
                ++ [(if path_exists t redoc_assets_dir then "Removed directory: "
                     else "Directory not found (already removed): ")
                    +:+ show ROOT_DIR redoc_assets_dir]) in *.
  destruct (rollback_clean_run t3 routes_file
              (λ line, negb (contains "openapi.yml" line) && negb (contains "docs" line))
              "Cleaned routes.swift of references to OpenAPI or ReDoc routes"
              "No OpenAPI or ReDoc references found in routes.swift"
              acts3 [] Hwf3)
    as (t4 & Hrun4 & Hwf4 & R4 & E4); [done | by rewrite R3 |].
  rewrite R3 in Hrun4, R4.
  set (acts4 := acts3 ++ match t !! routes_file with
                         | Some (File text) => _
                         | _ => []
                         end) in *.
  destruct (rollback_clean_run t4 configure_file
              (λ line, negb (contains ".leaf" line))
              "Cleaned configure.swift of Leaf configuration"
              "No Leaf configuration found in configure.swift"
              acts4 [] Hwf4)
    as (t5 & Hrun5 & Hwf5 & C5 & E5); [done | by rewrite E4, C3 |].
  rewrite E4, C3 in Hrun5, C5 by done.
  exists t5. split_and!.
  - unfold run, rollback_redoc_setup.
    run_with ltac:(exact Hrun1).
    run_with ltac:(exact Hrun2).
    run_with ltac:(exact Hrun3).
    run_with ltac:(exact Hrun4).
    run_with ltac:(exact Hrun5).
    run_with ltac:(apply print_run). cbn [tree stdout].
    run_with ltac:(apply for_each_print). cbn [tree stdout].
    rewrite print_run. cbn [tree stdout].
    unfold acts4, acts3, rollback_actions, show. by rewrite <- !app_assoc.
  - done.
  - intros q Hq.
    assert (Hqr : q ≠ routes_file).
    { intros ->. destruct Hq as [H|[H|H]]; [| | done]; by eapply Ndr; eauto. }
    assert (Hqc : q ≠ configure_file).
    { intros ->. destruct Hq as [H|[H|H]]; [| | done]; by eapply Ndc; eauto. }
    rewrite E5, E4 by done. rewrite H3.
    destruct (decide (redoc_assets_dir `prefix_of` q)) as [Hqa|Hqa]; [done |].
    rewrite H2. destruct (decide (q = redoc_leaf_file)) as [Hql|Hql]; [done |].
    rewrite H1. destruct (decide (openapi_dir `prefix_of` q)) as [Hqo|Hqo]; [done |].
    by destruct Hq as [?|[?|?]].
  - by rewrite E5.
  - done.
  - intros q Hqo Hqa Hql Hqr Hqc.
    by rewrite E5, E4, E3, E2, E1.
Qed.

Lemma forallb_List_filter {A : Type} (f : A → bool) (l : list A) :
  forallb f (List.filter f l) = true.
Proof.
  induction l as [|x l IH]; [done |]. simpl.
  destruct (f x) eqn:E; [|done]. simpl. by rewrite E, IH.
Qed.

Lemma readlines_cleaned (f : string → bool) (text : string) :
  readlines (writelines (List.filter f (readlines text)))
  = List.filter f (readlines text).
Proof. apply readlines_writelines, lines_ok_filter, lines_ok_readlines. Qed.

Lemma clean_node_idem (f : string → bool) (x : node) :
  clean_node (List.filter f) (clean_node (List.filter f) x)
  = clean_node (List.filter f) x.
Proof.
  destruct x as [text|]; [|done]. simpl.
  by rewrite readlines_cleaned, List_filter_idem.
Qed.

(** X10. [rollback_redoc_setup] on a well-formed tree in which the two
    directories it removes are not files, and redoc.leaf and the two
    sources are not directories: the script ends normally; nothing is
    left at or below Resources/OpenAPI and Public/redoc, nor of
    redoc.leaf; routes.swift and configure.swift, where they exist, keep
    the lines without the patterns of their filter; every other path is
    as it was; and the report lists one action for each of the three
    removals and each source that exists. *)
Theorem rollback_redoc_setup_removes (t : gmap (list string) node) :
  well_formed t →
  (∀ c, node_at t openapi_dir ≠ Some (File c)) →
  node_at t redoc_leaf_file ≠ Some Dir →
  (∀ c, node_at t redoc_assets_dir ≠ Some (File c)) →
  t !! routes_file ≠ Some Dir →
  t !! configure_file ≠ Some Dir →
  ∃ t',
    run (rollback_redoc_setup ROOT_DIR) t
    = (Returned (),
       World t' ([nl +:+ "Rollback Actions Performed:"]
                 ++ ((λ action, "- " +:+ action) <$> rollback_actions ROOT_DIR t)
                 ++ [nl +:+ "Rollback complete. Your project has been restored to its previous state."]))
    ∧ well_formed t'
    ∧ (∀ q, openapi_dir `prefix_of` q ∨ redoc_assets_dir `prefix_of` q
            ∨ q = redoc_leaf_file → t' !! q = None)
    ∧ t' !! routes_file = clean_node Doc.rollback_routes_cleaned <$> t !! routes_file
    ∧ t' !! configure_file
      = clean_node Doc.rollback_configure_cleaned <$> t !! configure_file
    ∧ (∀ q, ¬ openapi_dir `prefix_of` q → ¬ redoc_assets_dir `prefix_of` q →
            q ≠ redoc_leaf_file → q ≠ routes_file → q ≠ configure_file →
            t' !! q = t !! q).
Proof. apply rollback_run. Qed.

(** X11. A second run of [rollback_redoc_setup] changes nothing: it
    finds the two directories and redoc.leaf already removed and no line
    to drop in the two sources. *)
Theorem rollback_redoc_setup_twice (t : gmap (list string) node) :
  well_formed t →
  (∀ c, node_at t openapi_dir ≠ Some (File c)) →
  node_at t redoc_leaf_file ≠ Some Dir →
  (∀ c, node_at t redoc_assets_dir ≠ Some (File c)) →
  t !! routes_file ≠ Some Dir →
  t !! configure_file ≠ Some Dir →
  ∃ t' out,
    run (rollback_redoc_setup ROOT_DIR) t = (Returned (), World t' out)
    ∧ run (rollback_redoc_setup ROOT_DIR) t'
      = (Returned (),
         World t'
           ([nl +:+ "Rollback Actions Performed:";
             "- Directory not found (already removed): " +:+ show ROOT_DIR openapi_dir;
             "- File not found (already removed): " +:+ show ROOT_DIR redoc_leaf_file;
             "- Directory not found (already removed): "
               +:+ show ROOT_DIR redoc_assets_dir]
            ++ (if isfile t routes_file
                then ["- No OpenAPI or ReDoc references found in routes.swift"]
                else [])
            ++ (if isfile t configure_file
                then ["- No Leaf configuration found in configure.swift"]
                else [])
            ++ [nl +:+ "Rollback complete. Your project has been restored to its previous state."])).
Proof.
  intros Hwf Ho Hl Ha Hr Hc.
  destruct (rollback_run t Hwf Ho Hl Ha Hr Hc)
    as (t' & Hrun & Hwf' & Hgone & Hroutes & Hconf & Hrest).
  assert (Go : t' !! openapi_dir = None) by (apply Hgone; by left).
  assert (Ga : t' !! redoc_assets_dir = None) by (apply Hgone; right; by left).
  assert (Gl : t' !! redoc_leaf_file = None) by (apply Hgone; right; by right).
  destruct (rollback_run t' Hwf') as (t'' & Hrun' & _ & Hgone' & Hroutes' & Hconf' & Hrest').
  { intros c. change (t' !! openapi_dir ≠ Some (File c)). by rewrite Go. }
  { change (t' !! redoc_leaf_file ≠ Some Dir). by rewrite Gl. }
  { intros c. change (t' !! redoc_assets_dir ≠ Some (File c)). by rewrite Ga. }
  { rewrite Hroutes. by destruct (t !! routes_file) as [[]|]. }
  { rewrite Hconf. by destruct (t !! configure_file) as [[]|]. }
  assert (Heq : t'' = t').
  { apply map_eq. intros q.
    destruct (decide (openapi_dir `prefix_of` q ∨ redoc_assets_dir `prefix_of` q
                      ∨ q = redoc_leaf_file)) as [Hq|Hq].
    { by rewrite Hgone, Hgone'. }
    destruct (decide (q = routes_file)) as [->|Hqr].
    { rewrite Hroutes', Hroutes. destruct (t !! routes_file) as [x|]; [|done].
      simpl. f_equal. apply clean_node_idem. }
    destruct (decide (q = configure_file)) as [->|Hqc].
    { rewrite Hconf', Hconf. destruct (t !! configure_file) as [x|]; [|done].
      simpl. f_equal. apply clean_node_idem. }
    apply Hrest'; tauto. }
  exists t'. eexists. split; [exact Hrun |].
  rewrite Hrun', Heq. do 2 f_equal.
  unfold rollback_actions, path_exists.
  change (node_at t' openapi_dir) with (t' !! openapi_dir).
  change (node_at t' redoc_leaf_file) with (t' !! redoc_leaf_file).
  change (node_at t' redoc_assets_dir) with (t' !! redoc_assets_dir).
  rewrite Go, Ga, Gl, Hroutes, Hconf. unfold isfile.
  change (node_at t routes_file) with (t !! routes_file).
  change (node_at t configure_file) with (t !! configure_file).
  destruct (t !! routes_file) as [[r|]|]; [| done |];
    (destruct (t !! configure_file) as [[c|]|]; [| done |]); simpl;
    unfold Doc.rollback_routes_cleaned, Doc.rollback_configure_cleaned;
    rewrite ?readlines_cleaned, ?forallb_List_filter; done.
Qed.

End rollback_script.

Section substring_facts.

Lemma append_eq_append (a b c d : string) :
  a +:+ b = c +:+ d →
  (∃ k, a = c +:+ k ∧ d = k +:+ b) ∨ (∃ k, c = a +:+ k ∧ b = k +:+ d).
Proof.
  revert c. induction a as [|x a IH]; intros c H.
  - right. exists c. by rewrite !append_nil_l in *.
  - destruct c as [|y c].
    + left. exists (String x a). by rewrite append_nil_l in *.
    + rewrite !append_cons in H. injection H as -> H.
      destruct (IH c H) as [(k & -> & ->) | (k & -> & ->)].
      * left. by exists k.
      * right. by exists k.
Qed.

Lemma Substring_trans (p m l : string) :
  Substring p m → Substring m l → Substring p l.
Proof.
  intros (a & b & ->) (c & d & ->). exists (c +:+ a), (b +:+ d).
  by rewrite !append_assoc.
Qed.

(** A part of [a +:+ b] lies in [a], lies in [b], or has a piece at the
    end of [a] and the rest at the start of [b]. *)
Lemma Substring_append (m a b : string) :
  Substring m (a +:+ b) →
  Substring m a ∨ Substring m b
  ∨ (∃ x y a0, x ≠ "" ∧ m = x +:+ y ∧ a = a0 +:+ x).
Proof.
  intros (u & v & H).
  destruct (append_eq_append _ _ _ _ H) as [(k & -> & Hk) | (k & -> & ->)].
  - symmetry in Hk. destruct (append_eq_append _ _ _ _ Hk)
      as [(k' & -> & ->) | (k' & -> & ->)].
    + left. by exists u, k'.
    + destruct k as [|c k].
      * right. left. exists "", v. by rewrite append_nil_l in *.
      * right. right. exists (String c k), k', u. done.
  - right. left. by exists k, v.
Qed.

Lemma full_line_suffix (a0 x : string) :
  full_line (a0 +:+ x) = true → x ≠ "" → Substring nl x.
Proof.
  intros H Hx. induction a0 as [|c a0 IH].
  - rewrite append_nil_l in H. clear Hx. induction x as [|c x IH]; [done |].
    destruct x as [|d x'].
    + simpl in H. apply Ascii.eqb_eq in H as ->. by exists "", "".
    + rewrite full_line_cons in H by done.
      apply andb_true_iff in H as [_ H].
      destruct (IH H) as (a & b & E). exists (String c a), b.
      by rewrite append_cons, <- E.
  - rewrite append_cons, full_line_cons in H.
    + apply andb_true_iff in H as [_ H]. by apply IH.
    + destruct a0; [by rewrite append_nil_l | done].
Qed.

(** A text without a line break that occurs in a file occurs in one of
    its lines. *)
Lemma Substring_writelines (m : string) (ls : list string) :
  lines_ok ls = true → ¬ Substring nl m → Substring m (writelines ls) →
  m = "" ∨ ∃ l, l ∈ ls ∧ Substring m l.
Proof.
  intros Hok Hnl. induction ls as [|l ls IH]; intros H.
  - left. destruct H as (a & b & H). simpl in H.
    destruct a; [by destruct m | done].
  - destruct (decide (ls = [])) as [->|Hls].
    + right. exists l. split; [left |].
      change (writelines [l]) with (l +:+ "") in H. by rewrite append_nil_r in H.
    + rewrite lines_ok_cons in Hok by done.
      apply andb_true_iff in Hok as [Hl Hok].
      rewrite writelines_cons in H.
      destruct (Substring_append _ _ _ H) as [H1 | [H2 | (x & y & a0 & Hx & -> & ->)]].
      * right. exists l. split; [left | done].
      * destruct (IH Hok H2) as [->|(l' & Hin & Hl')]; [by left |].
        right. exists l'. split; [by right | done].
      * destruct Hnl. apply (Substring_trans _ x).
        -- by eapply full_line_suffix.
        -- by exists "", y.
Qed.

(** After the lines that contain [p] are dropped, the file contains no
    text [m] without line break of which [p] is a part. *)
Lemma cleaned_not_contains (p m text : string) (f : string → bool) :
  (∀ l, f l = true → contains p l = false) →
  Substring p m → m ≠ "" → ¬ Substring nl m →
  contains m (writelines (List.filter f (readlines text))) = false.
Proof.
  intros Hf Hpm Hm Hnl. apply contains_false. intros H.
  apply Substring_writelines in H as [->|(l & Hin & Hl)]; [done | | | done].
  - apply list_elem_of_In, filter_In in Hin as [_ Hfl].
    apply Hf, contains_false in Hfl. apply Hfl. by eapply Substring_trans.
  - apply lines_ok_filter, lines_ok_readlines.
Qed.

End substring_facts.

Section rollback_validate.

Variable ROOT_DIR : string.

(** X12. After [rollback_redoc_setup], [validate_redoc_setup] finds
    nothing of what it looks for, except the directory Resources/Views
    when it was there: it leaves the tree alone and prints the failure
    line followed by one line for each of the two directories and the
    four files as missing, for both routes when routes.swift exists, and
    for the Leaf configuration when configure.swift exists. *)
Theorem rollback_then_validate (t : gmap (list string) node) :
  well_formed t →
  (∀ c, node_at t openapi_dir ≠ Some (File c)) →
  node_at t redoc_leaf_file ≠ Some Dir →
  (∀ c, node_at t redoc_assets_dir ≠ Some (File c)) →
  t !! routes_file ≠ Some Dir →
  t !! configure_file ≠ Some Dir →
  ∃ t' out,
    run (rollback_redoc_setup ROOT_DIR) t = (Returned (), World t' out)
    ∧ run (validate_redoc_setup ROOT_DIR) t'
      = (Returned (),
         World t'
           ("Validation Failed:"
            :: ((λ result, "- " +:+ result)
                <$> (["Missing directory: " +:+ show ROOT_DIR openapi_dir]
            ++ unless (isdir t views_dir)
                 ("Missing directory: " +:+ show ROOT_DIR views_dir)
            ++ ["Missing directory: " +:+ show ROOT_DIR redoc_assets_dir;
                "Missing file: " +:+ show ROOT_DIR openapi_file;
                "Missing file: " +:+ show ROOT_DIR redoc_leaf_file;
                "Missing file: " +:+ show ROOT_DIR redoc_css_file;
                "Missing file: " +:+ show ROOT_DIR redoc_js_file]
            ++ (if isfile t routes_file
                then ["Route for '/openapi.yml' not found in: "
                        +:+ show ROOT_DIR routes_file;
                      "Route for '/docs' not found in: "
                        +:+ show ROOT_DIR routes_file]
                else ["Missing file: " +:+ show ROOT_DIR routes_file])
            ++ (if isfile t configure_file
                then ["Leaf configuration not found in: "
                        +:+ show ROOT_DIR configure_file]
                else ["Missing file: " +:+ show ROOT_DIR configure_file]))))).
Proof.
  intros Hwf Ho Hl Ha Hr Hc.
  destruct (rollback_run ROOT_DIR t Hwf Ho Hl Ha Hr Hc)
    as (t' & Hrun & Hwf' & Hgone & Hroutes & Hconf & Hrest).
  exists t'. eexists. split; [exact Hrun |].
  unfold run. rewrite validate_redoc_setup_run. cbn [tree stdout app].
  match goal with
  | |- (_, World _ (validation_report _)) = (_, World _ (_ :: (_ <$> ?l))) =>
      assert (Hdis : discrepancies ROOT_DIR t' = l); [| by rewrite Hdis]
  end.
  assert (Gone : ∀ q, openapi_dir `prefix_of` q ∨ redoc_assets_dir `prefix_of` q
                      ∨ q = redoc_leaf_file → q ≠ [] → node_at t' q = None).
  { intros q Hq Hne. rewrite node_at_lookup by done. by apply Hgone. }
  unfold discrepancies, isdir, isfile.
  rewrite (Gone openapi_dir), (Gone redoc_assets_dir), (Gone openapi_file),
    (Gone redoc_leaf_file), (Gone redoc_css_file), (Gone redoc_js_file);
    try done.
  2: { right. left. by exists ["redoc.standalone.js"]. }
  2: { right. left. by exists ["redoc.standalone.css"]. }
  2: { by right; right. }
  2: { left. by exists ["openapi.yml"]. }
  2: { right. by left. }
  2: { by left. }
  assert (Hviews : node_at t' views_dir = node_at t views_dir).
  { change (t' !! views_dir = t !! views_dir). apply Hrest; try done.
    - intros [k E]. discriminate E.
    - intros [k E]. discriminate E. }
  rewrite Hviews. cbn [unless app]. do 7 f_equal.
  unfold routes_discrepancies, configure_discrepancies.
  change (node_at t' routes_file) with (t' !! routes_file).
  change (node_at t' configure_file) with (t' !! configure_file).
  change (node_at t routes_file) with (t !! routes_file).
  change (node_at t configure_file) with (t !! configure_file).
  rewrite Hroutes, Hconf.
  assert (Hnl : ∀ m, contains nl m = false → ¬ Substring nl m).
  { intros m. apply contains_false. }
  f_equal.
  - destruct (t !! routes_file) as [[text|]|]; [| done | done]. simpl.
    unfold Doc.rollback_routes_cleaned.
    rewrite (cleaned_not_contains "openapi.yml" openapi_route);
      [| | by apply contains_spec | done | by apply Hnl].
    2: { intros l [H _]%andb_true_iff. by apply negb_true_iff in H. }
    rewrite (cleaned_not_contains "docs" docs_route);
      [| | by apply contains_spec | done | by apply Hnl].
    2: { intros l [_ H]%andb_true_iff. by apply negb_true_iff in H. }
    done.
  - destruct (t !! configure_file) as [[text|]|]; [| done | done]. simpl.
    unfold Doc.rollback_configure_cleaned.
    rewrite (cleaned_not_contains ".leaf" leaf_config);
      [| | by apply contains_spec | done | by apply Hnl].
    2: { intros l H. by apply negb_true_iff in H. }
    done.
Qed.

End rollback_validate.

(** ** Steps 1 and 2 of fix_resources.py *)

Section flat_facts.

Variable ROOT_DIR : string.



End flat_facts.

(** ** The loops over the lines of Package.swift *)

Section package_loops.

Lemma exclusions_loop_at (pre : list string) (line : string) (post : list string)
    (updated : bool) :
  Forall (λ l, ¬ Substring "exclude: [" l) pre →
  Substring "exclude: [" line →
  Doc.exclusions_loop (pre ++ line :: post) updated
  = if updated then pre ++ line :: post
    else pre ++ line :: (Doc.exclude_line <$> Doc.EXCLUDE_FILES) ++ post.
Proof.
  intros Hpre Hline. destruct updated; [apply exclusions_loop_done |].
  induction Hpre as [|x pre Hx _ IH].
  - simpl. apply contains_spec in Hline. rewrite Hline. simpl.
    by rewrite exclusions_loop_done.
  - simpl. apply contains_false in Hx. rewrite Hx. simpl.
    f_equal. exact IH.
Qed.

(** X14. The exclusions loop of the three fix scripts puts the two
    entries right after the first line that contains the opener and
    nowhere else: the lines before and after it, later openers among
    them, are kept as they are and in their order. *)
Theorem add_exclusions_after_first_opener (pre : list string) (line : string)
    (post : list string) :
  Forall (λ l, ¬ Substring "exclude: [" l) pre →
  Substring "exclude: [" line →
  Doc.add_exclusions (pre ++ line :: post)
  = pre ++ line :: (Doc.exclude_line <$> Doc.EXCLUDE_FILES) ++ post.
Proof. intros Hpre Hline. by apply (exclusions_loop_at pre line post false). Qed.

Lemma resources_loop_keep_at (pre : list string) (line : string)
    (post : list string) :
  Forall (λ l, ¬ Substring "resources: [" l) pre →
  Substring "resources: [" line →
  Doc.resources_loop (λ _, false) (pre ++ line :: post) false
  = pre ++ line :: Doc.process_views :: Doc.process_openapi :: post.
Proof.
  intros Hpre Hline. induction Hpre as [|x pre Hx _ IH].
  - simpl. apply contains_spec in Hline. rewrite Hline. simpl.
    rewrite resources_loop_done. do 3 f_equal.
    apply List_filter_all, forallb_forall. by intros.
  - simpl. apply contains_false in Hx. rewrite Hx. simpl.
    f_equal. exact IH.
Qed.

Lemma resources_loop_at (skip : string → bool) (doc pre : list string)
    (line : string) (post : list string) :
  List.filter (λ l, negb (skip l)) doc = pre ++ line :: post →
  Forall (λ l, ¬ Substring "resources: [" l) pre →
  Substring "resources: [" line →
  Doc.resources_loop skip doc false
  = pre ++ line :: Doc.process_views :: Doc.process_openapi :: post.
Proof.
  intros Hkept Hpre Hline.
  rewrite resources_loop_filter, Hkept. by apply resources_loop_keep_at.
Qed.

(** X15. The resources loop of the three fix scripts, in closed form:
    the lines its test skips are dropped, and the two entries are put
    right after the first remaining line that contains the opener, a
    skipped opener line not counting. *)
Theorem update_resources_after_first_opener (doc pre : list string)
    (line : string) (post : list string) :
  Forall (λ l, ¬ Substring "resources: [" l) pre →
  Substring "resources: [" line →
  (List.filter (λ l, negb (Doc.nested.skip l)) doc = pre ++ line :: post →
   Doc.nested.update_resources doc
   = pre ++ line :: Doc.process_views :: Doc.process_openapi :: post)
  ∧ (List.filter (λ l, negb (Doc.flat.skip l)) doc = pre ++ line :: post →
     Doc.flat.update_resources doc
     = pre ++ line :: Doc.process_views :: Doc.process_openapi :: post)
  ∧ (List.filter (λ l, negb (Doc.conflicts.skip l)) doc = pre ++ line :: post →
     Doc.conflicts.update_resources doc
     = pre ++ line :: Doc.process_views :: Doc.process_openapi :: post).
Proof.
  intros Hpre Hline. split_and!; intros Hkept; by eapply resources_loop_at.
Qed.

Lemma List_filter_app {A : Type} (f : A → bool) (l k : list A) :
  List.filter f (l ++ k) = List.filter f l ++ List.filter f k.
Proof.
  induction l as [|x l IH]; [done |]. simpl. destruct (f x); [|done].
  simpl. by rewrite IH.
Qed.

Lemma resources_loop_again (skip : string → bool) (doc pre : list string)
    (line : string) (post : list string) :
  skip Doc.process_views = false → skip Doc.process_openapi = false →
  List.filter (λ l, negb (skip l)) doc = pre ++ line :: post →
  Forall (λ l, ¬ Substring "resources: [" l) pre →
  Substring "resources: [" line →
  Doc.resources_loop skip (Doc.resources_loop skip doc false) false
  = pre ++ line :: Doc.process_views :: Doc.process_openapi
        :: Doc.process_views :: Doc.process_openapi :: post.
Proof.
  intros Hv Ho Hkept Hpre Hline.
  rewrite (resources_loop_at skip doc pre line post) by done.
  apply (resources_loop_at skip _ pre line); [| done | done].
  assert (Hid : List.filter (λ l, negb (skip l)) (pre ++ line :: post)
                = pre ++ line :: post).
  { rewrite <- Hkept. apply List_filter_idem. }
  rewrite List_filter_app in Hid |- *. simpl in Hid |- *.
  assert (Hl : skip line = false).
  { assert (Hin : In line (List.filter (λ l, negb (skip l)) doc)).
    { rewrite Hkept. apply in_app_iff. right. by left. }
    apply filter_In in Hin as [_ H]. by apply negb_true_iff in H. }
  rewrite Hl in Hid |- *. rewrite Hv, Ho. simpl in *.
  apply app_inj_1 in Hid as [Hid1 Hid2].
  - injection Hid2 as Hid2. by rewrite Hid1, Hid2.
  - assert (Hpre' : List.filter (λ l, negb (skip l)) pre = pre).
    { apply List_filter_all. apply forallb_forall. intros x Hx.
      assert (Hin : In x (List.filter (λ l, negb (skip l)) doc)).
      { rewrite Hkept. apply in_app_iff. by left. }
      by apply filter_In in Hin as [_ H]. }
    by rewrite Hpre'.
Qed.

(** X16. A second run of the resources loop of fix_nested_resources.py
    and of fix_resources.py writes the two entries once more after the
    same opener line: the lines the loop inserts are not among those its
    test skips. *)
Theorem update_resources_twice (doc pre : list string) (line : string)
    (post : list string) :
  Forall (λ l, ¬ Substring "resources: [" l) pre →
  Substring "resources: [" line →
  (List.filter (λ l, negb (Doc.nested.skip l)) doc = pre ++ line :: post →
   Doc.nested.update_resources (Doc.nested.update_resources doc)
   = pre ++ line :: Doc.process_views :: Doc.process_openapi
         :: Doc.process_views :: Doc.process_openapi :: post)
  ∧ (List.filter (λ l, negb (Doc.flat.skip l)) doc = pre ++ line :: post →
     Doc.flat.update_resources (Doc.flat.update_resources doc)
     = pre ++ line :: Doc.process_views :: Doc.process_openapi
           :: Doc.process_views :: Doc.process_openapi :: post).
Proof.
  intros Hpre Hline. split; intros Hkept.
  - by apply resources_loop_again.
  - by apply resources_loop_again.
Qed.

End package_loops.

(** ** setup_redoc_vapor.py *)

Section setup_facts.

Variable ROOT_DIR : string.

Lemma well_formed_put_file (t : gmap (list string) node) (p : list string)
    (content : string) :
  well_formed t → node_at t p ≠ Some Dir → node_at t (dirname p) = Some Dir →
  well_formed (<[p := File content]> t).
Proof.
  intros Hwf Hp Hd.
  assert (Hne : p ≠ []) by (intros ->; by apply Hp).
  destruct (dirname_nonempty p Hne) as (d & n & -> & Ed). rewrite Ed in Hd.
  apply well_formed_insert; [done | done | done |].
  intros c _ m y Hm. apply Hp.
  eapply well_formed_parent; [done |]. by rewrite node_at_snoc.
Qed.

Lemma ne_of_not_elem_of {A : Type} (q x : A) (l : list A) :
  q ∉ l → x ∈ l → x ≠ q.
Proof. by intros Hq Hx ->. Qed.

Lemma dirs_made_refl (ds : list (list string)) (t : gmap (list string) node) :
  dirs_made ds t t.
Proof. intros p. by left. Qed.

Lemma makedirs_among (ds : list (list string)) (t u : gmap (list string) node)
    (d : list string) (out : list string) :
  well_formed u → dirs_made ds t u → d ∈ ds →
  (∀ q c, q `prefix_of` d → node_at t q ≠ Some (File c)) →
  ∃ u', makedirs d (World u out) = (Returned (), World u' out)
        ∧ well_formed u' ∧ dirs_made ds t u' ∧ node_at u' d = Some Dir
        ∧ (∀ p, node_at u p = Some Dir → node_at u' p = Some Dir).
Proof.
  intros Hwf Hm Hd Hnf.
  destruct (makedirs_run d (World u out)) as (u' & Hrun & Hwf' & Hadd & Hdir);
    [done | | ].
  - cbn [tree]. intros q c Hq Hqc. destruct q as [|x q]; [done |].
    change (u !! (x :: q) = Some (File c)) in Hqc.
    destruct (Hm (x :: q)) as [E | (_ & E & _)]; rewrite E in Hqc; [| done].
    by apply (Hnf (x :: q) c).
  - cbn [tree stdout] in *. exists u'. split_and!; [done | done | | done |].
    + intros p. destruct (Hadd p) as [E | (E1 & E2 & E3)].
      * rewrite E. apply Hm.
      * destruct (Hm p) as [E' | (E1' & E2' & _)]; [| congruence].
        right. split_and!; [congruence | done | eauto].
    + intros p Hp. destruct p as [|x p]; [done |].
      change (u !! (x :: p) = Some Dir) in Hp.
      change (u' !! (x :: p) = Some Dir).
      destruct (Hadd (x :: p)) as [E | (E1 & _)]; congruence.
Qed.

Lemma ensure_content_run (t : gmap (list string) node) (f : list string)
    (content created current : string) (out : list string) :
  node_at t f ≠ Some Dir → node_at t (dirname f) = Some Dir →
  ensure_content ROOT_DIR f content created current (World t out)
  = (Returned (),
     World (<[f := File content]> t)
       (out ++ [(if bool_decide (node_at t f = Some (File content))
                 then current else created) +:+ show ROOT_DIR f])).
Proof.
  intros Hf Hd. unfold ensure_content. run_get.
  assert (Hne : f ≠ []) by (intros ->; by apply Hf).
  destruct (node_at t f) as [[text|]|] eqn:E; [| done |].
  - rewrite (path_exists_Some _ _ _ E). cbn [negb].
    run_with ltac:(erewrite bind_returned; [done | by apply read_text_run]).
    destruct (decide (text = content)) as [->|Hne'].
    + rewrite bool_decide_false by (by intros H; apply H).
      rewrite bool_decide_true by done.
      rewrite insert_id; [done |]. by rewrite <- node_at_lookup.
    + rewrite bool_decide_true by done.
      rewrite bool_decide_false by congruence.
      run_with ltac:(apply write_text_run; cbn [tree]; [by rewrite E | done]).
      done.
  - rewrite (proj2 (path_exists_false _ _) E). cbn [negb].
    run_with ltac:(done).
    rewrite bool_decide_false by done.
    run_with ltac:(apply write_text_run; cbn [tree]; [by rewrite E | done]).
    done.
Qed.

Lemma download_run (requests_get : string → M (nat * string))
    (u : gmap (list string) node) (file_name url : string)
    (response : nat * string) (out : list string) :
  well_formed u → node_at u redoc_assets_dir = Some Dir →
  (u !! (redoc_assets_dir ++ [file_name]) = None →
   ∀ w, requests_get url w = (Returned response, w)) →
  ∃ u' msgs,
    download ROOT_DIR requests_get file_name url (World u out)
    = (Returned (), World u' (out ++ msgs))
    ∧ well_formed u'
    ∧ u' !! (redoc_assets_dir ++ [file_name])
      = match u !! (redoc_assets_dir ++ [file_name]) with
        | Some x => Some x
        | None => if (response.1 =? 200)%nat then Some (File response.2) else None
        end
    ∧ (∀ q, q ≠ redoc_assets_dir ++ [file_name] → u' !! q = u !! q)
    ∧ (is_Some (u !! (redoc_assets_dir ++ [file_name])) →
       msgs = [file_name +:+ " already exists at: "
               +:+ show ROOT_DIR (redoc_assets_dir ++ [file_name])])
    ∧ (u !! (redoc_assets_dir ++ [file_name]) = None → response.1 ≠ 200 →
       msgs = ["Downloading " +:+ file_name +:+ "...";
               "Failed to download " +:+ file_name +:+ " from " +:+ url]).
Proof.
  intros Hwf Hd Hreq. unfold download. run_get.
  unfold path_exists. rewrite node_at_snoc.
  destruct (u !! (redoc_assets_dir ++ [file_name])) as [x|] eqn:E; cbn [negb].
  - exists u. eexists. split_and!; [by rewrite print_run | done | done | done | done | done].
  - run_with ltac:(apply print_run). run_with ltac:(by apply Hreq).
    cbn [tree stdout]. destruct (response.1 =? 200)%nat eqn:Es.
    + eexists. eexists. split_and!.
      * run_with ltac:(apply write_text_run; cbn [tree];
                       [by rewrite node_at_snoc, E | by rewrite dirname_snoc]).
        rewrite print_run. cbn [tree stdout]. by rewrite <- !app_assoc.
      * apply well_formed_put_file; [done | by rewrite node_at_snoc, E |
                                     by rewrite dirname_snoc].
      * by rewrite lookup_insert_eq.
      * intros q Hq. by rewrite lookup_insert_ne.
      * by intros [? ?].
      * intros _ H. by apply Nat.eqb_eq in Es.
    + exists u. eexists. split_and!.
      * rewrite print_run. cbn [tree stdout]. by rewrite <- !app_assoc.
      * done.
      * done.
      * done.
      * by intros [? ?].
      * done.
Qed.

Lemma download_existing (requests_get : string → M (nat * string))
    (u : gmap (list string) node) (file_name url : string) (out : list string) :
  is_Some (u !! (redoc_assets_dir ++ [file_name])) →
  download ROOT_DIR requests_get file_name url (World u out)
  = (Returned (),
     World u (out ++ [file_name +:+ " already exists at: "
                      +:+ show ROOT_DIR (redoc_assets_dir ++ [file_name])])).
Proof.
  intros [x E]. unfold download. run_get.
  unfold path_exists. rewrite node_at_snoc, E. done.
Qed.

Lemma not_prefix_of_dirs (q : list string) (ds : list (list string)) :
  forallb (λ d, bool_decide (¬ q `prefix_of` d)) ds = true →
  ¬ ∃ d, d ∈ ds ∧ q `prefix_of` d.
Proof.
  intros H (d & Hd & Hq). rewrite forallb_forall in H.
  apply list_elem_of_In, H, bool_decide_eq_true in Hd. done.
Qed.

Lemma dirs_made_lookup (ds : list (list string)) (t u : gmap (list string) node)
    (q : list string) :
  dirs_made ds t u →
  forallb (λ d, bool_decide (¬ q `prefix_of` d)) ds = true →
  u !! q = t !! q.
Proof.
  intros Hm Hq. destruct (Hm q) as [E | (_ & _ & H)]; [done |].
  by apply not_prefix_of_dirs in Hq.
Qed.

(** The run of [setup_vapor_redoc] when each request is answered. *)
Lemma setup_run (requests_get : string → M (nat * string))
    (response : string → nat * string) (t : gmap (list string) node) :
  well_formed t →
  (∀ d q c, d ∈ expected_dirs → q `prefix_of` d → node_at t q ≠ Some (File c)) →
  t !! openapi_file ≠ Some Dir →
  t !! redoc_leaf_file ≠ Some Dir →
  (∀ file_name url w,
     (file_name, url) ∈ redoc.redoc_files →
     t !! (redoc_assets_dir ++ [file_name]) = None →
     requests_get url w = (Returned (response url), w)) →
  ∃ t' out,
    run (setup_vapor_redoc ROOT_DIR requests_get) t
    = (Returned (), World t' (out ++ setup_complete))
    ∧ well_formed t'
    ∧ Forall (λ d, t' !! d = Some Dir) expected_dirs
    ∧ t' !! openapi_file = Some (File redoc.openapi_content)
    ∧ t' !! redoc_leaf_file = Some (File redoc.redoc_leaf_content)
    ∧ (∀ file_name url,
         (file_name, url) ∈ redoc.redoc_files →
         t' !! (redoc_assets_dir ++ [file_name])
         = match t !! (redoc_assets_dir ++ [file_name]) with
           | Some x => Some x
           | None => if ((response url).1 =? 200)%nat
                     then Some (File (response url).2) else None
           end
         ∧ (t !! (redoc_assets_dir ++ [file_name]) = None →
            (response url).1 ≠ 200 →
            ("Failed to download " +:+ file_name +:+ " from " +:+ url) ∈ out))
    ∧ (∀ q, q ∉ [openapi_file; redoc_leaf_file; redoc_css_file; redoc_js_file] →
         t' !! q = t !! q
         ∨ (t !! q = None ∧ t' !! q = Some Dir
            ∧ ∃ d, d ∈ expected_dirs ∧ q `prefix_of` d)).
Proof.
  intros Hwf Hnf Ho Hl Hreq.
  destruct (makedirs_among expected_dirs t t views_dir [])
    as (u1 & R1 & W1 & M1 & D1 & K1);
    [done | apply dirs_made_refl | in_list | intros q c; apply Hnf; in_list |].
  destruct (makedirs_among expected_dirs t u1 openapi_dir [])
    as (u2 & R2 & W2 & M2 & D2 & K2);
    [done | done | in_list | intros q c; apply Hnf; in_list |].
  destruct (makedirs_among expected_dirs t u2 redoc_assets_dir [])
    as (u3 & R3 & W3 & M3 & D3 & K3);
    [done | done | in_list | intros q c; apply Hnf; in_list |].
  assert (Dv : node_at u3 views_dir = Some Dir) by by apply K3, K2.
  assert (Do : node_at u3 openapi_dir = Some Dir) by by apply K3.
  assert (Eo : u3 !! openapi_file = t !! openapi_file)
    by by apply (dirs_made_lookup expected_dirs).
  assert (El : u3 !! redoc_leaf_file = t !! redoc_leaf_file)
    by by apply (dirs_made_lookup expected_dirs).
  assert (Ec : u3 !! redoc_css_file = t !! redoc_css_file)
    by by apply (dirs_made_lookup expected_dirs).
  assert (Ej : u3 !! redoc_js_file = t !! redoc_js_file)
    by by apply (dirs_made_lookup expected_dirs).
  set (u4 := <[openapi_file := File redoc.openapi_content]> u3).
  assert (W4 : well_formed u4).
  { apply well_formed_put_file; [done | | done].
    change (u3 !! openapi_file ≠ Some Dir). by rewrite Eo. }
  destruct (download_run requests_get u4 "redoc.standalone.css"
              "https://cdn.jsdelivr.net/npm/redoc/bundles/redoc.standalone.css"
              (response "https://cdn.jsdelivr.net/npm/redoc/bundles/redoc.standalone.css")
              ([] ++ [(if bool_decide (node_at u3 openapi_file
                                       = Some (File redoc.openapi_content))
                       then "OpenAPI spec placeholder already exists and is up-to-date: "
                       else "Created or updated OpenAPI spec placeholder at: ")
                      +:+ show ROOT_DIR openapi_file]))
    as (u5 & m5 & R5 & W5 & F5 & O5 & A5 & X5);
    [done | unfold u4; by rewrite node_at_insert_ne | |].
  { intros H w. apply (Hreq "redoc.standalone.css"); [in_list |].
    change (u4 !! redoc_css_file = None) in H.
    unfold u4 in H. rewrite lookup_insert_ne in H by done.
    rewrite Ec in H. exact H. }
  change (redoc_assets_dir ++ ["redoc.standalone.css"]) with redoc_css_file in *.
  destruct (download_run requests_get u5 "redoc.standalone.js"
              "https://cdn.jsdelivr.net/npm/redoc/bundles/redoc.standalone.js"
              (response "https://cdn.jsdelivr.net/npm/redoc/bundles/redoc.standalone.js")
              (([] ++ [(if bool_decide (node_at u3 openapi_file
                                        = Some (File redoc.openapi_content))
                        then "OpenAPI spec placeholder already exists and is up-to-date: "
                        else "Created or updated OpenAPI spec placeholder at: ")
                       +:+ show ROOT_DIR openapi_file]) ++ m5))
    as (u6 & m6 & R6 & W6 & F6 & O6 & A6 & X6); [done | | |].
  { change (u5 !! redoc_assets_dir = Some Dir). rewrite O5 by done.
    unfold u4. by rewrite lookup_insert_ne. }
  { intros H w. apply (Hreq "redoc.standalone.js"); [in_list |].
    change (u5 !! redoc_js_file = None) in H.
    rewrite O5 in H by done.
    unfold u4 in H. rewrite lookup_insert_ne in H by done.
    rewrite Ej in H. exact H. }
  change (redoc_assets_dir ++ ["redoc.standalone.js"]) with redoc_js_file in *.
  assert (E6 : ∀ q, q ≠ openapi_file → q ≠ redoc_css_file → q ≠ redoc_js_file →
                    u6 !! q = u3 !! q).
  { intros q Hq1 Hq2 Hq3. rewrite O6, O5 by done.
    unfold u4. by rewrite lookup_insert_ne. }
  set (u7 := <[redoc_leaf_file := File redoc.redoc_leaf_content]> u6).
  exists u7.
  exists ([(if bool_decide (node_at u3 openapi_file
                            = Some (File redoc.openapi_content))
            then "OpenAPI spec placeholder already exists and is up-to-date: "
            else "Created or updated OpenAPI spec placeholder at: ")
           +:+ show ROOT_DIR openapi_file]
          ++ m5 ++ m6
          ++ [(if bool_decide (node_at u6 redoc_leaf_file
                               = Some (File redoc.redoc_leaf_content))
               then "ReDoc Leaf template already exists and is up-to-date: "
               else "Created or updated ReDoc Leaf template at: ")
              +:+ show ROOT_DIR redoc_leaf_file]).
  split_and!.
  - unfold run, setup_vapor_redoc.
    run_with ltac:(exact R1). run_with ltac:(exact R2). run_with ltac:(exact R3).
    run_with ltac:(apply ensure_content_run;
                   [change (u3 !! openapi_file ≠ Some Dir); by rewrite Eo | done]).
    fold u4. cbn [for_each redoc.redoc_files fst snd].
    run_with ltac:(erewrite bind_returned; [| exact R5];
                   erewrite bind_returned; [| exact R6]; done).
    run_with ltac:(apply ensure_content_run;
                   [change (u6 !! redoc_leaf_file ≠ Some Dir);
                    rewrite E6 by done; by rewrite El
                   | change (u6 !! views_dir = Some Dir);
                     by rewrite E6 by done]).
    fold u7. do 2 run_with ltac:(apply print_run). rewrite print_run.
    cbn [tree stdout]. unfold setup_complete. f_equal. f_equal.
    simpl. rewrite <- !app_assoc. done.
  - apply well_formed_put_file; [done | |].
    + change (u6 !! redoc_leaf_file ≠ Some Dir).
      rewrite E6 by done. by rewrite El.
    + change (u6 !! views_dir = Some Dir). by rewrite E6 by done.
  - assert (H : ∀ d, length d = 2 → node_at u3 d = Some Dir → u7 !! d = Some Dir).
    { intros d Hd H. unfold u7.
      rewrite lookup_insert_ne by (by intros <-).
      rewrite E6 by (by intros ->). by destruct d. }
    repeat constructor; by apply H.
  - unfold u7. rewrite lookup_insert_ne by done.
    rewrite O6, O5 by done. unfold u4. by rewrite lookup_insert_eq.
  - unfold u7. by rewrite lookup_insert_eq.
  - intros file_name url Hin.
    apply elem_of_cons in Hin as [[= -> ->] | Hin];
      [| apply elem_of_cons in Hin as [[= -> ->] | Hin]; [| by apply elem_of_nil in Hin]].
    + change (redoc_assets_dir ++ ["redoc.standalone.css"]) with redoc_css_file.
      unfold u7. rewrite lookup_insert_ne by done. rewrite O6 by done.
      rewrite F5. unfold u4. rewrite lookup_insert_ne by done. rewrite Ec.
      split; [done |]. intros Hnone Hs.
      rewrite (X5 ltac:(by unfold u4; rewrite lookup_insert_ne, Ec by done) Hs).
      rewrite !elem_of_app. right. left. in_list.
    + change (redoc_assets_dir ++ ["redoc.standalone.js"]) with redoc_js_file.
      unfold u7. rewrite lookup_insert_ne by done. rewrite F6.
      rewrite O5 by done. unfold u4. rewrite lookup_insert_ne by done. rewrite Ej.
      split; [done |]. intros Hnone Hs.
      rewrite (X6 ltac:(by rewrite O5 by done; unfold u4;
                        rewrite lookup_insert_ne, Ej by done) Hs).
      rewrite !elem_of_app. right. right. left. in_list.
  - intros q Hq. unfold u7.
    rewrite lookup_insert_ne by (eapply ne_of_not_elem_of; [exact Hq | in_list]).
    rewrite E6; [apply M3 | | |]; apply not_eq_sym;
      (eapply ne_of_not_elem_of; [exact Hq | in_list]).
Qed.

(** The run of [setup_vapor_redoc] when everything is in place. *)
Lemma setup_settled_run (requests_get : string → M (nat * string))
    (t : gmap (list string) node) :
  well_formed t →
  Forall (λ d, t !! d = Some Dir) expected_dirs →
  t !! openapi_file = Some (File redoc.openapi_content) →
  t !! redoc_leaf_file = Some (File redoc.redoc_leaf_content) →
  is_Some (t !! redoc_css_file) → is_Some (t !! redoc_js_file) →
  run (setup_vapor_redoc ROOT_DIR requests_get) t
  = (Returned (),
     World t
       (["OpenAPI spec placeholder already exists and is up-to-date: "
           +:+ show ROOT_DIR openapi_file;
         "redoc.standalone.css already exists at: " +:+ show ROOT_DIR redoc_css_file;
         "redoc.standalone.js already exists at: " +:+ show ROOT_DIR redoc_js_file;
         "ReDoc Leaf template already exists and is up-to-date: "
           +:+ show ROOT_DIR redoc_leaf_file]
        ++ setup_complete)).
Proof.
  intros Hwf Hd Ho Hl [c Hc] [j Hj].
  apply Forall_cons in Hd as [Hdo Hd]. apply Forall_cons in Hd as [Hdv Hd].
  apply Forall_cons in Hd as [Hda _].
  unfold run, setup_vapor_redoc.
  do 3 run_with ltac:(by apply makedirs_isdir).
  run_with ltac:(apply ensure_content_run;
                 [change (t !! openapi_file ≠ Some Dir); by rewrite Ho | done]).
  change (node_at t openapi_file) with (t !! openapi_file).
  rewrite bool_decide_true by done. rewrite insert_id by done.
  cbn [for_each redoc.redoc_files fst snd].
  run_with ltac:(erewrite bind_returned; [| by apply download_existing; exists c];
                 erewrite bind_returned; [| by apply download_existing; exists j];
                 done).
  run_with ltac:(apply ensure_content_run;
                 [change (t !! redoc_leaf_file ≠ Some Dir); by rewrite Hl | done]).
  change (node_at t redoc_leaf_file) with (t !! redoc_leaf_file).
  rewrite bool_decide_true by done. rewrite insert_id by done.
  do 2 run_with ltac:(apply print_run). by rewrite print_run.
Qed.

(** X17. [setup_vapor_redoc] on a well-formed tree where no file is in
    the way of its three directories and its two text files are not
    directories, each request being answered: it ends normally and prints
    its completion lines, whatever the status codes; the directories then
    exist and the placeholder and the template hold the texts of the
    script; an asset that existed is kept as it was, a missing one holds
    the response when the status code is 200, and is still missing, with
    the failure printed, when it is not; nothing else changes but the
    directories made. *)
Theorem setup_vapor_redoc_installs (requests_get : string → M (nat * string))
    (response : string → nat * string) (t : gmap (list string) node) :
  well_formed t →
  (∀ d q c, d ∈ expected_dirs → q `prefix_of` d → node_at t q ≠ Some (File c)) →
  t !! openapi_file ≠ Some Dir →
  t !! redoc_leaf_file ≠ Some Dir →
  (∀ url w, requests_get url w = (Returned (response url), w)) →
  ∃ t' out,
    run (setup_vapor_redoc ROOT_DIR requests_get) t
    = (Returned (), World t' (out ++ setup_complete))
    ∧ well_formed t'
    ∧ Forall (λ d, t' !! d = Some Dir) expected_dirs
    ∧ t' !! openapi_file = Some (File redoc.openapi_content)
    ∧ t' !! redoc_leaf_file = Some (File redoc.redoc_leaf_content)
    ∧ (∀ file_name url,
         (file_name, url) ∈ redoc.redoc_files →
         t' !! (redoc_assets_dir ++ [file_name])
         = match t !! (redoc_assets_dir ++ [file_name]) with
           | Some x => Some x
           | None => if ((response url).1 =? 200)%nat
                     then Some (File (response url).2) else None
           end
         ∧ (t !! (redoc_assets_dir ++ [file_name]) = None →
            (response url).1 ≠ 200 →
            ("Failed to download " +:+ file_name +:+ " from " +:+ url) ∈ out))
    ∧ (∀ q, q ∉ [openapi_file; redoc_leaf_file; redoc_css_file; redoc_js_file] →
         t' !! q = t !! q
         ∨ (t !! q = None ∧ t' !! q = Some Dir
            ∧ ∃ d, d ∈ expected_dirs ∧ q `prefix_of` d)).
Proof. intros Hwf Hnf Ho Hl Hreq. apply setup_run; auto. Qed.

(** X18. After [setup_vapor_redoc] with both downloads answered with
    status 200, [validate_redoc_setup] leaves the tree alone and prints
    the report of what is wrong with routes.swift and configure.swift in
    the tree before the setup, and of nothing else: the setup makes every
    directory and file the validator looks for, and leaves the two source
    files alone. *)
Theorem setup_then_validate (requests_get : string → M (nat * string))
    (response : string → nat * string) (t : gmap (list string) node) :
  well_formed t →
  (∀ d q c, d ∈ expected_dirs → q `prefix_of` d → node_at t q ≠ Some (File c)) →
  Forall (λ f, t !! f ≠ Some Dir)
    [openapi_file; redoc_leaf_file; redoc_css_file; redoc_js_file] →
  (∀ url w, requests_get url w = (Returned (response url), w)) →
  (∀ url, (response url).1 = 200) →
  ∃ t' out,
    run (setup_vapor_redoc ROOT_DIR requests_get) t = (Returned (), World t' out)
    ∧ run (validate_redoc_setup ROOT_DIR) t'
      = (Returned (),
         World t'
           (validation_report (routes_discrepancies ROOT_DIR t
                               ++ configure_discrepancies ROOT_DIR t))).
Proof.
  intros Hwf Hnf Hfiles Hreq H200.
  apply Forall_cons in Hfiles as [Ho Hfiles]. apply Forall_cons in Hfiles as [Hl Hfiles].
  apply Forall_cons in Hfiles as [Hc Hfiles]. apply Forall_cons in Hfiles as [Hj _].
  destruct (setup_run requests_get response t Hwf Hnf Ho Hl)
    as (t' & out & Hrun & Hwf' & Hd & Ho' & Hl' & Ha & Hrest); [auto |].
  exists t'. eexists. split; [exact Hrun |].
  unfold run. rewrite validate_redoc_setup_run. cbn [tree stdout app].
  assert (Hdis : discrepancies ROOT_DIR t'
                 = routes_discrepancies ROOT_DIR t
                   ++ configure_discrepancies ROOT_DIR t); [| by rewrite Hdis].
  apply Forall_cons in Hd as [Hdo Hd]. apply Forall_cons in Hd as [Hdv Hd].
  apply Forall_cons in Hd as [Hda _].
  destruct (Ha "redoc.standalone.css"
              "https://cdn.jsdelivr.net/npm/redoc/bundles/redoc.standalone.css")
    as [Hc' _]; [in_list |].
  destruct (Ha "redoc.standalone.js"
              "https://cdn.jsdelivr.net/npm/redoc/bundles/redoc.standalone.js")
    as [Hj' _]; [in_list |].
  rewrite H200 in Hc', Hj'. cbn [Nat.eqb] in Hc', Hj'.
  change (redoc_assets_dir ++ ["redoc.standalone.css"]) with redoc_css_file in *.
  change (redoc_assets_dir ++ ["redoc.standalone.js"]) with redoc_js_file in *.
  unfold discrepancies, isdir, isfile.
  change (node_at t' openapi_dir) with (t' !! openapi_dir).
  change (node_at t' views_dir) with (t' !! views_dir).
  change (node_at t' redoc_assets_dir) with (t' !! redoc_assets_dir).
  change (node_at t' openapi_file) with (t' !! openapi_file).
  change (node_at t' redoc_leaf_file) with (t' !! redoc_leaf_file).
  change (node_at t' redoc_css_file) with (t' !! redoc_css_file).
  change (node_at t' redoc_js_file) with (t' !! redoc_js_file).
  rewrite Hdo, Hdv, Hda, Ho', Hl', Hc', Hj'. cbn [unless app].
  assert (Hsame : ∀ q, q ∉ [openapi_file; redoc_leaf_file; redoc_css_file; redoc_js_file] →
                       forallb (λ d, bool_decide (¬ q `prefix_of` d)) expected_dirs = true →
                       t' !! q = t !! q).
  { intros q Hq Hp. destruct (Hrest q Hq) as [E | (_ & _ & H)]; [done |].
    by apply not_prefix_of_dirs in Hp. }
  assert (Hr : t' !! routes_file = t !! routes_file)
    by (apply Hsame; [compute_done | done]).
  assert (Hf : t' !! configure_file = t !! configure_file)
    by (apply Hsame; [compute_done | done]).
  unfold routes_discrepancies, configure_discrepancies.
  change (node_at t' routes_file) with (t' !! routes_file).
  change (node_at t' configure_file) with (t' !! configure_file).
  rewrite Hr, Hf.
  destruct (t !! redoc_css_file) as [[?|]|]; [| done |];
    destruct (t !! redoc_js_file) as [[?|]|]; done.
Qed.

(** X19. A second run of [setup_vapor_redoc] after one whose downloads
    were answered with status 200 changes nothing and sends no request:
    whatever the network would answer, it ends normally with the tree as
    the first run left it and prints that the placeholder, the two assets
    and the template are already there. *)
Theorem setup_vapor_redoc_twice (requests_get : string → M (nat * string))
    (response : string → nat * string) (t : gmap (list string) node) :
  well_formed t →
  (∀ d q c, d ∈ expected_dirs → q `prefix_of` d → node_at t q ≠ Some (File c)) →
  t !! openapi_file ≠ Some Dir →
  t !! redoc_leaf_file ≠ Some Dir →
  (∀ url w, requests_get url w = (Returned (response url), w)) →
  (∀ url, (response url).1 = 200) →
  ∃ t' out,
    run (setup_vapor_redoc ROOT_DIR requests_get) t = (Returned (), World t' out)
    ∧ ∀ requests_get' : string → M (nat * string),
        run (setup_vapor_redoc ROOT_DIR requests_get') t'
        = (Returned (),
           World t'
             (["OpenAPI spec placeholder already exists and is up-to-date: "
                 +:+ show ROOT_DIR openapi_file;
               "redoc.standalone.css already exists at: "
                 +:+ show ROOT_DIR redoc_css_file;
               "redoc.standalone.js already exists at: "
                 +:+ show ROOT_DIR redoc_js_file;
               "ReDoc Leaf template already exists and is up-to-date: "
                 +:+ show ROOT_DIR redoc_leaf_file]
              ++ setup_complete)).
Proof.
  intros Hwf Hnf Ho Hl Hreq H200.
  destruct (setup_run requests_get response t Hwf Hnf Ho Hl)
    as (t' & out & Hrun & Hwf' & Hd & Ho' & Hl' & Ha & Hrest); [auto |].
  exists t'. eexists. split; [exact Hrun |].
  intros requests_get'. apply setup_settled_run; [done | done | done | done | |].
  - destruct (Ha "redoc.standalone.css"
                "https://cdn.jsdelivr.net/npm/redoc/bundles/redoc.standalone.css")
      as [Hc' _]; [in_list |].
    rewrite H200 in Hc'. cbn [Nat.eqb] in Hc'.
    change (redoc_assets_dir ++ ["redoc.standalone.css"]) with redoc_css_file in *.
    rewrite Hc'. by destruct (t !! redoc_css_file).
  - destruct (Ha "redoc.standalone.js"
                "https://cdn.jsdelivr.net/npm/redoc/bundles/redoc.standalone.js")
      as [Hj' _]; [in_list |].
    rewrite H200 in Hj'. cbn [Nat.eqb] in Hj'.
    change (redoc_assets_dir ++ ["redoc.standalone.js"]) with redoc_js_file in *.
    rewrite Hj'. by destruct (t !! redoc_js_file).
Qed.

End setup_facts.

(** ** create_openapi_solution.py *)

Section solution_facts.

Variable ROOT_DIR : string.

(** The two directories and the two resource files of
    [create_openapi_solution]. *)
Lemma solution_resources_run (t : gmap (list string) node) (out : list string) :
  well_formed t →
  (∀ d q c, d ∈ [openapi_dir; views_dir] → q `prefix_of` d →
            node_at t q ≠ Some (File c)) →
  t !! openapi_file ≠ Some Dir →
  t !! redoc_leaf_file ≠ Some Dir →
  ∃ u,
    (makedirs openapi_dir ;; makedirs views_dir ;;
     write_text openapi_file openapi_placeholder ;;
     write_text redoc_leaf_file redoc_template) (World t out)
    = (Returned (), World u out)
    ∧ well_formed u
    ∧ u !! openapi_dir = Some Dir ∧ u !! views_dir = Some Dir
    ∧ u !! openapi_file = Some (File openapi_placeholder)
    ∧ u !! redoc_leaf_file = Some (File redoc_template)
    ∧ (∀ q, q ∉ [openapi_file; redoc_leaf_file] →
         u !! q = t !! q
         ∨ (t !! q = None ∧ u !! q = Some Dir
            ∧ ∃ d, d ∈ [openapi_dir; views_dir] ∧ q `prefix_of` d)).
Proof.
  intros Hwf Hnf Ho Hl.
  destruct (makedirs_among [openapi_dir; views_dir] t t openapi_dir out)
    as (u1 & R1 & W1 & M1 & D1 & K1);
    [done | apply dirs_made_refl | in_list | intros q c; apply Hnf; in_list |].
  destruct (makedirs_among [openapi_dir; views_dir] t u1 views_dir out)
    as (u2 & R2 & W2 & M2 & D2 & K2);
    [done | done | in_list | intros q c; apply Hnf; in_list |].
  assert (Eo : u2 !! openapi_file = t !! openapi_file)
    by by apply (dirs_made_lookup [openapi_dir; views_dir]).
  assert (El : u2 !! redoc_leaf_file = t !! redoc_leaf_file)
    by by apply (dirs_made_lookup [openapi_dir; views_dir]).
  set (u3 := <[openapi_file := File openapi_placeholder]> u2).
  assert (W3 : well_formed u3).
  { apply well_formed_put_file; [done | | by apply K2].
    change (u2 !! openapi_file ≠ Some Dir). by rewrite Eo. }
  exists (<[redoc_leaf_file := File redoc_template]> u3). split_and!.
  - run_with ltac:(exact R1). run_with ltac:(exact R2).
    run_with ltac:(apply write_text_run; cbn [tree];
                   [change (u2 !! openapi_file ≠ Some Dir); by rewrite Eo
                   | by apply K2]).
    fold u3. apply write_text_run; cbn [tree].
    + change (u3 !! redoc_leaf_file ≠ Some Dir).
      unfold u3. rewrite lookup_insert_ne by done. by rewrite El.
    + unfold u3. by rewrite node_at_insert_ne.
  - apply well_formed_put_file; [done | |].
    + change (u3 !! redoc_leaf_file ≠ Some Dir).
      unfold u3. rewrite lookup_insert_ne by done. by rewrite El.
    + unfold u3. by rewrite node_at_insert_ne.
  - unfold u3. rewrite !lookup_insert_ne by done. by apply (K2 openapi_dir).
  - unfold u3. by rewrite !lookup_insert_ne by done.
  - unfold u3. rewrite lookup_insert_ne by done. by rewrite lookup_insert_eq.
  - by rewrite lookup_insert_eq.
  - intros q Hq. unfold u3.
    rewrite !lookup_insert_ne
      by (eapply ne_of_not_elem_of; [exact Hq | in_list]).
    apply M2.
Qed.

(** X20. [create_openapi_solution] on a well-formed tree where Sources/App
    is a directory, no file is in the way of its two directories and its
    three files are not directories: it ends normally; the placeholder,
    the template and routes.swift then hold the texts of the script,
    whatever they held before; the validator finds both routes in that
    routes.swift; and nothing else changes but the directories made
    (Public/redoc is not among them). *)
Theorem create_openapi_solution_writes (t : gmap (list string) node) :
  well_formed t →
  (∀ d q c, d ∈ [openapi_dir; views_dir] → q `prefix_of` d →
            node_at t q ≠ Some (File c)) →
  Forall (λ f, t !! f ≠ Some Dir) [openapi_file; redoc_leaf_file; routes_file] →
  t !! dirname routes_file = Some Dir →
  ∃ t',
    run (create_openapi_solution ROOT_DIR) t
    = (Returned (),
       World t' ["OpenAPI spec placeholder created at: "
                   +:+ show ROOT_DIR openapi_file;
                 "ReDoc Leaf template created at: "
                   +:+ show ROOT_DIR redoc_leaf_file;
                 "Routes updated at: " +:+ show ROOT_DIR routes_file])
    ∧ well_formed t'
    ∧ t' !! openapi_file = Some (File openapi_placeholder)
    ∧ t' !! redoc_leaf_file = Some (File redoc_template)
    ∧ t' !! routes_file = Some (File routes_content)
    ∧ routes_discrepancies ROOT_DIR t' = []
    ∧ (∀ q, q ∉ [openapi_file; redoc_leaf_file; routes_file] →
         t' !! q = t !! q
         ∨ (t !! q = None ∧ t' !! q = Some Dir
            ∧ ∃ d, d ∈ [openapi_dir; views_dir] ∧ q `prefix_of` d)).
Proof.
  intros Hwf Hnf Hfiles Happ.
  apply Forall_cons in Hfiles as [Ho Hfiles]. apply Forall_cons in Hfiles as [Hl Hfiles].
  apply Forall_cons in Hfiles as [Hr _].
  destruct (solution_resources_run t [] Hwf Hnf Ho Hl)
    as (u & Hrun & Wu & Hdo & Hdv & Hfo & Hfl & Hrest).
  assert (Er : ∀ q, q ∉ [openapi_file; redoc_leaf_file] →
                    forallb (λ d, bool_decide (¬ q `prefix_of` d))
                      [openapi_dir; views_dir] = true →
                    u !! q = t !! q).
  { intros q Hq Hp. destruct (Hrest q Hq) as [E | (_ & _ & H)]; [done |].
    by apply not_prefix_of_dirs in Hp. }
  assert (Hru : node_at u routes_file ≠ Some Dir).
  { change (u !! routes_file ≠ Some Dir). rewrite Er; [done | compute_done | done]. }
  assert (Hau : node_at u (dirname routes_file) = Some Dir).
  { change (u !! dirname routes_file = Some Dir).
    rewrite Er; [done | compute_done | done]. }
  exists (<[routes_file := File routes_content]> u). split_and!.
  - unfold run, create_openapi_solution.
    assert (R : (makedirs openapi_dir ;; makedirs views_dir ;;
                 write_text openapi_file openapi_placeholder ;;
                 write_text redoc_leaf_file redoc_template ;;
                 write_text routes_file routes_content) (World t [])
                = (Returned (), World (<[routes_file := File routes_content]> u) [])).
    { unfold mbind, M_bind in Hrun |- *.
      destruct (makedirs openapi_dir (World t [])) as [[[]| |] w1]; [| done | done].
      destruct (makedirs views_dir w1) as [[[]| |] w2]; [| done | done].
      destruct (write_text openapi_file openapi_placeholder w2) as [[[]| |] w3];
        [| done | done].
      rewrite Hrun. by apply write_text_run. }
    unfold mbind, M_bind in R |- *.
    destruct (makedirs openapi_dir (World t [])) as [[[]| |] w1]; [| done | done].
    destruct (makedirs views_dir w1) as [[[]| |] w2]; [| done | done].
    destruct (write_text openapi_file openapi_placeholder w2) as [[[]| |] w3];
      [| done | done].
    destruct (write_text redoc_leaf_file redoc_template w3) as [[[]| |] w4];
      [| done | done].
    rewrite R. done.
  - by apply well_formed_put_file.
  - by rewrite lookup_insert_ne.
  - by rewrite lookup_insert_ne.
  - by rewrite lookup_insert_eq.
  - unfold routes_discrepancies.
    change (node_at (<[routes_file := File routes_content]> u) routes_file)
      with (<[routes_file := File routes_content]> u !! routes_file).
    rewrite lookup_insert_eq. by vm_compute.
  - intros q Hq.
    rewrite lookup_insert_ne by (eapply ne_of_not_elem_of; [exact Hq | in_list]).
    apply Hrest. intros H. apply Hq.
    apply elem_of_cons in H as [->|H]; [in_list |].
    apply elem_of_cons in H as [->|H]; [in_list |]. by apply elem_of_nil in H.
Qed.


End solution_facts.

(** ** The main functions of the two setup scripts *)

Section main_facts.

Lemma append_to_file_any (t : gmap (list string) node) (file_path : list string)
    (content : string) (marker : option string) (out : list string) :
  node_at t file_path ≠ Some Dir →
  node_at t (dirname file_path) = Some Dir →
  append_to_file file_path content marker (World t out)
  = (Returned (),
     World (<[file_path := File (appended (t !! file_path) content marker)]> t) out).
Proof.
  intros Hf Hd.
  assert (Hne : file_path ≠ []) by (intros ->; by apply Hf).
  rewrite node_at_lookup in Hf by done.
  destruct (t !! file_path) as [[text|]|] eqn:E; [| done |].
  - apply append_to_file_run; [by rewrite node_at_lookup | done].
  - unfold append_to_file. run_get.
    rewrite (proj2 (path_exists_false _ _)) by (by rewrite node_at_lookup).
    apply write_text_run; cbn [tree]; [by rewrite node_at_lookup, E | done].
Qed.

Lemma create_file_run (t : gmap (list string) node) (file_path : list string)
    (content : string) (out : list string) :
  well_formed t →
  dirname file_path ≠ [] →
  (∀ q c, q `prefix_of` dirname file_path → node_at t q ≠ Some (File c)) →
  ∃ t',
    create_file file_path content (World t out) = (Returned (), World t' out)
    ∧ well_formed t'
    ∧ t' !! file_path = match t !! file_path with
                        | Some x => Some x
                        | None => Some (File content)
                        end
    ∧ (∀ q, q ≠ file_path →
         t' !! q = t !! q
         ∨ (t !! q = None ∧ t' !! q = Some Dir ∧ q `prefix_of` dirname file_path)).
Proof.
  intros Hwf Hdn Hnf.
  assert (Hne : file_path ≠ []) by (intros ->; done).
  unfold create_file. unfold path_exists.
  destruct (t !! file_path) as [x|] eqn:E.
  - exists t. split_and!; [| done | done | by left].
    run_get. unfold path_exists. by rewrite node_at_lookup, E.
  - destruct (makedirs_write_run t file_path content out Hwf Hdn Hnf)
      as (t' & Hrun & Hwf' & Hfile & Hrest).
    { by rewrite node_at_lookup, E. }
    exists t'. split_and!; [| done | done | done].
    run_get. unfold path_exists. by rewrite node_at_lookup, E.
Qed.

Lemma prefix_of_pair (q : list string) (a b : string) :
  q `prefix_of` [a; b] → q = [] ∨ q = [a] ∨ q = [a; b].
Proof.
  intros [k E]. destruct q as [|x [|y [|z q]]]; simplify_eq/=; auto.
Qed.

Lemma prefix_of_triple (q : list string) (a b c : string) :
  q `prefix_of` [a; b; c] → q = [] ∨ q = [a] ∨ q = [a; b] ∨ q = [a; b; c].
Proof.
  intros [k E]. destruct q as [|x [|y [|z [|v q]]]]; simplify_eq/=; auto.
Qed.

(** X22. The [main] of setup_openapimiddleware.py on a well-formed tree
    where no file is in the way of Sources/App/Providers and its two files
    are not directories: it ends normally with its three lines printed;
    FileDataProvider.swift then holds the text of the script; and
    configure.swift holds what [append_to_file] makes of it, which, when
    the file was missing, is the bare configuration text, reported as an
    update all the same.  Nothing else changes but the directories
    made. *)
Theorem middleware_main_run (t : gmap (list string) node) :
  well_formed t →
  (∀ q c, q `prefix_of` dirname middleware.file_data_provider_path →
          node_at t q ≠ Some (File c)) →
  t !! middleware.file_data_provider_path ≠ Some Dir →
  t !! configure_file ≠ Some Dir →
  ∃ t',
    run middleware.main t
    = (Returned (),
       World t'
         ["Created: Sources/App/Providers/FileDataProvider.swift";
          "Updated: Sources/App/configure.swift";
          "OpenAPIMiddleware setup complete. Rebuild your project to apply the changes."])
    ∧ t' !! middleware.file_data_provider_path
      = Some (File middleware.file_data_provider_content)
    ∧ t' !! configure_file
      = Some (File (appended (t !! configure_file) middleware.configure_content
                      (Some "public func configure")))
    ∧ (∀ q, q ∉ [middleware.file_data_provider_path; configure_file] →
         t' !! q = t !! q
         ∨ (t !! q = None ∧ t' !! q = Some Dir
            ∧ q `prefix_of` dirname middleware.file_data_provider_path)).
Proof.
  intros Hwf Hnf Hp Hc.
  destruct (makedirs_write_run t middleware.file_data_provider_path
              middleware.file_data_provider_content [] Hwf)
    as (u & Hrun & Wu & Hfile & Hrest); [done | done | done |].
  assert (Ec : u !! configure_file = t !! configure_file).
  { destruct (Hrest configure_file) as [E | (_ & _ & H)]; [done | done |].
    apply prefix_of_triple in H. by destruct H as [?|[?|[?|?]]]. }
  assert (Hprov : node_at u (dirname middleware.file_data_provider_path) = Some Dir).
  { apply (well_formed_parent u _ "FileDataProvider.swift"
             (File middleware.file_data_provider_content)); done. }
  assert (Happ : node_at u (dirname configure_file) = Some Dir).
  { apply (well_formed_parent u _ "Providers" Dir); done. }
  exists (<[configure_file :=
              File (appended (t !! configure_file) middleware.configure_content
                      (Some "public func configure"))]> u).
  split_and!.
  - unfold run, middleware.main.
    run_with ltac:(exact Hrun). run_with ltac:(apply print_run).
    run_with ltac:(apply append_to_file_any; cbn [tree];
                   [change (u !! configure_file ≠ Some Dir); by rewrite Ec | done]).
    run_with ltac:(apply print_run). rewrite print_run. cbn [tree stdout].
    by rewrite Ec.
  - by rewrite lookup_insert_ne.
  - by rewrite lookup_insert_eq.
  - intros q Hq.
    rewrite lookup_insert_ne by (eapply ne_of_not_elem_of; [exact Hq | in_list]).
    apply Hrest. apply not_eq_sym. eapply ne_of_not_elem_of; [exact Hq | in_list].
Qed.

(** The first three calls of the [main] of setup_openapiserve.py. *)
Lemma serve_first_steps (t : gmap (list string) node) (out : list string) :
  well_formed t →
  t !! serve.package_file ≠ Some Dir →
  (∀ q c, q `prefix_of` serve.resources_dir → node_at t q ≠ Some (File c)) →
  ∃ u,
    (append_to_file serve.package_file serve.package_dependency
       (Some "dependencies: [") ;;
     append_to_file serve.package_file serve.target_dependency
       (Some "dependencies: [") ;;
     create_file serve.openapi_file serve.openapi_content) (World t out)
    = (Returned (), World u out)
    ∧ well_formed u
    ∧ u !! serve.package_file
      = Some (File (appended
                      (Some (File (appended (t !! serve.package_file)
                                     serve.package_dependency
                                     (Some "dependencies: ["))))
                      serve.target_dependency (Some "dependencies: [")))
    ∧ u !! serve.openapi_file
      = match t !! serve.openapi_file with
        | Some x => Some x
        | None => Some (File serve.openapi_content)
        end
    ∧ (∀ q, q ∉ [serve.package_file; serve.openapi_file] →
         u !! q = t !! q
         ∨ (t !! q = None ∧ u !! q = Some Dir ∧ q `prefix_of` serve.resources_dir)).
Proof.
  intros Hwf Hp Hnf.
  set (t1 := <[serve.package_file :=
                 File (appended (t !! serve.package_file) serve.package_dependency
                         (Some "dependencies: ["))]> t).
  set (t2 := <[serve.package_file :=
                 File (appended
                         (Some (File (appended (t !! serve.package_file)
                                        serve.package_dependency
                                        (Some "dependencies: ["))))
                         serve.target_dependency (Some "dependencies: ["))]> t).
  assert (W2 : well_formed t2) by by apply well_formed_put_file.
  destruct (create_file_run t2 serve.openapi_file serve.openapi_content out W2)
    as (u & Hrun & Wu & Hfile & Hrest); [done | |].
  { intros q c Hq. unfold t2. rewrite node_at_insert_ne.
    - by apply Hnf.
    - apply prefix_of_pair in Hq. by destruct Hq as [?|[?|?]]; subst. }
  exists u. split_and!; [| done | | |].
  - run_with ltac:(by apply append_to_file_any). fold t1.
    run_with ltac:(apply append_to_file_any; cbn [tree];
                   [unfold t1; by rewrite node_at_insert_eq | done]).
    assert (E1 : t1 !! serve.package_file
                 = Some (File (appended (t !! serve.package_file)
                                 serve.package_dependency (Some "dependencies: [")))).
    { unfold t1. by rewrite lookup_insert_eq. }
    rewrite E1. unfold t1. rewrite insert_insert_eq. exact Hrun.
  - destruct (Hrest serve.package_file) as [E | (E & _)]; [done | |].
    + rewrite E. unfold t2. by rewrite lookup_insert_eq.
    + unfold t2 in E. by rewrite lookup_insert_eq in E.
  - rewrite Hfile. unfold t2. by rewrite lookup_insert_ne.
  - intros q Hq.
    assert (E : t2 !! q = t !! q).
    { unfold t2. rewrite lookup_insert_ne; [done |].
      eapply ne_of_not_elem_of; [exact Hq | in_list]. }
    rewrite <- E. apply Hrest. apply not_eq_sym.
    eapply ne_of_not_elem_of; [exact Hq | in_list].
Qed.


(** X24. The [main] of setup_openapiserve.py on a well-formed tree where
    Sources/App is a directory, no file is in the way of Sources/Resources
    and Resources/Views, and Package.swift, configure.swift and
    routes.swift are not directories: it ends normally with its line
    printed; the three files hold what [append_to_file] makes of them,
    Package.swift after two calls; openapi.yml and redoc.leaf are created
    when missing and kept as they were otherwise; nothing else changes
    but the directories made. *)
Theorem serve_main_run (t : gmap (list string) node) :
  well_formed t →
  Forall (λ f, t !! f ≠ Some Dir) [serve.package_file; configure_file; routes_file] →
  (∀ d q c, d ∈ [serve.resources_dir; views_dir] → q `prefix_of` d →
            node_at t q ≠ Some (File c)) →
  t !! dirname configure_file = Some Dir →
  ∃ t',
    run serve.main t
    = (Returned (),
       World t'
         ["OpenAPIServe integration complete. Please build and run your project."])
    ∧ t' !! serve.package_file
      = Some (File (appended
                      (Some (File (appended (t !! serve.package_file)
                                     serve.package_dependency
                                     (Some "dependencies: ["))))
                      serve.target_dependency (Some "dependencies: [")))
    ∧ t' !! configure_file
      = Some (File (appended (t !! configure_file) serve.middleware_content
                      (Some "public func configure")))
    ∧ t' !! routes_file
      = Some (File (appended (t !! routes_file) serve.route_content None))
    ∧ t' !! serve.openapi_file
      = match t !! serve.openapi_file with
        | Some x => Some x
        | None => Some (File serve.openapi_content)
        end
    ∧ t' !! serve.redoc_file
      = match t !! serve.redoc_file with
        | Some x => Some x
        | None => Some (File serve.redoc_content)
        end
    ∧ (∀ q, q ∉ [serve.package_file; serve.openapi_file; configure_file;
                 routes_file; serve.redoc_file] →
         t' !! q = t !! q
         ∨ (t !! q = None ∧ t' !! q = Some Dir
            ∧ ∃ d, d ∈ [serve.resources_dir; views_dir] ∧ q `prefix_of` d)).
Proof.
  intros Hwf Hfiles Hnf Happ.
  apply Forall_cons in Hfiles as [Hp Hfiles]. apply Forall_cons in Hfiles as [Hc Hfiles].
  apply Forall_cons in Hfiles as [Hr _].
  destruct (serve_first_steps t [] Hwf Hp) as (u & Hrun & Wu & Hpk & Ho & Hrest).
  { intros q c. apply Hnf. in_list. }
  assert (Same : ∀ q, q ∉ [serve.package_file; serve.openapi_file] →
                      ¬ q `prefix_of` serve.resources_dir → u !! q = t !! q).
  { intros q Hq Hpre. by destruct (Hrest q Hq) as [E | (_ & _ & H)]. }
  assert (Np : ∀ q, length q = 3 → ¬ q `prefix_of` serve.resources_dir).
  { intros q Hq H%prefix_length. simpl in H. lia. }
  assert (Hcu : u !! configure_file = t !! configure_file)
    by (apply Same; [compute_done | by apply Np]).
  assert (Hru : u !! routes_file = t !! routes_file)
    by (apply Same; [compute_done | by apply Np]).
  assert (Hlu : u !! serve.redoc_file = t !! serve.redoc_file)
    by (apply Same; [compute_done | by apply Np]).
  assert (Hau : u !! dirname configure_file = Some Dir).
  { rewrite Same; [done | compute_done |].
    intros H%prefix_of_pair. by destruct H as [?|[?|?]]. }
  set (u1 := <[configure_file :=
                 File (appended (t !! configure_file) serve.middleware_content
                         (Some "public func configure"))]> u).
  set (u2 := <[routes_file :=
                 File (appended (t !! routes_file) serve.route_content None)]> u1).
  assert (W1 : well_formed u1).
  { apply well_formed_put_file; [done | | done].
    change (u !! configure_file ≠ Some Dir). by rewrite Hcu. }
  assert (W2 : well_formed u2).
  { apply well_formed_put_file; [done | |].
    - change (u1 !! routes_file ≠ Some Dir).
      unfold u1. rewrite lookup_insert_ne by done. by rewrite Hru.
    - unfold u1. by rewrite node_at_insert_ne. }
  assert (E2 : ∀ q, q ≠ configure_file → q ≠ routes_file → u2 !! q = u !! q).
  { intros q H1 H2. unfold u2, u1. by rewrite !lookup_insert_ne. }
  destruct (create_file_run u2 serve.redoc_file serve.redoc_content [] W2)
    as (u3 & Hrun3 & W3 & Hfile3 & Hrest3); [done | |].
  { intros q c Hq.
    assert (Hq' := Hq). apply prefix_of_pair in Hq'.
    destruct q as [|x q]; [done |].
    change (u2 !! (x :: q) ≠ Some (File c)).
    rewrite E2 by (by destruct Hq' as [?|[?|?]]; simplify_eq).
    destruct (Hrest (x :: q)) as [E | (_ & E & _)].
    - apply not_elem_of_cons. split; [by destruct Hq' as [?|[?|?]]; simplify_eq |].
      apply not_elem_of_cons. split; [by destruct Hq' as [?|[?|?]]; simplify_eq |].
      apply not_elem_of_nil.
    - rewrite E. apply (Hnf views_dir (x :: q) c); [in_list | done].
    - by rewrite E. }
  assert (E3 : ∀ q, q ≠ serve.redoc_file → ¬ q `prefix_of` views_dir →
                    u3 !! q = u2 !! q).
  { intros q Hq Hpre. by destruct (Hrest3 q Hq) as [E | (_ & _ & H)]. }
  assert (Nv : ∀ q, length q = 3 → ¬ q `prefix_of` views_dir).
  { intros q Hq H%prefix_length. simpl in H. lia. }
  exists u3. split_and!.
  - unfold run, serve.main.
    assert (R : (append_to_file serve.package_file serve.package_dependency
                   (Some "dependencies: [") ;;
                 append_to_file serve.package_file serve.target_dependency
                   (Some "dependencies: [") ;;
                 create_file serve.openapi_file serve.openapi_content ;;
                 append_to_file configure_file serve.middleware_content
                   (Some "public func configure") ;;
                 append_to_file routes_file serve.route_content None ;;
                 create_file serve.redoc_file serve.redoc_content) (World t [])
                = (Returned (), World u3 [])).
    { unfold mbind, M_bind in Hrun |- *.
      destruct (append_to_file serve.package_file serve.package_dependency
                  (Some "dependencies: [") (World t [])) as [[[]| |] w1];
        [| done | done].
      destruct (append_to_file serve.package_file serve.target_dependency
                  (Some "dependencies: [") w1) as [[[]| |] w2]; [| done | done].
      rewrite Hrun.
      rewrite (append_to_file_any u configure_file); cbn [tree];
        [| change (u !! configure_file ≠ Some Dir); by rewrite Hcu | done].
      rewrite Hcu. fold u1.
      rewrite (append_to_file_any u1 routes_file); cbn [tree].
      - assert (E1 : u1 !! routes_file = t !! routes_file).
        { unfold u1. rewrite lookup_insert_ne by done. exact Hru. }
        rewrite E1. exact Hrun3.
      - change (u1 !! routes_file ≠ Some Dir).
        unfold u1. rewrite lookup_insert_ne by done. by rewrite Hru.
      - unfold u1. by rewrite node_at_insert_ne. }
    unfold mbind, M_bind in R |- *.
    destruct (append_to_file serve.package_file serve.package_dependency
                (Some "dependencies: [") (World t [])) as [[[]| |] w1];
      [| done | done].
    destruct (append_to_file serve.package_file serve.target_dependency
                (Some "dependencies: [") w1) as [[[]| |] w2]; [| done | done].
    destruct (create_file serve.openapi_file serve.openapi_content w2)
      as [[[]| |] w3]; [| done | done].
    destruct (append_to_file configure_file serve.middleware_content
                (Some "public func configure") w3) as [[[]| |] w4]; [| done | done].
    destruct (append_to_file routes_file serve.route_content None w4)
      as [[[]| |] w5]; [| done | done].
    rewrite R. done.
  - rewrite E3; [| done | intros H%prefix_of_pair; by destruct H as [?|[?|?]]].
    rewrite E2 by done. exact Hpk.
  - rewrite E3; [| done | by apply Nv].
    unfold u2. rewrite lookup_insert_ne by done. unfold u1.
    by rewrite lookup_insert_eq.
  - rewrite E3; [| done | by apply Nv]. unfold u2. by rewrite lookup_insert_eq.
  - rewrite E3; [| done | by apply Nv]. rewrite E2 by done. exact Ho.
  - rewrite Hfile3, E2, Hlu by done. done.
  - intros q Hq.
    assert (N : ∀ x, x ∈ [serve.package_file; serve.openapi_file; configure_file;
                          routes_file; serve.redoc_file] → q ≠ x).
    { intros x Hx. apply not_eq_sym. by eapply ne_of_not_elem_of. }
    assert (Hq2 : q ∉ [serve.package_file; serve.openapi_file]).
    { intros H. apply Hq.
      apply elem_of_cons in H as [->|H]; [in_list |].
      apply elem_of_cons in H as [->|H]; [in_list |]. by apply elem_of_nil in H. }
    destruct (Hrest3 q) as [E | (E1 & E2' & E3')]; [apply N; in_list | |].
    + rewrite E, E2 by (apply N; in_list).
      destruct (Hrest q Hq2) as [E' | (E1 & E2' & E3')]; [by left |].
      right. split_and!; [done | done |]. exists serve.resources_dir. split; [in_list | done].
    + rewrite E2 in E1 by (apply N; in_list).
      destruct (Hrest q Hq2) as [E' | (E1' & E2'' & E3'')]; [| congruence].
      right. split_and!; [congruence | done |]. exists views_dir. split; [in_list | done].
Qed.

End main_facts.

(** ** Sample runs *)

Section sample_runs.

Lemma well_formed_empty : well_formed ∅.
Proof. apply map_Forall_empty. Qed.

Lemma empty_no_file (q : list string) (c : string) :
  node_at ∅ q ≠ Some (File c).
Proof. by destruct q. Qed.

Lemma app_tree_well_formed : well_formed app_tree.
Proof. unfold well_formed. apply (bool_decide_unpack _). by vm_compute. Qed.

Lemma app_tree_no_file (q : list string) (c : string) :
  node_at app_tree q ≠ Some (File c).
Proof.
  destruct q as [|x q]; [done |]. intros H.
  change (app_tree !! (x :: q) = Some (File c)) in H.
  apply elem_of_list_to_map_2 in H.
  repeat (apply elem_of_cons in H as [H|H]; [done |]).
  by apply elem_of_nil in H.
Qed.

Lemma todo_project_tree_no_dir (dir : list string) (n : string) :
  length dir = 3 → todo_project_tree !! (dir ++ [n]) ≠ Some Dir.
Proof.
  intros Hlen H. apply elem_of_list_to_map_2 in H.
  repeat (apply elem_of_cons in H as [H|H];
          [injection H as H; apply (f_equal length) in H;
           rewrite length_app, Hlen in H; by vm_compute in H
          || discriminate H |]).
  by apply elem_of_nil in H.
Qed.



Lemma valid_tree_well_formed : well_formed valid_tree.
Proof. unfold well_formed. apply (bool_decide_unpack _). by vm_compute. Qed.



End sample_runs.

Lemma clean_file_settles_witness :
  ∃ t',
    run (clean_file "/p" routes_file ["TodoController"; "register(collection:"])
      todo_project_tree
    = (Returned (), World t' ["Cleaned file: " +:+ show "/p" routes_file])
    ∧ run (clean_file "/p" routes_file ["TodoController"; "register(collection:"]) t'
      = (Returned (), World t' ["Cleaned file: " +:+ show "/p" routes_file]).
Proof.
  destruct (clean_file_settles "/p" todo_project_tree routes_file
              ["TodoController"; "register(collection:"]
              ("import Vapor" +:+ nl
               +:+ "try app.register(collection: TodoController())" +:+ nl)
              eq_refl eq_refl)
    as (cleaned & t' & _ & _ & R1 & _ & R2).
  exists t'. by split.
Defined.

Lemma remove_todo_files_removes_witness :
  ∃ t' out,
    run (remove_todo_files "/p" controllers_dir) todo_project_tree
    = (Returned (), World t' out)
    ∧ t' !! (controllers_dir ++ ["TodoController.swift"]) = None
    ∧ t' !! (controllers_dir ++ ["UserController.swift"]) = Some (File "user").
Proof.
  destruct (remove_todo_files_removes "/p" todo_project_tree controllers_dir eq_refl)
    as (t' & R & H).
  { intros n _. by apply todo_project_tree_no_dir. }
  exists t'. eexists. split; [exact R |].
  split; by rewrite H.
Defined.

Lemma remove_todo_files_directory_witness :
  ∃ m w',
    contains "Todo" m = true
    ∧ todo_directory_tree !! (controllers_dir ++ [m]) = Some Dir
    ∧ run (remove_todo_files "/p" controllers_dir) todo_directory_tree
      = (Raised (IsADirectoryError (controllers_dir ++ [m])), w')
    ∧ tree w' !! (controllers_dir ++ [m]) = Some Dir.
Proof.
  exact (remove_todo_files_directory "/p" todo_directory_tree controllers_dir "Todos"
           eq_refl eq_refl eq_refl).
Defined.

Lemma clean_vapor_project_cleans_witness :
  ∃ t' out,
    run (clean_vapor_project "/p") todo_project_tree = (Returned (), World t' out)
    ∧ t' !! (controllers_dir ++ ["TodoController.swift"]) = None
    ∧ t' !! (migrations_dir ++ ["CreateTodo.swift"]) = None
    ∧ t' !! (controllers_dir ++ ["UserController.swift"]) = Some (File "user").
Proof.
  destruct (clean_vapor_project_cleans "/p" todo_project_tree
              ("import Vapor" +:+ nl
               +:+ "try app.register(collection: TodoController())" +:+ nl)
              ("import Vapor" +:+ nl +:+ "app.migrations.add(CreateTodo())" +:+ nl)
              eq_refl eq_refl eq_refl eq_refl eq_refl)
    as (t' & rc & rm & R & _ & _ & _ & _ & H).
  { intros n _. split; by apply todo_project_tree_no_dir. }
  exists t'. eexists. split; [exact R |].
  split_and!; by rewrite H.
Defined.

Lemma append_to_file_text_witness :
  ∃ text',
    run (append_to_file PACKAGE_FILE "    .package(x)," (Some "dependencies: ["))
      manifest_tree
    = (Returned (), World (<[PACKAGE_FILE := File text']> manifest_tree) [])
    ∧ text' = writelines ["let package = Package(" +:+ nl]
              +:+ ("    dependencies: [" +:+ nl)
              +:+ "    .package(x)," +:+ nl
              +:+ writelines ["    ]" +:+ nl; ")" +:+ nl].
Proof.
  destruct (append_to_file_text manifest_tree PACKAGE_FILE (writelines manifest_lines)
              "    .package(x)," (Some "dependencies: [") eq_refl eq_refl)
    as (text' & R & _ & _ & H).
  exists text'. split; [exact R |].
  apply (H "dependencies: [" ["let package = Package(" +:+ nl]
           ("    dependencies: [" +:+ nl) ["    ]" +:+ nl; ")" +:+ nl]);
    [reflexivity | done | reflexivity | | by apply contains_spec].
  constructor; [by apply contains_false | constructor].
Defined.

Lemma append_to_file_twice_witness :
  run (append_to_file PACKAGE_FILE "    .package(x)," (Some "dependencies: [") ;;
       append_to_file PACKAGE_FILE "    .product(y)" (Some "dependencies: ["))
    manifest_tree
  = (Returned (),
     World (<[PACKAGE_FILE :=
                File (writelines ["let package = Package(" +:+ nl]
                      +:+ ("    dependencies: [" +:+ nl)
                      +:+ "    .product(y)" +:+ nl
                      +:+ "    .package(x)," +:+ nl
                      +:+ writelines ["    ]" +:+ nl; ")" +:+ nl])]> manifest_tree) []).
Proof.
  apply (append_to_file_twice manifest_tree PACKAGE_FILE (writelines manifest_lines));
    [reflexivity | reflexivity | done | reflexivity | | by apply contains_spec
    | reflexivity].
  constructor; [by apply contains_false | constructor].
Defined.

Lemma write_file_writes_witness :
  ∃ t',
    run (write_file middleware.file_data_provider_path "x") ∅
    = (Returned (), World t' [])
    ∧ run (read_text middleware.file_data_provider_path) t'
      = (Returned "x", World t' []).
Proof.
  destruct (write_file_writes ∅ middleware.file_data_provider_path "x"
              well_formed_empty) as [_ H].
  { intros q c _. apply empty_no_file. }
  { done. }
  destruct H as (t' & R & _ & R' & _); [done |].
  exists t'. by split.
Defined.

Lemma create_file_first_wins_witness :
  ∃ t',
    run (create_file serve.openapi_file "first" ;;
         create_file serve.openapi_file "second") ∅
    = (Returned (), World t' [])
    ∧ t' !! serve.openapi_file = Some (File "first").
Proof.
  destruct (create_file_first_wins ∅ serve.openapi_file "first" "second")
    as (_ & _ & H).
  destruct (H eq_refl) as (t' & _ & _ & F & _ & R).
  - done.
  - exact well_formed_empty.
  - intros q c _. apply empty_no_file.
  - exists t'. by split.
Defined.

Lemma rollback_redoc_setup_removes_witness :
  ∃ t' out,
    run (rollback_redoc_setup "/p") valid_tree = (Returned (), World t' out)
    ∧ well_formed t'
    ∧ t' !! openapi_file = None
    ∧ t' !! redoc_css_file = None
    ∧ t' !! redoc_leaf_file = None.
Proof.
  destruct (rollback_redoc_setup_removes "/p" valid_tree valid_tree_well_formed)
    as (t' & R & W & G & _); [done | done | done | done | done |].
  exists t'. eexists. split; [exact R |]. split; [exact W |].
  split_and!; apply G.
  - left. by exists ["openapi.yml"].
  - right. left. by exists ["redoc.standalone.css"].
  - by right; right.
Defined.

Lemma rollback_redoc_setup_twice_witness :
  ∃ t' out out',
    run (rollback_redoc_setup "/p") valid_tree = (Returned (), World t' out)
    ∧ run (rollback_redoc_setup "/p") t' = (Returned (), World t' out').
Proof.
  destruct (rollback_redoc_setup_twice "/p" valid_tree valid_tree_well_formed)
    as (t' & out & R & R'); [done | done | done | done | done |].
  exists t', out. eexists. by split.
Defined.

Lemma rollback_then_validate_witness :
  ∃ t' out,
    run (rollback_redoc_setup "/p") valid_tree = (Returned (), World t' out)
    ∧ run (validate_redoc_setup "/p") t'
      = (Returned (),
         World t'
           ["Validation Failed:";
            "- Missing directory: " +:+ show "/p" openapi_dir;
            "- Missing directory: " +:+ show "/p" redoc_assets_dir;
            "- Missing file: " +:+ show "/p" openapi_file;
            "- Missing file: " +:+ show "/p" redoc_leaf_file;
            "- Missing file: " +:+ show "/p" redoc_css_file;
            "- Missing file: " +:+ show "/p" redoc_js_file;
            "- Route for '/openapi.yml' not found in: " +:+ show "/p" routes_file;
            "- Route for '/docs' not found in: " +:+ show "/p" routes_file;
            "- Leaf configuration not found in: " +:+ show "/p" configure_file]).
Proof.
  destruct (rollback_then_validate "/p" valid_tree valid_tree_well_formed)
    as (t' & out & R & R'); [done | done | done | done | done |].
  exists t', out. split; [exact R | exact R'].
Defined.


Lemma add_exclusions_after_first_opener_witness :
  Doc.add_exclusions package0
  = ["let package = Package(" +:+ nl]
    ++ ("    exclude: [" +:+ nl)
       :: (Doc.exclude_line <$> Doc.EXCLUDE_FILES)
       ++ ["    ]," +:+ nl; "    resources: [" +:+ nl; "    ]" +:+ nl; ")" +:+ nl].
Proof.
  apply (add_exclusions_after_first_opener ["let package = Package(" +:+ nl]
           ("    exclude: [" +:+ nl)
           ["    ]," +:+ nl; "    resources: [" +:+ nl; "    ]" +:+ nl; ")" +:+ nl]).
  - constructor; [by apply contains_false | constructor].
  - by apply contains_spec.
Defined.

Lemma update_resources_after_first_opener_witness :
  Doc.nested.update_resources package0
  = ["let package = Package(" +:+ nl; "    exclude: [" +:+ nl; "    ]," +:+ nl]
    ++ ("    resources: [" +:+ nl)
       :: Doc.process_views :: Doc.process_openapi
       :: ["    ]" +:+ nl; ")" +:+ nl].
Proof.
  apply (update_resources_after_first_opener package0
           ["let package = Package(" +:+ nl; "    exclude: [" +:+ nl; "    ]," +:+ nl]
           ("    resources: [" +:+ nl) ["    ]" +:+ nl; ")" +:+ nl]).
  - repeat (constructor; [by apply contains_false |]). constructor.
  - by apply contains_spec.
  - reflexivity.
Defined.

Lemma update_resources_twice_witness :
  Doc.nested.update_resources (Doc.nested.update_resources package0)
  = ["let package = Package(" +:+ nl; "    exclude: [" +:+ nl; "    ]," +:+ nl]
    ++ ("    resources: [" +:+ nl)
       :: Doc.process_views :: Doc.process_openapi
       :: Doc.process_views :: Doc.process_openapi
       :: ["    ]" +:+ nl; ")" +:+ nl].
Proof.
  apply (update_resources_twice package0
           ["let package = Package(" +:+ nl; "    exclude: [" +:+ nl; "    ]," +:+ nl]
           ("    resources: [" +:+ nl) ["    ]" +:+ nl; ")" +:+ nl]).
  - repeat (constructor; [by apply contains_false |]). constructor.
  - by apply contains_spec.
  - reflexivity.
Defined.

Lemma setup_vapor_redoc_installs_witness :
  ∃ t' out,
    run (setup_vapor_redoc "/p" answer_200) ∅
    = (Returned (), World t' (out ++ setup_complete))
    ∧ t' !! openapi_file = Some (File redoc.openapi_content)
    ∧ t' !! redoc_leaf_file = Some (File redoc.redoc_leaf_content)
    ∧ t' !! redoc_css_file
      = Some (File ("content of "
                    +:+ "https://cdn.jsdelivr.net/npm/redoc/bundles/redoc.standalone.css")).
Proof.
  destruct (setup_vapor_redoc_installs "/p" answer_200
              (λ url, (200, "content of " +:+ url)) ∅ well_formed_empty)
    as (t' & out & R & _ & _ & O & L & A & _).
  - intros d q c _ _. apply empty_no_file.
  - done.
  - done.
  - done.
  - exists t', out. split_and!; [exact R | exact O | exact L |].
    apply (A "redoc.standalone.css"
             "https://cdn.jsdelivr.net/npm/redoc/bundles/redoc.standalone.css").
    apply list_elem_of_here.
Defined.

Lemma setup_then_validate_witness :
  ∃ t' out,
    run (setup_vapor_redoc "/p" answer_200) ∅ = (Returned (), World t' out)
    ∧ run (validate_redoc_setup "/p") t'
      = (Returned (),
         World t'
           ["Validation Failed:";
            "- Missing file: " +:+ show "/p" routes_file;
            "- Missing file: " +:+ show "/p" configure_file]).
Proof.
  destruct (setup_then_validate "/p" answer_200
              (λ url, (200, "content of " +:+ url)) ∅ well_formed_empty)
    as (t' & out & R & R').
  - intros d q c _ _. apply empty_no_file.
  - by repeat constructor.
  - done.
  - done.
  - exists t', out. split; [exact R | exact R'].
Defined.

Lemma setup_vapor_redoc_twice_witness :
  ∃ t' out out',
    run (setup_vapor_redoc "/p" answer_200) ∅ = (Returned (), World t' out)
    ∧ run (setup_vapor_redoc "/p" (λ _, raise (OSError []))) t'
      = (Returned (), World t' out').
Proof.
  destruct (setup_vapor_redoc_twice "/p" answer_200
              (λ url, (200, "content of " +:+ url)) ∅ well_formed_empty)
    as (t' & out & R & R').
  - intros d q c _ _. apply empty_no_file.
  - done.
  - done.
  - done.
  - done.
  - exists t', out. eexists. split; [exact R | apply R'].
Defined.

Lemma create_openapi_solution_writes_witness :
  ∃ t' out,
    run (create_openapi_solution "/p") app_tree = (Returned (), World t' out)
    ∧ t' !! routes_file = Some (File routes_content)
    ∧ routes_discrepancies "/p" t' = [].
Proof.
  destruct (create_openapi_solution_writes "/p" app_tree app_tree_well_formed)
    as (t' & R & _ & _ & _ & Hr & Hd & _).
  - intros d q c _ _. apply app_tree_no_file.
  - by repeat constructor.
  - reflexivity.
  - exists t'. eexists. by split_and!.
Defined.


Lemma middleware_main_run_witness :
  ∃ t' out,
    run middleware.main ∅ = (Returned (), World t' out)
    ∧ t' !! middleware.file_data_provider_path
      = Some (File middleware.file_data_provider_content)
    ∧ t' !! configure_file = Some (File middleware.configure_content).
Proof.
  destruct (middleware_main_run ∅ well_formed_empty) as (t' & R & P & C & _).
  - intros q c _. apply empty_no_file.
  - done.
  - done.
  - exists t'. eexists. by split_and!.
Defined.


Lemma serve_main_run_witness :
  ∃ t' out,
    run serve.main app_tree = (Returned (), World t' out)
    ∧ t' !! configure_file = Some (File serve.middleware_content)
    ∧ t' !! routes_file = Some (File serve.route_content)
    ∧ t' !! serve.redoc_file = Some (File serve.redoc_content).
Proof.
  destruct (serve_main_run app_tree app_tree_well_formed)
    as (t' & R & _ & C & Ro & _ & L & _).
  - by repeat constructor.
  - intros d q c _ _. apply app_tree_no_file.
  - reflexivity.
  - exists t'. eexists. by split_and!.
Defined.

Lemma fix_resource_conflicts_moves_all_witness :
  ∃ k t',
    (∀ fuel,
       run (fix_resource_conflicts_steps12 "/p" (k + fuel)) collision_app_tree
       = (Returned (),
          World t' ["Moved resources from " +:+
                    show "/p" conflicts.NESTED_RESOURCES_DIR +:+ " to " +:+
                    show "/p" conflicts.RESOURCES_DIR +:+ "."]))
    ∧ t' !! (conflicts.RESOURCES_DIR ++ ["a.txt"]) = Some (File "new")
    ∧ t' !! (conflicts.NESTED_RESOURCES_DIR ++ ["a.txt"]) = None.
Proof.
  destruct (fix_resource_conflicts_moves_all "/p" collision_app_tree
              collision_app_tree_well_formed eq_refl)
    as (k & t' & R & F & _ & G).
  - apply no_file_over_dir_check_spec. by vm_compute.
  - apply no_file_over_dir_check_spec. by vm_compute.
  - done.
  - done.
  - exists k, t'. split_and!; [exact R | by apply F |].
    apply G. by exists ["App"; "Resources"; "a.txt"].
Defined.

Lemma fix_nested_resources_moves_all_witness :
  ∃ k t',
    (∀ fuel,
       run (fix_nested_resources_steps12 "/p" (k + fuel)) collision_tree
       = (Returned (),
          World t' ["Moved resources from " +:+
                    show "/p" nested.INCORRECT_RESOURCES_DIR +:+ " to " +:+
                    show "/p" nested.CORRECT_RESOURCES_DIR +:+ "."]))
    ∧ t' !! (nested.CORRECT_RESOURCES_DIR ++ ["a.txt"]) = Some (File "new")
    ∧ t' !! (nested.INCORRECT_RESOURCES_DIR ++ ["a.txt"]) = None.
Proof.
  destruct (fix_nested_resources_moves_all "/p" collision_tree
              collision_tree_well_formed eq_refl eq_refl)
    as (k & t' & R & F & _ & G).
  - apply no_file_over_dir_check_spec. by vm_compute.
  - apply no_file_over_dir_check_spec. by vm_compute.
  - done.
  - done.
  - exists k, t'. split_and!; [exact R | by apply F |].
    apply G. by exists ["App"; "Resources"; "a.txt"].
Defined.

Lemma add_exclusions_never_idempotent_witness :
  Doc.add_exclusions (Doc.add_exclusions package0) ≠ Doc.add_exclusions package0.
Proof.
  apply add_exclusions_never_idempotent.
  apply Exists_cons_tl, Exists_cons_hd. by apply contains_spec.
Defined.
